(** * Traffic Director resource lifecycle: a shallow embedding

    This development embeds [framework/infrastructure/traffic_director.py]
    (classes [TrafficDirectorManager], [TrafficDirectorAppNetManager] and
    [TrafficDirectorSecureManager]) and states the lifecycle properties of
    the orchestrator over that embedding.

    - A manager object is a record; its [Optional] resource attributes are
      one finite map from attribute name to resource handle, where an
      attribute holding [None] is absent from the map.
    - A method is a computation in the monad [Py]: it reads and writes the
      object, appends every collaborator call to a chronological trace,
      appends log records, and either returns or raises.  Attribute writes
      made before a [raise] stay, as in Python.
    - The remote control plane is an oracle that answers a call from the
      history of calls issued so far. *)

From stdpp Require Import base option list strings gmap fin_maps countable pretty.

Open Scope string_scope.
Open Scope Z_scope.
Open Scope list_scope.

(** ** Data carried by the collaborators *)

(** Modelled from the spec: [gcp.compute.ComputeV1.GcpResource] is declared
    in [framework.infrastructure.gcp], which is absent here; the spec's
    ResourceRef carries a name and a URL.  The mesh, route and policy
    handles of the network gateways are used through the same two fields. *)
Module GcpResource.
Record t := Build { name : string; url : string }.
#[global] Instance eq_dec : EqDecision t.
Proof. solve_decision. Defined.
End GcpResource.

(** Modelled from the spec: [NegGcpResource] (a zonal resource) is declared
    in the absent gcp package; a NEG reference is unique by zone and name. *)
Module NegGcpResource.
Record t := Build { name : string; url : string; zone : string }.
#[global] Instance eq_dec : EqDecision t.
Proof. solve_decision. Defined.
#[global] Instance countable : Countable t.
Proof.
  apply (inj_countable'
           (fun n => (name n, url n, zone n))
           (fun p => Build p.1.1 p.1.2 p.2)).
  by intros [].
Defined.
End NegGcpResource.

(** Modelled from the spec: the protocol enum of the absent gcp package,
    [{GRPC, HTTP2, UNSET}]. *)
Module BackendServiceProtocol.
Inductive t := HTTP2 | GRPC | UNSET.
Definition name (p : t) : string :=
  match p with HTTP2 => "HTTP2" | GRPC => "GRPC" | UNSET => "UNSET" end.
End BackendServiceProtocol.

(** Modelled from the spec: the health-check protocol enum of the absent gcp
    package; this file names only its [GRPC] member. *)
Module HealthCheckProtocol.
Inductive t := TCP | GRPC.
Definition name (p : t) : string :=
  match p with TCP => "TCP" | GRPC => "GRPC" end.
End HealthCheckProtocol.

Definition _BackendGRPC := BackendServiceProtocol.GRPC.
Definition _BackendUnset := BackendServiceProtocol.UNSET.
Definition _HealthCheckGRPC := HealthCheckProtocol.GRPC.

Definition TEST_AFFINITY_METADATA_KEY : string := "xds_md".

(** Request bodies are Python dicts and lists of strings; a dict keeps its
    keys in insertion order. *)
#[local] Set Warnings "-register-all".
Inductive Json :=
| JNull
| JBool (b : bool)
| JInt (z : Z)
| JStr (s : string)
| JList (l : list Json)
| JDict (fields : list (string * Json)).

(** ** Collaborator calls *)

Module compute.
Inductive call :=
| create_health_check (name : string) (protocol : HealthCheckProtocol.t)
    (port : option Z)
| delete_health_check (name : string)
| create_backend_service_traffic_director (name : string)
    (health_check : option GcpResource.t)
    (protocol : BackendServiceProtocol.t)
    (subset_size : option Z) (affinity_header : option string)
    (locality_lb_policies : option (list Json))
    (outlier_detection : option Json) (enable_dualstack : bool)
| get_backend_service_traffic_director (name : string)
| delete_backend_service (name : string)
| patch_backend_service (backend_service : option GcpResource.t)
    (body : Json)
| wait_for_network_endpoint_group (name zone : string)
| backend_service_patch_backends (backend_service : option GcpResource.t)
    (backends : gset NegGcpResource.t) (max_rate_per_endpoint : option Z)
    (circuit_breakers : option Json)
| backend_service_remove_all_backends
    (backend_service : option GcpResource.t)
| wait_for_backends_healthy_status (backend_service : option GcpResource.t)
    (backends : gset NegGcpResource.t) (replica_count : Z)
| create_url_map_with_content (body : Json)
| patch_url_map (url_map : option GcpResource.t) (body : Json)
| delete_url_map (name : string)
| create_target_grpc_proxy (name : string) (url_map : option GcpResource.t)
    (validate_for_proxyless : option bool)
| create_target_http_proxy (name : string) (url_map : option GcpResource.t)
| delete_target_grpc_proxy (name : string)
| delete_target_http_proxy (name : string)
| exists_forwarding_rule (src_port : Z)
| create_forwarding_rule (name : string) (src_port : Z)
    (target_proxy : option GcpResource.t) (network_url : string)
    (ip_address : option string)
| delete_forwarding_rule (name : string)
| create_firewall_rule (name network_url source_range : string)
    (allowed_ports : list string)
| delete_firewall_rule (name : string).
End compute.

Module netsvc.
Inductive call :=
| create_mesh (name : string) (body : Json)
| get_mesh (name : string)
| delete_mesh (name : string)
| create_grpc_route (name : string) (body : Json)
| get_grpc_route (name : string)
| delete_grpc_route (name : string)
| create_http_route (name : string) (body : Json)
| get_http_route (name : string)
| delete_http_route (name : string)
| create_endpoint_policy (name : string) (body : Json)
| get_endpoint_policy (name : string)
| delete_endpoint_policy (name : string).
End netsvc.

Module netsec.
Inductive call :=
| create_server_tls_policy (name : string) (body : Json)
| get_server_tls_policy (name : string)
| delete_server_tls_policy (name : string)
| create_client_tls_policy (name : string) (body : Json)
| get_client_tls_policy (name : string)
| delete_client_tls_policy (name : string)
| create_authz_policy (name : string) (body : Json)
| get_authz_policy (name : string)
| delete_authz_policy (name : string).
End netsec.

(** One remote round trip, tagged with the gateway object it goes through
    ([self.compute], [self.netsvc], [self.netsec]). *)
Inductive Call :=
| Compute (c : compute.call)
| NetSvc (c : netsvc.call)
| NetSec (c : netsec.call).

(** ** Exceptions and log records *)

Inductive Exn :=
| ValueError (msg : string)
| TypeError (msg : string)
| RuntimeError (msg : string)
| AttributeError (attribute : string)
  (** [googleapiclient.errors.Error] and its subclasses *)
| GoogleApiError (detail : string)
  (** any other exception a collaborator lets escape *)
| OtherError (detail : string).

Inductive Level := DEBUG | INFO | WARNING.

Inductive LogArg :=
| AStr (s : string)
| AInt (z : Z)
| AStrs (l : list string)
| AJson (j : Json)
| AResource (r : option GcpResource.t)
| ANegs (s : gset NegGcpResource.t)
| AExn (e : Exn).

Record LogRecord := Log { levelname : Level; msg : string; args : list LogArg }.

(** ** The remote side

    Every answer may depend on the calls issued so far (the remote state
    changes under the orchestrator).  [raises] decides whether a call lets an
    exception escape; the other fields give the value a successful call
    returns.  [resource_full_name] is the local name computation of the
    network-services gateway. *)
Record Gateway := {
  raises : list Call -> Call -> option Exn;
  resource : list Call -> Call -> GcpResource.t;
  network_endpoint_group : list Call -> Call -> NegGcpResource.t;
  flag : list Call -> Call -> bool;
  resource_full_name : string -> string -> string;
}.

(** ** The manager object *)

(** The attributes that hold [Optional] resource handles. *)
Inductive Attr :=
| health_check | url_map | alternative_url_map
| firewall_rule | firewall_rule_ipv6
| target_proxy | target_proxy_ipv6 | alternative_target_proxy
| forwarding_rule | forwarding_rule_ipv6 | alternative_forwarding_rule
| backend_service | affinity_backend_service | alternative_backend_service
  (** [TrafficDirectorAppNetManager] *)
| grpc_route | http_route | mesh
  (** [TrafficDirectorSecureManager] *)
| server_tls_policy | client_tls_policy | authz_policy | endpoint_policy.

#[global] Instance Attr_eq_dec : EqDecision Attr.
Proof. solve_decision. Defined.

Definition Attr_all : list Attr :=
  [ health_check; url_map; alternative_url_map; firewall_rule;
    firewall_rule_ipv6; target_proxy; target_proxy_ipv6;
    alternative_target_proxy; forwarding_rule; forwarding_rule_ipv6;
    alternative_forwarding_rule; backend_service; affinity_backend_service;
    alternative_backend_service; grpc_route; http_route; mesh;
    server_tls_policy; client_tls_policy; authz_policy; endpoint_policy ].

Definition Attr_index (a : Attr) : nat :=
  match a with
  | health_check => 0 | url_map => 1 | alternative_url_map => 2
  | firewall_rule => 3 | firewall_rule_ipv6 => 4
  | target_proxy => 5 | target_proxy_ipv6 => 6
  | alternative_target_proxy => 7
  | forwarding_rule => 8 | forwarding_rule_ipv6 => 9
  | alternative_forwarding_rule => 10
  | backend_service => 11 | affinity_backend_service => 12
  | alternative_backend_service => 13
  | grpc_route => 14 | http_route => 15 | mesh => 16
  | server_tls_policy => 17 | client_tls_policy => 18
  | authz_policy => 19 | endpoint_policy => 20
  end%nat.

#[global] Instance Attr_countable : Countable Attr.
Proof.
  apply (inj_countable' Attr_index (fun n => default health_check (Attr_all !! n))).
  by intros [].
Defined.

Record TrafficDirector := {
  (* Settings *)
  project : string;
  network : string;
  resource_prefix : string;
  resource_suffix : option string;
  enable_dualstack : bool;
  (* Managed resources *)
  resources : gmap Attr GcpResource.t;
  target_proxy_is_http : bool;
  (* Backends *)
  backends : gset NegGcpResource.t;
  affinity_backends : gset NegGcpResource.t;
  alternative_backends : gset NegGcpResource.t;
  backend_service_protocol : BackendServiceProtocol.t;
  affinity_backend_service_protocol : BackendServiceProtocol.t;
  alternative_backend_service_protocol : BackendServiceProtocol.t;
  (* Protected *)
  _ensure_firewall : bool;
}.

(** [__init__]: every slot starts empty, the protocol fields and the
    firewall flag keep their class-level defaults. *)
Definition __init__ (project : string) (resource_prefix : string)
    (resource_suffix : option string) (network : string)
    (enable_dualstack : bool) : TrafficDirector :=
  {| project := project; network := network;
     resource_prefix := resource_prefix; resource_suffix := resource_suffix;
     enable_dualstack := enable_dualstack;
     resources := ∅; target_proxy_is_http := false;
     backends := ∅; affinity_backends := ∅; alternative_backends := ∅;
     backend_service_protocol := _BackendUnset;
     affinity_backend_service_protocol := _BackendUnset;
     alternative_backend_service_protocol := _BackendUnset;
     _ensure_firewall := false |}.

(** ** The monad of methods *)

Record World := {
  obj : TrafficDirector;            (* [self] *)
  remote : Gateway;
  entropy : nat -> Z;               (* raw values behind [random] *)
  draws : nat;                      (* samples drawn so far *)
  calls : list Call;                (* remote calls, oldest first *)
  logged : list LogRecord;          (* log records, oldest first *)
}.

Inductive Outcome (A : Type) :=
| Return (a : A)
| Raise (e : Exn).
Arguments Return {A} a.
Arguments Raise {A} e.

Definition Py (A : Type) : Type := World -> Outcome A * World.

#[global] Instance Py_ret : MRet Py := fun A a w => (Return a, w).

#[global] Instance Py_bind : MBind Py := fun A B k m w =>
  match m w with
  | (Return a, w') => k a w'
  | (Raise e, w') => (Raise e, w')
  end.

Definition raise {A} (e : Exn) : Py A := fun w => (Raise e, w).

(** [try: m except googleapiclient.errors.Error as e: handler e] *)
Definition try_except_google {A} (m : Py A) (handler : Exn -> Py A) : Py A :=
  fun w =>
    match m w with
    | (Raise (GoogleApiError d), w') => handler (GoogleApiError d) w'
    | r => r
    end.

Definition self : Py TrafficDirector := fun w => (Return (obj w), w).

(** The gateway objects held by the manager. *)
Definition collaborators : Py Gateway := fun w => (Return (remote w), w).

Definition modify (f : TrafficDirector -> TrafficDirector) : Py unit :=
  fun w =>
    (Return tt,
     {| obj := f (obj w); remote := remote w; entropy := entropy w;
        draws := draws w; calls := calls w; logged := logged w |}).

Definition emit (r : LogRecord) : Py unit :=
  fun w =>
    (Return tt,
     {| obj := obj w; remote := remote w; entropy := entropy w;
        draws := draws w; calls := calls w; logged := logged w ++ [r] |}).

(** One blocking round trip: the call is recorded, then the collaborator either
    lets an exception escape or answers. *)
Definition invoke {A} (answer : Gateway -> list Call -> Call -> A) (c : Call)
  : Py A :=
  fun w =>
    let w' := {| obj := obj w; remote := remote w; entropy := entropy w;
                 draws := draws w; calls := calls w ++ [c];
                 logged := logged w |} in
    match raises (remote w) (calls w) c with
    | Some e => (Raise e, w')
    | None => (Return (answer (remote w) (calls w) c), w')
    end.

Definition invoke_ (c : Call) : Py unit := invoke (fun _ _ _ => tt) c.

(** [random.randint(lo, hi)]: [lo + randbelow(hi - lo + 1)], a [ValueError]
    on an empty range. *)
Definition randint (lo hi : Z) : Py Z :=
  fun w =>
    if hi <? lo then (Raise (ValueError "empty range for randrange()"), w)
    else
      (Return (lo + entropy w (draws w) `mod` (hi - lo + 1)),
       {| obj := obj w; remote := remote w; entropy := entropy w;
          draws := S (draws w); calls := calls w; logged := logged w |}).

Module logger.
Definition info (msg : string) (args : list LogArg) : Py unit :=
  emit (Log INFO msg args).
Definition debug (msg : string) (args : list LogArg) : Py unit :=
  emit (Log DEBUG msg args).
Definition warning (msg : string) (args : list LogArg) : Py unit :=
  emit (Log WARNING msg args).
End logger.

(** *** Attribute access *)

Definition set_resources (m : gmap Attr GcpResource.t) (s : TrafficDirector)
  : TrafficDirector :=
  {| project := project s; network := network s;
     resource_prefix := resource_prefix s;
     resource_suffix := resource_suffix s;
     enable_dualstack := enable_dualstack s;
     resources := m; target_proxy_is_http := target_proxy_is_http s;
     backends := backends s; affinity_backends := affinity_backends s;
     alternative_backends := alternative_backends s;
     backend_service_protocol := backend_service_protocol s;
     affinity_backend_service_protocol := affinity_backend_service_protocol s;
     alternative_backend_service_protocol :=
       alternative_backend_service_protocol s;
     _ensure_firewall := _ensure_firewall s |}.

Definition set_target_proxy_is_http (b : bool) (s : TrafficDirector)
  : TrafficDirector :=
  {| project := project s; network := network s;
     resource_prefix := resource_prefix s;
     resource_suffix := resource_suffix s;
     enable_dualstack := enable_dualstack s;
     resources := resources s; target_proxy_is_http := b;
     backends := backends s; affinity_backends := affinity_backends s;
     alternative_backends := alternative_backends s;
     backend_service_protocol := backend_service_protocol s;
     affinity_backend_service_protocol := affinity_backend_service_protocol s;
     alternative_backend_service_protocol :=
       alternative_backend_service_protocol s;
     _ensure_firewall := _ensure_firewall s |}.

Definition set_ensure_firewall (b : bool) (s : TrafficDirector)
  : TrafficDirector :=
  {| project := project s; network := network s;
     resource_prefix := resource_prefix s;
     resource_suffix := resource_suffix s;
     enable_dualstack := enable_dualstack s;
     resources := resources s;
     target_proxy_is_http := target_proxy_is_http s;
     backends := backends s; affinity_backends := affinity_backends s;
     alternative_backends := alternative_backends s;
     backend_service_protocol := backend_service_protocol s;
     affinity_backend_service_protocol := affinity_backend_service_protocol s;
     alternative_backend_service_protocol :=
       alternative_backend_service_protocol s;
     _ensure_firewall := b |}.

Definition set_backends (b : gset NegGcpResource.t) (s : TrafficDirector)
  : TrafficDirector :=
  {| project := project s; network := network s;
     resource_prefix := resource_prefix s;
     resource_suffix := resource_suffix s;
     enable_dualstack := enable_dualstack s;
     resources := resources s;
     target_proxy_is_http := target_proxy_is_http s;
     backends := b; affinity_backends := affinity_backends s;
     alternative_backends := alternative_backends s;
     backend_service_protocol := backend_service_protocol s;
     affinity_backend_service_protocol := affinity_backend_service_protocol s;
     alternative_backend_service_protocol :=
       alternative_backend_service_protocol s;
     _ensure_firewall := _ensure_firewall s |}.



Definition set_backend_service_protocol (p : BackendServiceProtocol.t)
    (s : TrafficDirector) : TrafficDirector :=
  {| project := project s; network := network s;
     resource_prefix := resource_prefix s;
     resource_suffix := resource_suffix s;
     enable_dualstack := enable_dualstack s;
     resources := resources s;
     target_proxy_is_http := target_proxy_is_http s;
     backends := backends s; affinity_backends := affinity_backends s;
     alternative_backends := alternative_backends s;
     backend_service_protocol := p;
     affinity_backend_service_protocol := affinity_backend_service_protocol s;
     alternative_backend_service_protocol :=
       alternative_backend_service_protocol s;
     _ensure_firewall := _ensure_firewall s |}.

Definition set_affinity_backend_service_protocol
    (p : BackendServiceProtocol.t) (s : TrafficDirector) : TrafficDirector :=
  {| project := project s; network := network s;
     resource_prefix := resource_prefix s;
     resource_suffix := resource_suffix s;
     enable_dualstack := enable_dualstack s;
     resources := resources s;
     target_proxy_is_http := target_proxy_is_http s;
     backends := backends s; affinity_backends := affinity_backends s;
     alternative_backends := alternative_backends s;
     backend_service_protocol := backend_service_protocol s;
     affinity_backend_service_protocol := p;
     alternative_backend_service_protocol :=
       alternative_backend_service_protocol s;
     _ensure_firewall := _ensure_firewall s |}.

Definition set_alternative_backend_service_protocol
    (p : BackendServiceProtocol.t) (s : TrafficDirector) : TrafficDirector :=
  {| project := project s; network := network s;
     resource_prefix := resource_prefix s;
     resource_suffix := resource_suffix s;
     enable_dualstack := enable_dualstack s;
     resources := resources s;
     target_proxy_is_http := target_proxy_is_http s;
     backends := backends s; affinity_backends := affinity_backends s;
     alternative_backends := alternative_backends s;
     backend_service_protocol := backend_service_protocol s;
     affinity_backend_service_protocol := affinity_backend_service_protocol s;
     alternative_backend_service_protocol := p;
     _ensure_firewall := _ensure_firewall s |}.

(** [self.a]: the handle, or [None]. *)
Definition getattr (a : Attr) : Py (option GcpResource.t) :=
  s ← self; mret (resources s !! a).

(** [self.a = v] *)
Definition setattr (a : Attr) (v : option GcpResource.t) : Py unit :=
  modify (fun s =>
    set_resources
      (match v with
       | Some r => <[a := r]> (resources s)
       | None => delete a (resources s)
       end) s).

(** [o.field] on an [Optional] handle: an [AttributeError] on [None]. *)
Definition deref (field : string) (o : option GcpResource.t)
  : Py GcpResource.t :=
  match o with
  | Some r => mret r
  | None => raise (AttributeError field)
  end.

(** [bool(s)] of a string that may be [None]. *)
Definition truthy (s : option string) : bool :=
  match s with
  | Some (String _ _) => true
  | _ => false
  end.

Definition nonempty (s : string) : bool := truthy (Some s).

(** [sep.join(parts)] *)
Fixpoint join (sep : string) (parts : list string) : string :=
  match parts with
  | [] => EmptyString
  | p :: ps =>
      match ps with
      | [] => p
      | _ :: _ => p +:+ sep +:+ join sep ps
      end
  end.

(** ** [class TrafficDirectorManager]

    Log format strings are kept with their inner double quotes written as
    single quotes. *)
Module TrafficDirectorManager.

Definition BACKEND_SERVICE_NAME : string := "backend-service".
Definition AFFINITY_BACKEND_SERVICE_NAME : string := "backend-service-affinity".
Definition ALTERNATIVE_BACKEND_SERVICE_NAME : string := "backend-service-alt".

Definition URL_MAP_NAME : string := "url-map".
Definition ALTERNATIVE_URL_MAP_NAME : string := "url-map-alt".

Definition URL_MAP_PATH_MATCHER_NAME : string := "path-matcher".

Definition TARGET_PROXY_NAME : string := "target-proxy".
Definition TARGET_PROXY_NAME_IPV6 : string := "target-proxy-ipv6".
Definition ALTERNATIVE_TARGET_PROXY_NAME : string := "target-proxy-alt".

Definition FORWARDING_RULE_NAME : string := "forwarding-rule".
Definition FORWARDING_RULE_NAME_IPV6 : string := "forwarding-rule-ipv6".
Definition ALTERNATIVE_FORWARDING_RULE_NAME : string := "forwarding-rule-alt".

Definition HEALTH_CHECK_NAME : string := "health-check".

Definition FIREWALL_RULE_NAME : string := "allow-health-checks".
Definition FIREWALL_RULE_NAME_IPV6 : string := "allow-health-checks-ipv6".

Definition network_url (s : TrafficDirector) : string :=
  "global/networks/" +:+ network s.

(** The body of [make_resource_name].  The method is memoised with
    [functools.lru_cache] (see [make_resource_name_cached]); the prefix and
    the suffix are assigned by the constructor only, so the methods below
    use the computed value. *)
Definition make_resource_name (s : TrafficDirector) (name : string) : string :=
  let parts := [resource_prefix s; name] in
  (* Avoid trailing dash when the suffix is empty. *)
  let parts :=
    if truthy (resource_suffix s)
    then (parts ++ [default EmptyString (resource_suffix s)])%list
    else parts in
  join "-" parts.

(** [@functools.lru_cache(None)] around [make_resource_name]: the cache of
    one manager object, keyed by the [name] argument. *)
Definition make_resource_name_cached (cache : gmap string string)
    (s : TrafficDirector) (name : string) : string * gmap string string :=
  match cache !! name with
  | Some hit => (hit, cache)
  | None =>
      let value := make_resource_name s name in
      (value, <[name := value]> cache)
  end.

Definition create_health_check (protocol : option HealthCheckProtocol.t)
    (port : option Z) : Py unit :=
  s ← self;
  match resources s !! health_check with
  | Some hc =>
      raise (ValueError ("Health check " +:+ GcpResource.name hc +:+
                         " already created, delete it first"))
  | None =>
      let protocol := default _HealthCheckGRPC protocol in
      let name := make_resource_name s HEALTH_CHECK_NAME in
      logger.info "Creating %s Health Check '%s'"
        [AStr (HealthCheckProtocol.name protocol); AStr name];;
      resource ← invoke resource
        (Compute (compute.create_health_check name protocol port));
      setattr health_check (Some resource)
  end.

Definition delete_health_check (force : bool) : Py unit :=
  s ← self;
  let delete name :=
    logger.info "Deleting Health Check '%s'" [AStr name];;
    invoke_ (Compute (compute.delete_health_check name));;
    setattr health_check None in
  if force then delete (make_resource_name s HEALTH_CHECK_NAME)
  else match resources s !! health_check with
       | Some r => delete (GcpResource.name r)
       | None => mret tt
       end.

Definition create_backend_service (protocol : option BackendServiceProtocol.t)
    (subset_size : option Z) (affinity_header : option string)
    (locality_lb_policies : option (list Json))
    (outlier_detection : option Json) : Py unit :=
  s ← self;
  let protocol := default _BackendGRPC protocol in
  let name := make_resource_name s BACKEND_SERVICE_NAME in
  logger.info "Creating %s Backend Service '%s'"
    [AStr (BackendServiceProtocol.name protocol); AStr name];;
  resource ← invoke resource
    (Compute (compute.create_backend_service_traffic_director name
                (resources s !! health_check) protocol subset_size
                affinity_header locality_lb_policies outlier_detection
                (enable_dualstack s)));
  setattr backend_service (Some resource);;
  modify (set_backend_service_protocol protocol).

Definition load_backend_service : Py unit :=
  s ← self;
  let name := make_resource_name s BACKEND_SERVICE_NAME in
  resource ← invoke resource
    (Compute (compute.get_backend_service_traffic_director name));
  setattr backend_service (Some resource).

Definition delete_backend_service (force : bool) : Py unit :=
  s ← self;
  let delete name :=
    logger.info "Deleting Backend Service '%s'" [AStr name];;
    invoke_ (Compute (compute.delete_backend_service name));;
    setattr backend_service None in
  if force then delete (make_resource_name s BACKEND_SERVICE_NAME)
  else match resources s !! backend_service with
       | Some r => delete (GcpResource.name r)
       | None => mret tt
       end.

Fixpoint _get_gcp_negs_loop (name : string) (zones : list string)
    (backends : gset NegGcpResource.t) : Py (gset NegGcpResource.t) :=
  match zones with
  | [] => mret backends
  | zone :: zones =>
      neg ← invoke network_endpoint_group
        (Compute (compute.wait_for_network_endpoint_group name zone));
      _get_gcp_negs_loop name zones (backends ∪ {[neg]})
  end.

Definition _get_gcp_negs_in_zones (name : string) (zones : list string)
  : Py (gset NegGcpResource.t) :=
  logger.info "Loading Network Endpoint Groups in zones %s." [AStrs zones];;
  _get_gcp_negs_loop name zones ∅.

Definition backend_service_patch_backends (max_rate_per_endpoint : option Z)
    (circuit_breakers : option Json) : Py unit :=
  s ← self;
  bs ← deref "name" (resources s !! backend_service);
  logger.info "Adding backends to Backend Service %s: %r"
    [AStr (GcpResource.name bs); ANegs (backends s)];;
  invoke_ (Compute (compute.backend_service_patch_backends
                      (resources s !! backend_service) (backends s)
                      max_rate_per_endpoint circuit_breakers)).


Definition backend_service_remove_neg_backends (name : string)
    (zones : list string) : Py unit :=
  negs ← _get_gcp_negs_in_zones name zones;
  modify (fun s => set_backends (backends s ∖ negs) s);;
  backend_service_patch_backends None None.

Definition backend_service_remove_all_backends : Py unit :=
  s ← self;
  bs ← deref "name" (resources s !! backend_service);
  logger.info "Removing backends from Backend Service %s"
    [AStr (GcpResource.name bs)];;
  invoke_ (Compute (compute.backend_service_remove_all_backends
                      (resources s !! backend_service))).

Definition wait_for_backends_healthy_status (replica_count : Z) : Py unit :=
  s ← self;
  bs ← deref "name" (resources s !! backend_service);
  logger.info "Waiting for Backend Service %s to report backends healthy: %r"
    [AStr (GcpResource.name bs); ANegs (backends s)];;
  invoke_ (Compute (compute.wait_for_backends_healthy_status
                      (resources s !! backend_service) (backends s)
                      replica_count)).

Definition create_alternative_backend_service
    (protocol : option BackendServiceProtocol.t) : Py unit :=
  s ← self;
  let protocol := default _BackendGRPC protocol in
  let name := make_resource_name s ALTERNATIVE_BACKEND_SERVICE_NAME in
  logger.info "Creating %s Alternative Backend Service '%s'"
    [AStr (BackendServiceProtocol.name protocol); AStr name];;
  resource ← invoke resource
    (Compute (compute.create_backend_service_traffic_director name
                (resources s !! health_check) protocol None None None None
                (enable_dualstack s)));
  setattr alternative_backend_service (Some resource);;
  modify (set_alternative_backend_service_protocol protocol).

Definition load_alternative_backend_service : Py unit :=
  s ← self;
  let name := make_resource_name s ALTERNATIVE_BACKEND_SERVICE_NAME in
  resource ← invoke resource
    (Compute (compute.get_backend_service_traffic_director name));
  setattr alternative_backend_service (Some resource).

Definition delete_alternative_backend_service (force : bool) : Py unit :=
  s ← self;
  let delete name :=
    logger.info "Deleting Alternative Backend Service '%s'" [AStr name];;
    invoke_ (Compute (compute.delete_backend_service name));;
    setattr alternative_backend_service None in
  if force then delete (make_resource_name s ALTERNATIVE_BACKEND_SERVICE_NAME)
  else match resources s !! alternative_backend_service with
       | Some r => delete (GcpResource.name r)
       | None => mret tt
       end.




Definition wait_for_alternative_backends_healthy_status (replica_count : Z)
  : Py unit :=
  s ← self;
  logger.debug
    "Waiting for Alternative Backend Service %s to report backends healthy: %r"
    [AResource (resources s !! alternative_backend_service);
     ANegs (alternative_backends s)];;
  invoke_ (Compute (compute.wait_for_backends_healthy_status
                      (resources s !! alternative_backend_service)
                      (alternative_backends s) replica_count)).

Definition create_affinity_backend_service
    (protocol : option BackendServiceProtocol.t) : Py unit :=
  s ← self;
  let protocol := default _BackendGRPC protocol in
  let name := make_resource_name s AFFINITY_BACKEND_SERVICE_NAME in
  logger.info "Creating %s Affinity Backend Service '%s'"
    [AStr (BackendServiceProtocol.name protocol); AStr name];;
  resource ← invoke resource
    (Compute (compute.create_backend_service_traffic_director name
                (resources s !! health_check) protocol None
                (Some TEST_AFFINITY_METADATA_KEY) None None
                (enable_dualstack s)));
  setattr affinity_backend_service (Some resource);;
  modify (set_affinity_backend_service_protocol protocol).

Definition load_affinity_backend_service : Py unit :=
  s ← self;
  let name := make_resource_name s AFFINITY_BACKEND_SERVICE_NAME in
  resource ← invoke resource
    (Compute (compute.get_backend_service_traffic_director name));
  setattr affinity_backend_service (Some resource).

Definition delete_affinity_backend_service (force : bool) : Py unit :=
  s ← self;
  let delete name :=
    logger.info "Deleting Affinity Backend Service '%s'" [AStr name];;
    invoke_ (Compute (compute.delete_backend_service name));;
    setattr affinity_backend_service None in
  if force then delete (make_resource_name s AFFINITY_BACKEND_SERVICE_NAME)
  else match resources s !! affinity_backend_service with
       | Some r => delete (GcpResource.name r)
       | None => mret tt
       end.




Definition wait_for_affinity_backends_healthy_status (replica_count : Z)
  : Py unit :=
  s ← self;
  logger.debug
    "Waiting for Affinity Backend Service %s to report backends healthy: %r"
    [AResource (resources s !! affinity_backend_service);
     ANegs (affinity_backends s)];;
  invoke_ (Compute (compute.wait_for_backends_healthy_status
                      (resources s !! affinity_backend_service)
                      (affinity_backends s) replica_count)).

Definition _generate_url_map_body (name matcher_name : string)
    (src_hosts : list string) (dst_default_backend_service : GcpResource.t)
    (dst_host_rule_match_backend_service : option GcpResource.t) : Json :=
  let dst_host_rule_match_backend_service :=
    default dst_default_backend_service dst_host_rule_match_backend_service in
  JDict
    [ ("name", JStr name);
      ("defaultService", JStr (GcpResource.url dst_default_backend_service));
      ("hostRules",
        JList [ JDict [ ("hosts", JList (JStr <$> src_hosts));
                        ("pathMatcher", JStr matcher_name) ] ]);
      ("pathMatchers",
        JList [ JDict [ ("name", JStr matcher_name);
                        ("defaultService",
                          JStr (GcpResource.url
                                  dst_host_rule_match_backend_service)) ] ]) ].

Definition create_url_map (src_host : string) (src_port : Z)
  : Py GcpResource.t :=
  s ← self;
  let src_address := src_host +:+ ":" +:+ pretty src_port in
  let name := make_resource_name s URL_MAP_NAME in
  let matcher_name := make_resource_name s URL_MAP_PATH_MATCHER_NAME in
  bs ← deref "name" (resources s !! backend_service);
  logger.info "Creating URL map '%s': %s -> %s"
    [AStr name; AStr src_address; AStr (GcpResource.name bs)];;
  resource ← invoke resource
    (Compute (compute.create_url_map_with_content
                (_generate_url_map_body name matcher_name [src_address] bs
                   None)));
  setattr url_map (Some resource);;
  mret resource.

Definition patch_url_map (src_host : string) (src_port : Z)
    (backend_service : GcpResource.t) : Py unit :=
  s ← self;
  let src_address := src_host +:+ ":" +:+ pretty src_port in
  let name := make_resource_name s URL_MAP_NAME in
  let matcher_name := make_resource_name s URL_MAP_PATH_MATCHER_NAME in
  logger.info "Patching URL map '%s': %s -> %s"
    [AStr name; AStr src_address; AStr (GcpResource.name backend_service)];;
  invoke_ (Compute (compute.patch_url_map (resources s !! url_map)
                      (_generate_url_map_body name matcher_name [src_address]
                         backend_service None))).

Definition create_url_map_with_content (url_map_body : Json)
  : Py GcpResource.t :=
  logger.info "Creating URL map: %s" [AJson url_map_body];;
  resource ← invoke resource
    (Compute (compute.create_url_map_with_content url_map_body));
  setattr url_map (Some resource);;
  mret resource.

Definition delete_url_map (force : bool) : Py unit :=
  s ← self;
  let delete name :=
    logger.info "Deleting URL Map '%s'" [AStr name];;
    invoke_ (Compute (compute.delete_url_map name));;
    setattr url_map None in
  if force then delete (make_resource_name s URL_MAP_NAME)
  else match resources s !! url_map with
       | Some r => delete (GcpResource.name r)
       | None => mret tt
       end.

Definition create_alternative_url_map (src_host : string) (src_port : Z)
    (backend_service : option GcpResource.t) : Py GcpResource.t :=
  s ← self;
  let name := make_resource_name s ALTERNATIVE_URL_MAP_NAME in
  let src_address := src_host +:+ ":" +:+ pretty src_port in
  let matcher_name := make_resource_name s URL_MAP_PATH_MATCHER_NAME in
  let backend_service :=
    match backend_service with
    | None => resources s !! alternative_backend_service
    | Some r => Some r
    end in
  bs ← deref "name" backend_service;
  logger.info "Creating alternative URL map '%s': %s -> %s"
    [AStr name; AStr src_address; AStr (GcpResource.name bs)];;
  resource ← invoke resource
    (Compute (compute.create_url_map_with_content
                (_generate_url_map_body name matcher_name [src_address] bs
                   None)));
  setattr alternative_url_map (Some resource);;
  mret resource.

(** The last statement of the source assigns [self.url_map], not
    [self.alternative_url_map]. *)
Definition delete_alternative_url_map (force : bool) : Py unit :=
  s ← self;
  let delete name :=
    logger.info "Deleting alternative URL Map '%s'" [AStr name];;
    invoke_ (Compute (compute.delete_url_map name));;
    setattr url_map None in
  if force then delete (make_resource_name s ALTERNATIVE_URL_MAP_NAME)
  else match resources s !! alternative_url_map with
       | Some r => delete (GcpResource.name r)
       | None => mret tt
       end.

Definition create_target_proxy : Py unit :=
  s ← self;
  let name := make_resource_name s TARGET_PROXY_NAME in
  '(target_proxy_type, create_proxy_fn) ←
    match backend_service_protocol s with
    | BackendServiceProtocol.GRPC =>
        modify (set_target_proxy_is_http false);;
        mret ("GRPC",
              fun name url_map =>
                Compute (compute.create_target_grpc_proxy name url_map None))
    | BackendServiceProtocol.HTTP2 =>
        modify (set_target_proxy_is_http true);;
        mret ("HTTP",
              fun name url_map =>
                Compute (compute.create_target_http_proxy name url_map))
    | _ => raise (TypeError "Unexpected backend service protocol")
    end;
  um ← deref "name" (resources s !! url_map);
  logger.info "Creating target %s proxy '%s' to URL map %s"
    [AStr name; AStr target_proxy_type; AStr (GcpResource.name um)];;
  resource ← invoke resource (create_proxy_fn name (resources s !! url_map));
  setattr target_proxy (Some resource).

Definition create_target_proxy_ipv6 : Py unit :=
  s ← self;
  let name := make_resource_name s TARGET_PROXY_NAME_IPV6 in
  (* TODO(lsafran): Support GRPC target proxy as well *)
  let target_proxy_type := "HTTP" in
  let create_proxy_fn := fun name url_map =>
    Compute (compute.create_target_http_proxy name url_map) in
  um ← deref "name" (resources s !! url_map);
  logger.info "Creating IPv6 target %s proxy '%s' to URL map %s"
    [AStr name; AStr target_proxy_type; AStr (GcpResource.name um)];;
  resource ← invoke resource (create_proxy_fn name (resources s !! url_map));
  setattr target_proxy_ipv6 (Some resource).

Definition delete_target_grpc_proxy (force : bool) : Py unit :=
  s ← self;
  let delete name :=
    logger.info "Deleting Target GRPC proxy '%s'" [AStr name];;
    invoke_ (Compute (compute.delete_target_grpc_proxy name));;
    setattr target_proxy None;;
    modify (set_target_proxy_is_http false) in
  if force then delete (make_resource_name s TARGET_PROXY_NAME)
  else match resources s !! target_proxy with
       | Some r => delete (GcpResource.name r)
       | None => mret tt
       end.

Definition delete_target_http_proxy (force : bool) : Py unit :=
  s ← self;
  let delete name :=
    logger.info "Deleting HTTP Target proxy '%s'" [AStr name];;
    invoke_ (Compute (compute.delete_target_http_proxy name));;
    setattr target_proxy None;;
    modify (set_target_proxy_is_http false) in
  if force then delete (make_resource_name s TARGET_PROXY_NAME)
  else match resources s !! target_proxy with
       | Some r =>
           if target_proxy_is_http s then delete (GcpResource.name r)
           else mret tt
       | None => mret tt
       end.

Definition delete_target_proxy_ipv6 (force : bool) : Py unit :=
  s ← self;
  let delete name :=
    (* TODO: Delete Target GRPC Proxy when added in create_target_proxy_ipv6. *)
    logger.info "Deleting IPv6 Target HTTP proxy '%s'" [AStr name];;
    invoke_ (Compute (compute.delete_target_http_proxy name));;
    setattr target_proxy_ipv6 None in
  if force then delete (make_resource_name s TARGET_PROXY_NAME_IPV6)
  else match resources s !! target_proxy_ipv6 with
       | Some r => delete (GcpResource.name r)
       | None => mret tt
       end.

Definition create_alternative_target_proxy : Py unit :=
  s ← self;
  let name := make_resource_name s ALTERNATIVE_TARGET_PROXY_NAME in
  match backend_service_protocol s with
  | BackendServiceProtocol.GRPC =>
      um ← deref "name" (resources s !! alternative_url_map);
      logger.info "Creating alternative target GRPC proxy '%s' to URL map %s"
        [AStr name; AStr (GcpResource.name um)];;
      resource ← invoke resource
        (Compute (compute.create_target_grpc_proxy name
                    (resources s !! alternative_url_map) (Some false)));
      setattr alternative_target_proxy (Some resource)
  | _ => raise (TypeError "Unexpected backend service protocol")
  end.

Definition delete_alternative_target_grpc_proxy (force : bool) : Py unit :=
  s ← self;
  let delete name :=
    logger.info "Deleting alternative Target GRPC proxy '%s'" [AStr name];;
    invoke_ (Compute (compute.delete_target_grpc_proxy name));;
    setattr alternative_target_proxy None in
  if force then delete (make_resource_name s ALTERNATIVE_TARGET_PROXY_NAME)
  else match resources s !! alternative_target_proxy with
       | Some r => delete (GcpResource.name r)
       | None => mret tt
       end.

(** [for _ in range(attempts)]: the loop body, [attempts] times. *)
Fixpoint find_unused_forwarding_rule_port_loop (lo hi : Z) (attempts : nat)
  : Py Z :=
  match attempts with
  | O =>
      (* TODO(sergiitk): custom exception *)
      raise (RuntimeError "Couldn't find unused forwarding rule port")
  | S attempts =>
      src_port ← randint lo hi;
      in_use ← invoke flag (Compute (compute.exists_forwarding_rule src_port));
      if negb in_use then mret src_port
      else find_unused_forwarding_rule_port_loop lo hi attempts
  end.

Definition find_unused_forwarding_rule_port (lo hi attempts : Z) : Py Z :=
  find_unused_forwarding_rule_port_loop lo hi (Z.to_nat attempts).

Definition create_forwarding_rule (src_port : Z) : Py GcpResource.t :=
  s ← self;
  let name := make_resource_name s FORWARDING_RULE_NAME in
  (* [src_port = int(src_port)] leaves an integer as it is *)
  tp ← deref "url" (resources s !! target_proxy);
  logger.info
    "Creating forwarding rule '%s' in network '%s': 0.0.0.0:%s -> %s"
    [AStr name; AStr (network s); AInt src_port; AStr (GcpResource.url tp)];;
  resource ← invoke resource
    (Compute (compute.create_forwarding_rule name src_port
                (resources s !! target_proxy) (network_url s) None));
  setattr forwarding_rule (Some resource);;
  mret resource.

Definition create_forwarding_rule_ipv6 (src_port : Z) : Py GcpResource.t :=
  s ← self;
  let name := make_resource_name s FORWARDING_RULE_NAME_IPV6 in
  tp ← deref "url" (resources s !! target_proxy_ipv6);
  logger.info
    "Creating IPv6 forwarding rule '%s' in network '%s': [::]:%s -> %s"
    [AStr name; AStr (network s); AInt src_port; AStr (GcpResource.url tp)];;
  resource ← invoke resource
    (Compute (compute.create_forwarding_rule name src_port
                (resources s !! target_proxy_ipv6) (network_url s)
                (Some "::")));
  setattr forwarding_rule_ipv6 (Some resource);;
  mret resource.

Definition delete_forwarding_rule (force : bool) : Py unit :=
  s ← self;
  let delete name :=
    logger.info "Deleting Forwarding rule '%s'" [AStr name];;
    invoke_ (Compute (compute.delete_forwarding_rule name));;
    setattr forwarding_rule None in
  if force then delete (make_resource_name s FORWARDING_RULE_NAME)
  else match resources s !! forwarding_rule with
       | Some r => delete (GcpResource.name r)
       | None => mret tt
       end.

Definition delete_forwarding_rule_ipv6 (force : bool) : Py unit :=
  s ← self;
  let delete name :=
    logger.info "Deleting IPv6 Forwarding rule '%s'" [AStr name];;
    invoke_ (Compute (compute.delete_forwarding_rule name));;
    setattr forwarding_rule_ipv6 None in
  if force then delete (make_resource_name s FORWARDING_RULE_NAME_IPV6)
  else match resources s !! forwarding_rule_ipv6 with
       | Some r => delete (GcpResource.name r)
       | None => mret tt
       end.

Definition create_alternative_forwarding_rule (src_port : Z)
    (ip_address : string) : Py GcpResource.t :=
  s ← self;
  let name := make_resource_name s ALTERNATIVE_FORWARDING_RULE_NAME in
  tp ← deref "url" (resources s !! alternative_target_proxy);
  logger.info
    "Creating alternative forwarding rule '%s' in network '%s': %s:%s -> %s"
    [AStr name; AStr (network s); AStr ip_address; AInt src_port;
     AStr (GcpResource.url tp)];;
  resource ← invoke resource
    (Compute (compute.create_forwarding_rule name src_port
                (resources s !! alternative_target_proxy) (network_url s)
                (Some ip_address)));
  setattr alternative_forwarding_rule (Some resource);;
  mret resource.

Definition delete_alternative_forwarding_rule (force : bool) : Py unit :=
  s ← self;
  let delete name :=
    logger.info "Deleting alternative Forwarding rule '%s'" [AStr name];;
    invoke_ (Compute (compute.delete_forwarding_rule name));;
    setattr alternative_forwarding_rule None in
  if force
  then delete (make_resource_name s ALTERNATIVE_FORWARDING_RULE_NAME)
  else match resources s !! alternative_forwarding_rule with
       | Some r => delete (GcpResource.name r)
       | None => mret tt
       end.

Definition _create_firewall_rule (name source_range : string)
    (allowed_ports : list string) : Py GcpResource.t :=
  s ← self;
  logger.info
    "Creating firewall rule '%s' in network '%s' from %s with allowed ports %s"
    [AStr name; AStr (network s); AStr source_range; AStrs allowed_ports];;
  invoke resource
    (Compute (compute.create_firewall_rule name (network_url s) source_range
                allowed_ports)).

Definition create_firewall_rules (allowed_ports : list string)
    (source_range source_range_ipv6 : string) : Py unit :=
  s ← self;
  (if nonempty source_range then
     r ← _create_firewall_rule (make_resource_name s FIREWALL_RULE_NAME)
           source_range allowed_ports;
     setattr firewall_rule (Some r);;
     modify (set_ensure_firewall true)
   else mret tt);;
  (* A separate fw rule is needed because mixing IPv4 and IPv6 in the same
     rule is not allowed. *)
  (if nonempty source_range_ipv6 then
     r ← _create_firewall_rule (make_resource_name s FIREWALL_RULE_NAME_IPV6)
           source_range_ipv6 allowed_ports;
     setattr firewall_rule_ipv6 (Some r);;
     modify (set_ensure_firewall true)
   else mret tt).

Definition _delete_firewall_rule (name : string) : Py bool :=
  logger.info "Deleting Firewall Rule '%s'" [AStr name];;
  try_except_google
    (invoke_ (Compute (compute.delete_firewall_rule name));;
     mret true)
    (fun gcp_error =>
       (* Only warn on an unsuccessful fw rule deletion. *)
       logger.warning "Failed deleting Firewall Rule '%s': %r"
         [AStr name; AExn gcp_error];;
       mret false).

Definition delete_firewall_rule (force : bool) : Py unit :=
  s ← self;
  let delete name : Py unit :=
    deleted ← _delete_firewall_rule name;
    if (deleted : bool) then setattr firewall_rule None else mret tt in
  match resources s !! firewall_rule with
  | Some r => delete (GcpResource.name r)
  | None =>
      if force then delete (make_resource_name s FIREWALL_RULE_NAME)
      else mret tt
  end.

Definition delete_firewall_rule_ipv6 (force : bool) : Py unit :=
  s ← self;
  let delete name : Py unit :=
    deleted ← _delete_firewall_rule name;
    if (deleted : bool) then setattr firewall_rule_ipv6 None else mret tt in
  match resources s !! firewall_rule_ipv6 with
  | Some r => delete (GcpResource.name r)
  | None =>
      if force then delete (make_resource_name s FIREWALL_RULE_NAME_IPV6)
      else mret tt
  end.

Definition delete_firewall_rules (force : bool) : Py unit :=
  s ← self;
  if negb (_ensure_firewall s) then mret tt
  else
    delete_firewall_rule force;;
    delete_firewall_rule_ipv6 force;;
    modify (set_ensure_firewall false).

Definition setup_backend_for_grpc (protocol : option BackendServiceProtocol.t)
    (health_check_port : option Z) : Py unit :=
  create_health_check (Some _HealthCheckGRPC) health_check_port;;
  create_backend_service protocol None None None None.

Definition setup_routing_rule_map_for_grpc (service_host : string)
    (service_port : Z) : Py unit :=
  create_url_map service_host service_port;;
  create_target_proxy;;
  create_forwarding_rule service_port;;
  s ← self;
  if enable_dualstack s then
    create_target_proxy_ipv6;;
    create_forwarding_rule_ipv6 service_port;;
    mret tt
  else mret tt.

Definition setup_for_grpc (service_host : string) (service_port : Z)
    (backend_protocol : option BackendServiceProtocol.t)
    (health_check_port : option Z) : Py unit :=
  setup_backend_for_grpc backend_protocol health_check_port;;
  setup_routing_rule_map_for_grpc service_host service_port.

Definition cleanup (force : bool) : Py unit :=
  (* Cleanup in the reverse order of creation *)
  delete_firewall_rules force;;
  delete_forwarding_rule force;;
  delete_alternative_forwarding_rule force;;
  delete_target_http_proxy force;;
  delete_target_grpc_proxy force;;
  s ← self;
  (if enable_dualstack s then
     delete_forwarding_rule_ipv6 force;;
     delete_target_proxy_ipv6 force
   else mret tt);;
  delete_alternative_target_grpc_proxy force;;
  delete_url_map force;;
  delete_alternative_url_map force;;
  delete_backend_service force;;
  delete_alternative_backend_service force;;
  delete_affinity_backend_service force;;
  delete_health_check force.

End TrafficDirectorManager.

(** ** [class TrafficDirectorAppNetManager(TrafficDirectorManager)] *)
Module TrafficDirectorAppNetManager.
Import TrafficDirectorManager.

Definition GRPC_ROUTE_NAME : string := "grpc-route".
Definition HTTP_ROUTE_NAME : string := "http-route".
Definition MESH_NAME : string := "mesh".

Definition create_mesh : Py (option GcpResource.t) :=
  s ← self;
  let name := make_resource_name s MESH_NAME in
  logger.info "Creating Mesh %s" [AStr name];;
  let body := JDict [] in
  invoke_ (NetSvc (netsvc.create_mesh name body));;
  mesh' ← invoke resource (NetSvc (netsvc.get_mesh name));
  setattr mesh (Some mesh');;
  logger.debug "Loaded Mesh: %s" [AResource (Some mesh')];;
  getattr mesh.

Definition delete_mesh (force : bool) : Py unit :=
  s ← self;
  let delete name :=
    logger.info "Deleting Mesh %s" [AStr name];;
    invoke_ (NetSvc (netsvc.delete_mesh name));;
    setattr mesh None in
  if force then delete (make_resource_name s MESH_NAME)
  else match resources s !! mesh with
       | Some r => delete (GcpResource.name r)
       | None => mret tt
       end.

Definition create_grpc_route (src_host : string) (src_port : Z)
  : Py (option GcpResource.t) :=
  s ← self;
  let host := src_host +:+ ":" +:+ pretty src_port in
  bs ← deref "name" (resources s !! backend_service);
  netsvc ← collaborators;
  let service_name :=
    resource_full_name netsvc (GcpResource.name bs) "backendServices" in
  m ← deref "url" (resources s !! mesh);
  let body :=
    JDict
      [ ("meshes", JList [JStr (GcpResource.url m)]);
        ("hostnames", JStr host);
        ("rules",
          JList
            [ JDict
                [ ("action",
                    JDict
                      [ ("destinations",
                          JList
                            [ JDict [ ("serviceName", JStr service_name) ] ])
                      ]) ] ]) ] in
  let name := make_resource_name s GRPC_ROUTE_NAME in
  logger.info "Creating GrpcRoute %s" [AStr name];;
  invoke_ (NetSvc (netsvc.create_grpc_route name body));;
  route ← invoke resource (NetSvc (netsvc.get_grpc_route name));
  setattr grpc_route (Some route);;
  logger.debug "Loaded GrpcRoute: %s" [AResource (Some route)];;
  getattr grpc_route.

Definition create_grpc_route_with_content (body : Json)
  : Py (option GcpResource.t) :=
  s ← self;
  let name := make_resource_name s GRPC_ROUTE_NAME in
  logger.info "Creating GrpcRoute %s" [AStr name];;
  invoke_ (NetSvc (netsvc.create_grpc_route name body));;
  route ← invoke resource (NetSvc (netsvc.get_grpc_route name));
  setattr grpc_route (Some route);;
  logger.debug "Loaded GrpcRoute: %s" [AResource (Some route)];;
  getattr grpc_route.

Definition create_http_route_with_content (body : Json)
  : Py (option GcpResource.t) :=
  s ← self;
  let name := make_resource_name s HTTP_ROUTE_NAME in
  logger.info "Creating HttpRoute %s" [AStr name];;
  invoke_ (NetSvc (netsvc.create_http_route name body));;
  route ← invoke resource (NetSvc (netsvc.get_http_route name));
  setattr http_route (Some route);;
  logger.debug "Loaded HttpRoute: %s" [AResource (Some route)];;
  getattr http_route.

Definition delete_grpc_route (force : bool) : Py unit :=
  s ← self;
  let delete name :=
    logger.info "Deleting GrpcRoute %s" [AStr name];;
    invoke_ (NetSvc (netsvc.delete_grpc_route name));;
    setattr grpc_route None in
  if force then delete (make_resource_name s GRPC_ROUTE_NAME)
  else match resources s !! grpc_route with
       | Some r => delete (GcpResource.name r)
       | None => mret tt
       end.

Definition delete_http_route (force : bool) : Py unit :=
  s ← self;
  let delete name :=
    logger.info "Deleting HttpRoute %s" [AStr name];;
    invoke_ (NetSvc (netsvc.delete_http_route name));;
    setattr http_route None in
  if force then delete (make_resource_name s HTTP_ROUTE_NAME)
  else match resources s !! http_route with
       | Some r => delete (GcpResource.name r)
       | None => mret tt
       end.

Definition cleanup (force : bool) : Py unit :=
  delete_http_route force;;
  delete_grpc_route force;;
  delete_mesh force;;
  TrafficDirectorManager.cleanup force.

End TrafficDirectorAppNetManager.

(** ** [class TrafficDirectorSecureManager(TrafficDirectorManager)] *)
Module TrafficDirectorSecureManager.
Import TrafficDirectorManager.

Definition SERVER_TLS_POLICY_NAME : string := "server-tls-policy".
Definition CLIENT_TLS_POLICY_NAME : string := "client-tls-policy".
Definition AUTHZ_POLICY_NAME : string := "authz-policy".
Definition ENDPOINT_POLICY : string := "endpoint-policy".
Definition CERTIFICATE_PROVIDER_INSTANCE : string :=
  "google_cloud_private_spiffe".

Definition _get_certificate_provider : Json :=
  JDict
    [ ("certificateProviderInstance",
        JDict [ ("pluginInstance", JStr CERTIFICATE_PROVIDER_INSTANCE) ]) ].

Definition create_server_tls_policy (tls mtls : bool) : Py unit :=
  s ← self;
  let name := make_resource_name s SERVER_TLS_POLICY_NAME in
  logger.info "Creating Server TLS Policy %s" [AStr name];;
  if negb tls && negb mtls then
    logger.warning
      "Server TLS Policy %s neither TLS, nor mTLS policy. Skipping creation"
      [AStr name]
  else
    let certificate_provider := _get_certificate_provider in
    let policy :=
      ((if tls then [("serverCertificate", certificate_provider)] else []) ++
       (if mtls
        then [("mtlsPolicy",
                JDict [("clientValidationCa", JList [certificate_provider])])]
        else []))%list in
    invoke_ (NetSec (netsec.create_server_tls_policy name (JDict policy)));;
    r ← invoke resource (NetSec (netsec.get_server_tls_policy name));
    setattr server_tls_policy (Some r);;
    logger.debug "Server TLS Policy loaded: %r" [AResource (Some r)].

Definition delete_server_tls_policy (force : bool) : Py unit :=
  s ← self;
  let delete name :=
    logger.info "Deleting Server TLS Policy %s" [AStr name];;
    invoke_ (NetSec (netsec.delete_server_tls_policy name));;
    setattr server_tls_policy None in
  if force then delete (make_resource_name s SERVER_TLS_POLICY_NAME)
  else match resources s !! server_tls_policy with
       | Some r => delete (GcpResource.name r)
       | None => mret tt
       end.

Definition create_authz_policy (action : string) (rules : list Json)
  : Py unit :=
  s ← self;
  let name := make_resource_name s AUTHZ_POLICY_NAME in
  logger.info "Creating Authz Policy %s" [AStr name];;
  let policy := JDict [ ("action", JStr action); ("rules", JList rules) ] in
  invoke_ (NetSec (netsec.create_authz_policy name policy));;
  r ← invoke resource (NetSec (netsec.get_authz_policy name));
  setattr authz_policy (Some r);;
  logger.debug "Authz Policy loaded: %r" [AResource (Some r)].

Definition delete_authz_policy (force : bool) : Py unit :=
  s ← self;
  let delete name :=
    logger.info "Deleting Authz Policy %s" [AStr name];;
    invoke_ (NetSec (netsec.delete_authz_policy name));;
    setattr authz_policy None in
  if force then delete (make_resource_name s AUTHZ_POLICY_NAME)
  else match resources s !! authz_policy with
       | Some r => delete (GcpResource.name r)
       | None => mret tt
       end.

Definition create_endpoint_policy (server_namespace server_name : string)
    (server_port : Z) : Py unit :=
  s ← self;
  let name := make_resource_name s ENDPOINT_POLICY in
  logger.info "Creating Endpoint Policy %s" [AStr name];;
  let endpoint_matcher_labels :=
    JList [ JDict [ ("labelName", JStr "app");
                    ("labelValue",
                      JStr (server_namespace +:+ "-" +:+ server_name)) ] ] in
  let port_selector := JDict [ ("ports", JList [JStr (pretty server_port)]) ] in
  let label_matcher_all :=
    JDict [ ("metadataLabelMatchCriteria", JStr "MATCH_ALL");
            ("metadataLabels", endpoint_matcher_labels) ] in
  let config :=
    [ ("type", JStr "GRPC_SERVER");
      ("trafficPortSelector", port_selector);
      ("endpointMatcher",
        JDict [ ("metadataLabelMatcher", label_matcher_all) ]) ] in
  config ←
    match resources s !! server_tls_policy with
    | Some p =>
        mret (config ++ [("serverTlsPolicy", JStr (GcpResource.name p))])%list
    | None =>
        logger.warning
          "Creating Endpoint Policy %s with no Server TLS policy attached"
          [AStr name];;
        mret config
    end;
  let config :=
    match resources s !! authz_policy with
    | Some p =>
        (config ++ [("authorizationPolicy", JStr (GcpResource.name p))])%list
    | None => config
    end in
  invoke_ (NetSvc (netsvc.create_endpoint_policy name (JDict config)));;
  r ← invoke resource (NetSvc (netsvc.get_endpoint_policy name));
  setattr endpoint_policy (Some r);;
  logger.debug "Loaded Endpoint Policy: %r" [AResource (Some r)].

Definition delete_endpoint_policy (force : bool) : Py unit :=
  s ← self;
  let delete name :=
    logger.info "Deleting Endpoint Policy %s" [AStr name];;
    invoke_ (NetSvc (netsvc.delete_endpoint_policy name));;
    setattr endpoint_policy None in
  if force then delete (make_resource_name s ENDPOINT_POLICY)
  else match resources s !! endpoint_policy with
       | Some r => delete (GcpResource.name r)
       | None => mret tt
       end.

Definition create_client_tls_policy (tls mtls : bool) : Py unit :=
  s ← self;
  let name := make_resource_name s CLIENT_TLS_POLICY_NAME in
  logger.info "Creating Client TLS Policy %s" [AStr name];;
  if negb tls && negb mtls then
    logger.warning
      "Client TLS Policy %s neither TLS, nor mTLS policy. Skipping creation"
      [AStr name]
  else
    let certificate_provider := _get_certificate_provider in
    let policy :=
      ((if tls
        then [("serverValidationCa", JList [certificate_provider])]
        else []) ++
       (if mtls then [("clientCertificate", certificate_provider)] else []))%list
    in
    invoke_ (NetSec (netsec.create_client_tls_policy name (JDict policy)));;
    r ← invoke resource (NetSec (netsec.get_client_tls_policy name));
    setattr client_tls_policy (Some r);;
    logger.debug "Client TLS Policy loaded: %r" [AResource (Some r)].

Definition delete_client_tls_policy (force : bool) : Py unit :=
  s ← self;
  let delete name :=
    logger.info "Deleting Client TLS Policy %s" [AStr name];;
    invoke_ (NetSec (netsec.delete_client_tls_policy name));;
    setattr client_tls_policy None in
  if force then delete (make_resource_name s CLIENT_TLS_POLICY_NAME)
  else match resources s !! client_tls_policy with
       | Some r => delete (GcpResource.name r)
       | None => mret tt
       end.

Definition backend_service_apply_client_mtls_policy
    (server_namespace server_name : string) : Py unit :=
  s ← self;
  match resources s !! client_tls_policy with
  | None =>
      bs ← deref "name" (resources s !! backend_service);
      logger.warning
        "Client TLS policy not created, skipping attaching to Backend Service %s"
        [AStr (GcpResource.name bs)]
  | Some policy =>
      let server_spiffe :=
        "spiffe://" +:+ project s +:+ ".svc.id.goog/" +:+
        "ns/" +:+ server_namespace +:+ "/sa/" +:+ server_name in
      bs ← deref "name" (resources s !! backend_service);
      logger.info
        "Adding Client TLS Policy to Backend Service %s: %s, server %s"
        [AStr (GcpResource.name bs); AStr (GcpResource.url policy);
         AStr server_spiffe];;
      invoke_ (Compute (compute.patch_backend_service
                          (resources s !! backend_service)
                          (JDict
                             [ ("securitySettings",
                                 JDict
                                   [ ("clientTlsPolicy",
                                       JStr (GcpResource.url policy));
                                     ("subjectAltNames",
                                       JList [JStr server_spiffe]) ]) ])))
  end.

Definition setup_server_security (server_namespace server_name : string)
    (server_port : Z) (tls mtls : bool) : Py unit :=
  create_server_tls_policy tls mtls;;
  create_endpoint_policy server_namespace server_name server_port.

Definition setup_client_security (server_namespace server_name : string)
    (tls mtls : bool) : Py unit :=
  create_client_tls_policy tls mtls;;
  backend_service_apply_client_mtls_policy server_namespace server_name.

Definition cleanup (force : bool) : Py unit :=
  (* Cleanup in the reverse order of creation *)
  TrafficDirectorManager.cleanup force;;
  delete_endpoint_policy force;;
  delete_server_tls_policy force;;
  delete_client_tls_policy force;;
  delete_authz_policy force.

End TrafficDirectorSecureManager.

(** * Vocabulary of the lifecycle properties *)

(** A gateway that never lets an exception escape. *)
Definition reliable (g : Gateway) : Prop := forall h c, raises g h c = None.

(** The world a method leaves behind and what it returned or raised. *)
Definition outcome {A} (m : Py A) (w : World) : Outcome A := (m w).1.
Definition after {A} (m : Py A) (w : World) : World := (m w).2.

(** ** Naming *)

(** The spec's [name_for]: dash-join prefix and base name, then the suffix
    segment only if it is non-empty. *)
Definition name_for (prefix base : string) (suffix : option string) : string :=
  match suffix with
  | Some (String c sfx) => prefix +:+ "-" +:+ base +:+ "-" +:+ String c sfx
  | _ => prefix +:+ "-" +:+ base
  end.

(** A memo cache that holds only values the body would compute. *)
Definition coherent (cache : gmap string string) (s : TrafficDirector)
  : Prop :=
  forall name value,
    cache !! name = Some value ->
    value = TrafficDirectorManager.make_resource_name s name.

Fixpoint last_char (s : string) : option Ascii.ascii :=
  match s with
  | EmptyString => None
  | String c rest =>
      match rest with
      | EmptyString => Some c
      | String _ _ => last_char rest
      end
  end.

(** ** A small program logic over [Py]

    [steps T m]: from every world, [m] leaves a world related by [T],
    whether it returns or raises.  [evolves P R] relates two worlds when the
    later one has the same collaborators, extends the trace by calls that
    all satisfy [P], and holds an object related by [R]. *)
Definition steps {A} (T : relation World) (m : Py A) : Prop :=
  forall w, T w (after m w).

Definition evolves (P : Call -> bool) (R : relation TrafficDirector)
  : relation World :=
  fun w w' =>
    R (obj w) (obj w') /\ remote w' = remote w /\
    (exists t, calls w' = calls w ++ t /\ Forall (fun c => P c) t) /\
    (exists l, logged w' = logged w ++ l).

(** [emits L m]: the calls [m] issues, from any world, form a trace in the
    language [L]; [L1 ⋅ L2] is concatenation and [all P] the traces whose
    calls all satisfy [P]. *)
Definition emits {A} (L : list Call -> Prop) (m : Py A) : Prop :=
  forall w, exists t, calls (after m w) = calls w ++ t /\ L t.

Definition then_ (L1 L2 : list Call -> Prop) (t : list Call) : Prop :=
  exists t1 t2, t = t1 ++ t2 /\ L1 t1 /\ L2 t2.

Definition all (P : Call -> bool) (t : list Call) : Prop :=
  Forall (fun c => P c) t.

(** Two objects that agree on an observation [f]. *)
Definition same {X} (f : TrafficDirector -> X) : relation TrafficDirector :=
  fun s s' => f s' = f s.

Definition anything : relation TrafficDirector := fun _ _ => True.

(** [precedes P Q t]: in the trace [t], every call satisfying [P] comes
    before every call satisfying [Q]. *)
Definition precedes (P Q : Call -> bool) (t : list Call) : Prop :=
  forall i j c d,
    t !! i = Some c -> t !! j = Some d -> P c -> Q d -> (i < j)%nat.

(** ** Classes of calls *)

Definition any_call (c : Call) : bool := true.

Definition is_base_call (c : Call) : bool :=
  match c with Compute _ => true | _ => false end.

Definition is_extension_call (c : Call) : bool := negb (is_base_call c).

Definition is_route_deletion (c : Call) : bool :=
  match c with
  | NetSvc (netsvc.delete_http_route _)
  | NetSvc (netsvc.delete_grpc_route _) => true
  | _ => false
  end.

Definition is_mesh_deletion (c : Call) : bool :=
  match c with NetSvc (netsvc.delete_mesh _) => true | _ => false end.

Definition is_endpoint_policy_deletion (c : Call) : bool :=
  match c with NetSvc (netsvc.delete_endpoint_policy _) => true | _ => false end.

Definition is_server_tls_policy_deletion (c : Call) : bool :=
  match c with
  | NetSec (netsec.delete_server_tls_policy _) => true
  | _ => false
  end.

Definition is_client_tls_policy_deletion (c : Call) : bool :=
  match c with
  | NetSec (netsec.delete_client_tls_policy _) => true
  | _ => false
  end.

Definition is_authz_policy_deletion (c : Call) : bool :=
  match c with NetSec (netsec.delete_authz_policy _) => true | _ => false end.

Definition is_firewall_deletion (c : Call) : bool :=
  match c with Compute (compute.delete_firewall_rule _) => true | _ => false end.

(** ** Sample worlds used by the examples *)

(** A control plane that accepts everything: a created or fetched resource
    carries the requested name, every port is free. *)
Definition requested_name (c : Call) : string :=
  match c with
  | Compute (compute.create_health_check n _ _)
  | Compute (compute.create_backend_service_traffic_director n _ _ _ _ _ _ _)
  | Compute (compute.get_backend_service_traffic_director n)
  | Compute (compute.create_target_grpc_proxy n _ _)
  | Compute (compute.create_target_http_proxy n _)
  | Compute (compute.create_forwarding_rule n _ _ _ _)
  | Compute (compute.create_firewall_rule n _ _ _)
  | NetSvc (netsvc.get_mesh n)
  | NetSvc (netsvc.get_grpc_route n)
  | NetSvc (netsvc.get_http_route n)
  | NetSvc (netsvc.get_endpoint_policy n)
  | NetSec (netsec.get_server_tls_policy n)
  | NetSec (netsec.get_client_tls_policy n)
  | NetSec (netsec.get_authz_policy n) => n
  | Compute (compute.create_url_map_with_content (JDict (("name", JStr n) :: _)))
      => n
  | _ => EmptyString
  end.

Definition accepting : Gateway :=
  {| raises := fun _ _ => None;
     resource := fun _ c =>
       GcpResource.Build (requested_name c) ("global/" +:+ requested_name c);
     network_endpoint_group := fun _ c =>
       match c with
       | Compute (compute.wait_for_network_endpoint_group n z) =>
           NegGcpResource.Build n ("zones/" +:+ z +:+ "/" +:+ n) z
       | _ => NegGcpResource.Build EmptyString EmptyString EmptyString
       end;
     flag := fun _ _ => false;
     resource_full_name := fun n collection =>
       "projects/psm/locations/global/" +:+ collection +:+ "/" +:+ n |}.

Definition world_of (s : TrafficDirector) (g : Gateway) : World :=
  {| obj := s; remote := g; entropy := fun n => Z.of_nat n; draws := 0;
     calls := []; logged := [] |}.

(** A freshly constructed manager, nothing created. *)
Definition fresh : TrafficDirector :=
  __init__ "psm" "psm-interop" (Some "t1") "default" false.

(** The calls a method issues when started in [w]. *)
Definition emitted {A} (m : Py A) (w : World) : list Call :=
  drop (length (calls w)) (calls (after m w)).

(** ** Properties named by the claims *)

(** A creation method that refuses to run on a [Present] slot: it raises the
    precondition error and leaves the world, trace included, as it was. *)
Definition rejects_present {A} (a : Attr) (create : Py A) : Prop :=
  forall w, is_Some (resources (obj w) !! a) ->
    exists msg, create w = (Raise (ValueError msg), w).


(** After [create] then [delete] (no force) the slot is [Absent], and one
    more [delete] issues no remote call. *)
Definition roundtrip {A} (a : Attr) (create : Py A) (delete : bool -> Py unit)
    (w : World) : Prop :=
  let w1 := after (create;; delete false) w in
  resources (obj w1) !! a = None /\ emitted (delete false) w1 = [].

(** ** More sample worlds *)

(** Health check, GRPC backend service and URL map created. *)
Definition w_grpc : World :=
  after
    (TrafficDirectorManager.create_health_check
       (Some HealthCheckProtocol.GRPC) None;;
     TrafficDirectorManager.create_backend_service
       (Some BackendServiceProtocol.GRPC) None None None None;;
     TrafficDirectorManager.create_url_map "svc.example" 8080)
    (world_of fresh accepting).

Definition w_http2 : World :=
  after
    (TrafficDirectorManager.create_health_check None None;;
     TrafficDirectorManager.create_backend_service
       (Some BackendServiceProtocol.HTTP2) None None None None;;
     TrafficDirectorManager.create_url_map "svc.example" 8080)
    (world_of fresh accepting).


(** An alternative backend service exists, nothing else. *)
Definition w_alt : World :=
  after (TrafficDirectorManager.create_alternative_backend_service None)
    (world_of fresh accepting).

(** The control plane that refuses every firewall-rule deletion. *)
Definition firewall_locked : Gateway :=
  {| raises := fun _ c =>
       if is_firewall_deletion c then Some (GoogleApiError "HttpError 403")
       else None;
     resource := resource accepting;
     network_endpoint_group := network_endpoint_group accepting;
     flag := flag accepting;
     resource_full_name := resource_full_name accepting |}.

(** The IPv4 firewall rule was created; its deletion will be refused. *)
Definition w_firewall : World :=
  after
    (TrafficDirectorManager.create_firewall_rules ["8080"] "35.191.0.0/16" EmptyString)
    (world_of fresh firewall_locked).

(** A cleanup whose firewall deletion was refused is followed by a cleanup
    that issues the same deletion again. *)
Definition retries_firewall_deletion (w : World) : Prop :=
  exists r,
    resources (obj w) !! firewall_rule = Some r /\
    let w1 := after (TrafficDirectorManager.cleanup false) w in
    Compute (compute.delete_firewall_rule (GcpResource.name r))
      ∈ emitted (TrafficDirectorManager.cleanup false) w1.

(** What the firewall deletions read and write. *)
Definition firewall_state (s : TrafficDirector)
  : option GcpResource.t * bool :=
  (resources s !! firewall_rule, _ensure_firewall s).

Definition firewall_state_ipv6 (s : TrafficDirector)
  : option GcpResource.t * bool :=
  (resources s !! firewall_rule_ipv6, _ensure_firewall s).

Definition not_firewall_deletion (c : Call) : bool :=
  negb (is_firewall_deletion c).

(** The IPv6 firewall rule was created; its deletion will be refused. *)
Definition w_firewall_ipv6 : World :=
  after
    (TrafficDirectorManager.create_firewall_rules ["8080"] EmptyString
       "2600:2d00:1:b029::/64")
    (world_of fresh firewall_locked).

(** The deletion of a firewall rule and the warning logged when the API
    refuses it. *)
Definition firewall_deletion (r : GcpResource.t) : Call :=
  Compute (compute.delete_firewall_rule (GcpResource.name r)).

Definition firewall_warning (r : GcpResource.t) (d : string) : LogRecord :=
  Log WARNING "Failed deleting Firewall Rule '%s': %r"
    [AStr (GcpResource.name r); AExn (GoogleApiError d)].

(** ** The port search *)

(** The [i]-th port [random.randint(lo, hi)] yields when sampling starts in
    [w], the probe that asks about a port, and the first [n] probes. *)
Definition sampled (lo hi : Z) (w : World) (i : nat) : Z :=
  lo + entropy w (draws w + i)%nat `mod` (hi - lo + 1).

Definition probe (port : Z) : Call :=
  Compute (compute.exists_forwarding_rule port).

Definition probes (lo hi : Z) (w : World) (n : nat) : list Call :=
  (fun i => probe (sampled lo hi w i)) <$> seq 0 n.

(** The collaborator's answer to the [i]-th probe: is the port in use? *)
Definition reported_in_use (lo hi : Z) (w : World) (i : nat) : bool :=
  flag (remote w) (calls w ++ probes lo hi w i) (probe (sampled lo hi w i)).

(** The collaborator answers each of the first [n] probes. *)
Definition answers_probes (lo hi : Z) (w : World) (n : nat) : Prop :=
  forall i, (i < n)%nat ->
    raises (remote w) (calls w ++ probes lo hi w i)
      (probe (sampled lo hi w i)) = None.

(** The world after [n] samples and probes. *)
Definition probed (lo hi : Z) (w : World) (n : nat) : World :=
  {| obj := obj w; remote := remote w; entropy := entropy w;
     draws := (draws w + n)%nat; calls := calls w ++ probes lo hi w n;
     logged := logged w |}.

(** A control plane on which every port is taken. *)
Definition congested : Gateway :=
  {| raises := raises accepting;
     resource := resource accepting;
     network_endpoint_group := network_endpoint_group accepting;
     flag := fun _ _ => true;
     resource_full_name := resource_full_name accepting |}.

(** ** Exact teardown under a reliable control plane *)

(** [frame L s s']: [s'] differs from [s] at most in the slots [L], in the
    proxy-kind flag when the target-proxy slot is among them, and in the
    firewall flag when the firewall slot is. *)
Definition frame (L : list Attr) : relation TrafficDirector :=
  fun s s' =>
    (forall a, a ∉ L -> resources s' !! a = resources s !! a)
    /\ resource_prefix s' = resource_prefix s
    /\ resource_suffix s' = resource_suffix s
    /\ enable_dualstack s' = enable_dualstack s
    /\ (target_proxy ∉ L ->
        target_proxy_is_http s' = target_proxy_is_http s)
    /\ (firewall_rule ∉ L -> _ensure_firewall s' = _ensure_firewall s).

(** [deletes m a L T]: on a reliable control plane [m] returns [a], issues
    exactly the calls [T s] where [s] is the object it started from, and
    touches at most the slots [L]. *)
Definition deletes_at {A} (w : World) (m : Py A) (a : A) (L : list Attr)
    (t : list Call) : Prop :=
  exists w', m w = (Return a, w') /\ calls w' = calls w ++ t
             /\ remote w' = remote w /\ frame L (obj w) (obj w').

Definition deletes {A} (m : Py A) (a : A) (L : list Attr)
    (T : TrafficDirector -> list Call) : Prop :=
  forall w, reliable (remote w) -> deletes_at w m a L (T (obj w)).

(** A trace description that does not look at the slots [L]. *)
Definition stable (L : list Attr) (T : TrafficDirector -> list Call) : Prop :=
  forall s s', frame L s s' -> T s' = T s.

(** The name a deletion goes for: recomputed under [force], else read from
    the slot, else none. *)
Definition target (force : bool) (a : Attr) (base : string)
    (s : TrafficDirector) : option string :=
  if force then Some (TrafficDirectorManager.make_resource_name s base)
  else GcpResource.name <$> resources s !! a.

(** The firewall deletions read the slot first and recompute the name only
    when the slot is empty and [force] is set. *)
Definition firewall_target (force : bool) (a : Attr) (base : string)
    (s : TrafficDirector) : option string :=
  match resources s !! a with
  | Some r => Some (GcpResource.name r)
  | None =>
      if force then Some (TrafficDirectorManager.make_resource_name s base)
      else None
  end.

Definition deletion (mk : string -> Call) (o : option string) : list Call :=
  match o with
  | Some n => [mk n]
  | None => []
  end.

Definition firewall_deletions (force : bool) (s : TrafficDirector)
  : list Call :=
  if _ensure_firewall s then
    deletion (Compute ∘ compute.delete_firewall_rule)
      (firewall_target force firewall_rule
         TrafficDirectorManager.FIREWALL_RULE_NAME s) ++
    deletion (Compute ∘ compute.delete_firewall_rule)
      (firewall_target force firewall_rule_ipv6
         TrafficDirectorManager.FIREWALL_RULE_NAME_IPV6 s)
  else [].

(** The remote deletions for the one target-proxy slot. *)
Definition target_proxy_deletions (force : bool) (s : TrafficDirector)
  : list Call :=
  if force then
    let name := TrafficDirectorManager.make_resource_name s
                  TrafficDirectorManager.TARGET_PROXY_NAME in
    [Compute (compute.delete_target_http_proxy name);
     Compute (compute.delete_target_grpc_proxy name)]
  else
    match resources s !! target_proxy with
    | Some p =>
        if target_proxy_is_http s
        then [Compute (compute.delete_target_http_proxy (GcpResource.name p))]
        else [Compute (compute.delete_target_grpc_proxy (GcpResource.name p))]
    | None => []
    end.

(** What base cleanup deletes before and after the target proxy. *)
Definition cleanup_before (force : bool) (s : TrafficDirector) : list Call :=
  firewall_deletions force s ++
  deletion (Compute ∘ compute.delete_forwarding_rule)
    (target force forwarding_rule
       TrafficDirectorManager.FORWARDING_RULE_NAME s) ++
  deletion (Compute ∘ compute.delete_forwarding_rule)
    (target force alternative_forwarding_rule
       TrafficDirectorManager.ALTERNATIVE_FORWARDING_RULE_NAME s).

Definition cleanup_dualstack (force : bool) (s : TrafficDirector)
  : list Call :=
  if enable_dualstack s then
    deletion (Compute ∘ compute.delete_forwarding_rule)
      (target force forwarding_rule_ipv6
         TrafficDirectorManager.FORWARDING_RULE_NAME_IPV6 s) ++
    deletion (Compute ∘ compute.delete_target_http_proxy)
      (target force target_proxy_ipv6
         TrafficDirectorManager.TARGET_PROXY_NAME_IPV6 s)
  else [].

Definition cleanup_after (force : bool) (s : TrafficDirector) : list Call :=
  cleanup_dualstack force s ++
  deletion (Compute ∘ compute.delete_target_grpc_proxy)
    (target force alternative_target_proxy
       TrafficDirectorManager.ALTERNATIVE_TARGET_PROXY_NAME s) ++
  deletion (Compute ∘ compute.delete_url_map)
    (target force url_map TrafficDirectorManager.URL_MAP_NAME s) ++
  deletion (Compute ∘ compute.delete_url_map)
    (target force alternative_url_map
       TrafficDirectorManager.ALTERNATIVE_URL_MAP_NAME s) ++
  deletion (Compute ∘ compute.delete_backend_service)
    (target force backend_service
       TrafficDirectorManager.BACKEND_SERVICE_NAME s) ++
  deletion (Compute ∘ compute.delete_backend_service)
    (target force alternative_backend_service
       TrafficDirectorManager.ALTERNATIVE_BACKEND_SERVICE_NAME s) ++
  deletion (Compute ∘ compute.delete_backend_service)
    (target force affinity_backend_service
       TrafficDirectorManager.AFFINITY_BACKEND_SERVICE_NAME s) ++
  deletion (Compute ∘ compute.delete_health_check)
    (target force health_check TrafficDirectorManager.HEALTH_CHECK_NAME s).

(** Everything [setup_for_grpc] creates is there. *)
Definition w_serving : World :=
  after (TrafficDirectorManager.setup_for_grpc "svc.example" 8080 None None)
    (world_of fresh accepting).

(** ** Forced deletion and the names of creation *)

(** The name a creation call asks the control plane for; a routing map
    carries it in its body. *)
Definition creation_name (c : Call) : option string :=
  match c with
  | Compute (compute.create_health_check n _ _)
  | Compute (compute.create_backend_service_traffic_director n _ _ _ _ _ _ _)
  | Compute (compute.create_target_grpc_proxy n _ _)
  | Compute (compute.create_target_http_proxy n _)
  | Compute (compute.create_forwarding_rule n _ _ _ _)
  | Compute (compute.create_firewall_rule n _ _ _)
  | NetSvc (netsvc.create_mesh n _)
  | NetSvc (netsvc.create_grpc_route n _)
  | NetSvc (netsvc.create_http_route n _)
  | NetSvc (netsvc.create_endpoint_policy n _)
  | NetSec (netsec.create_server_tls_policy n _)
  | NetSec (netsec.create_client_tls_policy n _)
  | NetSec (netsec.create_authz_policy n _) => Some n
  | Compute (compute.create_url_map_with_content (JDict (("name", JStr n) :: _)))
      => Some n
  | _ => None
  end.

(** A manager on which every creator finds what it needs: every slot but
    the health check's holds a handle, the backend service is a GRPC one,
    and the control plane accepts every call. *)
Definition w_ready : World :=
  world_of
    (set_backend_service_protocol BackendServiceProtocol.GRPC
       (set_resources
          (list_to_map
             ((fun a => (a, GcpResource.Build "held" "global/held")) <$>
              filter (fun a => a <> health_check) Attr_all))
          fresh))
    accepting.

(** [creates_named m bases]: the creation calls [m] issues ask, in order,
    for the names derived from [bases].  An exception may cut the list
    short; when [m] returns it has asked for every one of them, and on
    [w_ready] it does return. *)
Definition creates_named {A} (m : Py A) (bases : list string) : Prop :=
  (forall w,
     omap creation_name (emitted m w)
       `prefix_of`
     (TrafficDirectorManager.make_resource_name (obj w) <$> bases)
     /\ (forall x,
           outcome m w = Return x ->
           omap creation_name (emitted m w)
           = TrafficDirectorManager.make_resource_name (obj w) <$> bases))
  /\ exists x, outcome m w_ready = Return x.

(** The statement of the creators: every creation call of a method asks for
    the name derived from the class constant of its kind.  The two TLS
    policy creators create nothing when neither [tls] nor [mtls] is set.
    [create_url_map_with_content] is the one creator that derives no name:
    it asks for the name its caller put into the body. *)
Definition creation_names_agree : Prop :=
  (forall protocol port,
     creates_named (TrafficDirectorManager.create_health_check protocol port)
       [TrafficDirectorManager.HEALTH_CHECK_NAME])
  /\ (forall protocol subset_size affinity_header locality_lb_policies
        outlier_detection,
        creates_named
          (TrafficDirectorManager.create_backend_service protocol subset_size
             affinity_header locality_lb_policies outlier_detection)
          [TrafficDirectorManager.BACKEND_SERVICE_NAME])
  /\ (forall protocol,
        creates_named
          (TrafficDirectorManager.create_alternative_backend_service protocol)
          [TrafficDirectorManager.ALTERNATIVE_BACKEND_SERVICE_NAME])
  /\ (forall protocol,
        creates_named
          (TrafficDirectorManager.create_affinity_backend_service protocol)
          [TrafficDirectorManager.AFFINITY_BACKEND_SERVICE_NAME])
  /\ (forall src_host src_port,
        creates_named
          (TrafficDirectorManager.create_url_map src_host src_port)
          [TrafficDirectorManager.URL_MAP_NAME])
  /\ (forall src_host src_port backend_service,
        creates_named
          (TrafficDirectorManager.create_alternative_url_map src_host src_port
             backend_service)
          [TrafficDirectorManager.ALTERNATIVE_URL_MAP_NAME])
  /\ creates_named TrafficDirectorManager.create_target_proxy
       [TrafficDirectorManager.TARGET_PROXY_NAME]
  /\ creates_named TrafficDirectorManager.create_target_proxy_ipv6
       [TrafficDirectorManager.TARGET_PROXY_NAME_IPV6]
  /\ creates_named TrafficDirectorManager.create_alternative_target_proxy
       [TrafficDirectorManager.ALTERNATIVE_TARGET_PROXY_NAME]
  /\ (forall src_port,
        creates_named (TrafficDirectorManager.create_forwarding_rule src_port)
          [TrafficDirectorManager.FORWARDING_RULE_NAME])
  /\ (forall src_port,
        creates_named
          (TrafficDirectorManager.create_forwarding_rule_ipv6 src_port)
          [TrafficDirectorManager.FORWARDING_RULE_NAME_IPV6])
  /\ (forall src_port ip_address,
        creates_named
          (TrafficDirectorManager.create_alternative_forwarding_rule src_port
             ip_address)
          [TrafficDirectorManager.ALTERNATIVE_FORWARDING_RULE_NAME])
  /\ (forall allowed_ports source_range source_range_ipv6,
        creates_named
          (TrafficDirectorManager.create_firewall_rules allowed_ports
             source_range source_range_ipv6)
          ((if nonempty source_range
            then [TrafficDirectorManager.FIREWALL_RULE_NAME] else []) ++
           (if nonempty source_range_ipv6
            then [TrafficDirectorManager.FIREWALL_RULE_NAME_IPV6] else [])))
  /\ creates_named TrafficDirectorAppNetManager.create_mesh
       [TrafficDirectorAppNetManager.MESH_NAME]
  /\ (forall src_host src_port,
        creates_named
          (TrafficDirectorAppNetManager.create_grpc_route src_host src_port)
          [TrafficDirectorAppNetManager.GRPC_ROUTE_NAME])
  /\ (forall body,
        creates_named
          (TrafficDirectorAppNetManager.create_grpc_route_with_content body)
          [TrafficDirectorAppNetManager.GRPC_ROUTE_NAME])
  /\ (forall body,
        creates_named
          (TrafficDirectorAppNetManager.create_http_route_with_content body)
          [TrafficDirectorAppNetManager.HTTP_ROUTE_NAME])
  /\ (forall tls mtls,
        creates_named
          (TrafficDirectorSecureManager.create_server_tls_policy tls mtls)
          (if tls || mtls
           then [TrafficDirectorSecureManager.SERVER_TLS_POLICY_NAME]
           else []))
  /\ (forall tls mtls,
        creates_named
          (TrafficDirectorSecureManager.create_client_tls_policy tls mtls)
          (if tls || mtls
           then [TrafficDirectorSecureManager.CLIENT_TLS_POLICY_NAME]
           else []))
  /\ (forall action rules,
        creates_named
          (TrafficDirectorSecureManager.create_authz_policy action rules)
          [TrafficDirectorSecureManager.AUTHZ_POLICY_NAME])
  /\ (forall server_namespace server_name server_port,
        creates_named
          (TrafficDirectorSecureManager.create_endpoint_policy
             server_namespace server_name server_port)
          [TrafficDirectorSecureManager.ENDPOINT_POLICY])
  /\ (forall body w,
        emitted (TrafficDirectorManager.create_url_map_with_content body) w
        = [Compute (compute.create_url_map_with_content body)])
  /\ (forall name rest w,
        omap creation_name
          (emitted
             (TrafficDirectorManager.create_url_map_with_content
                (JDict (("name", JStr name) :: rest))) w)
        = [name]).

(** The delete methods that recompute the name under [force], each with the
    class constant it uses and the gateway deletion it calls. *)
Definition forced_deletions
  : list ((bool -> Py unit) * string * (string -> Call)) :=
  [ (TrafficDirectorManager.delete_health_check,
     TrafficDirectorManager.HEALTH_CHECK_NAME,
     Compute ∘ compute.delete_health_check);
    (TrafficDirectorManager.delete_backend_service,
     TrafficDirectorManager.BACKEND_SERVICE_NAME,
     Compute ∘ compute.delete_backend_service);
    (TrafficDirectorManager.delete_alternative_backend_service,
     TrafficDirectorManager.ALTERNATIVE_BACKEND_SERVICE_NAME,
     Compute ∘ compute.delete_backend_service);
    (TrafficDirectorManager.delete_affinity_backend_service,
     TrafficDirectorManager.AFFINITY_BACKEND_SERVICE_NAME,
     Compute ∘ compute.delete_backend_service);
    (TrafficDirectorManager.delete_url_map,
     TrafficDirectorManager.URL_MAP_NAME,
     Compute ∘ compute.delete_url_map);
    (TrafficDirectorManager.delete_alternative_url_map,
     TrafficDirectorManager.ALTERNATIVE_URL_MAP_NAME,
     Compute ∘ compute.delete_url_map);
    (TrafficDirectorManager.delete_target_grpc_proxy,
     TrafficDirectorManager.TARGET_PROXY_NAME,
     Compute ∘ compute.delete_target_grpc_proxy);
    (TrafficDirectorManager.delete_target_http_proxy,
     TrafficDirectorManager.TARGET_PROXY_NAME,
     Compute ∘ compute.delete_target_http_proxy);
    (TrafficDirectorManager.delete_target_proxy_ipv6,
     TrafficDirectorManager.TARGET_PROXY_NAME_IPV6,
     Compute ∘ compute.delete_target_http_proxy);
    (TrafficDirectorManager.delete_alternative_target_grpc_proxy,
     TrafficDirectorManager.ALTERNATIVE_TARGET_PROXY_NAME,
     Compute ∘ compute.delete_target_grpc_proxy);
    (TrafficDirectorManager.delete_forwarding_rule,
     TrafficDirectorManager.FORWARDING_RULE_NAME,
     Compute ∘ compute.delete_forwarding_rule);
    (TrafficDirectorManager.delete_forwarding_rule_ipv6,
     TrafficDirectorManager.FORWARDING_RULE_NAME_IPV6,
     Compute ∘ compute.delete_forwarding_rule);
    (TrafficDirectorManager.delete_alternative_forwarding_rule,
     TrafficDirectorManager.ALTERNATIVE_FORWARDING_RULE_NAME,
     Compute ∘ compute.delete_forwarding_rule);
    (TrafficDirectorAppNetManager.delete_mesh,
     TrafficDirectorAppNetManager.MESH_NAME,
     NetSvc ∘ netsvc.delete_mesh);
    (TrafficDirectorAppNetManager.delete_grpc_route,
     TrafficDirectorAppNetManager.GRPC_ROUTE_NAME,
     NetSvc ∘ netsvc.delete_grpc_route);
    (TrafficDirectorAppNetManager.delete_http_route,
     TrafficDirectorAppNetManager.HTTP_ROUTE_NAME,
     NetSvc ∘ netsvc.delete_http_route);
    (TrafficDirectorSecureManager.delete_server_tls_policy,
     TrafficDirectorSecureManager.SERVER_TLS_POLICY_NAME,
     NetSec ∘ netsec.delete_server_tls_policy);
    (TrafficDirectorSecureManager.delete_client_tls_policy,
     TrafficDirectorSecureManager.CLIENT_TLS_POLICY_NAME,
     NetSec ∘ netsec.delete_client_tls_policy);
    (TrafficDirectorSecureManager.delete_authz_policy,
     TrafficDirectorSecureManager.AUTHZ_POLICY_NAME,
     NetSec ∘ netsec.delete_authz_policy);
    (TrafficDirectorSecureManager.delete_endpoint_policy,
     TrafficDirectorSecureManager.ENDPOINT_POLICY,
     NetSvc ∘ netsvc.delete_endpoint_policy) ].

(** Under [force] the method issues exactly one call: the deletion of the
    recomputed name, whatever the slot holds and whatever the answer. *)
Definition recomputes
    (row : (bool -> Py unit) * string * (string -> Call)) : Prop :=
  let '(delete, base, gateway) := row in
  forall w,
    emitted (delete true) w
    = [gateway (TrafficDirectorManager.make_resource_name (obj w) base)].

(** The slots base cleanup may touch, in the order it visits them. *)
Definition base_slots : list Attr :=
  [firewall_rule; firewall_rule_ipv6] ++ [forwarding_rule] ++
  [alternative_forwarding_rule] ++ [target_proxy] ++
  [forwarding_rule_ipv6; target_proxy_ipv6] ++ [alternative_target_proxy] ++
  [url_map] ++ [url_map] ++ [backend_service] ++
  [alternative_backend_service] ++ [affinity_backend_service] ++
  [health_check].

(** What base [cleanup(force=True)] deletes besides the firewall rules. *)
Definition forced_cleanup (s : TrafficDirector) : list Call :=
  let name := TrafficDirectorManager.make_resource_name s in
  [ Compute (compute.delete_forwarding_rule
               (name TrafficDirectorManager.FORWARDING_RULE_NAME));
    Compute (compute.delete_forwarding_rule
               (name TrafficDirectorManager.ALTERNATIVE_FORWARDING_RULE_NAME));
    Compute (compute.delete_target_http_proxy
               (name TrafficDirectorManager.TARGET_PROXY_NAME));
    Compute (compute.delete_target_grpc_proxy
               (name TrafficDirectorManager.TARGET_PROXY_NAME)) ] ++
  (if enable_dualstack s then
     [ Compute (compute.delete_forwarding_rule
                  (name TrafficDirectorManager.FORWARDING_RULE_NAME_IPV6));
       Compute (compute.delete_target_http_proxy
                  (name TrafficDirectorManager.TARGET_PROXY_NAME_IPV6)) ]
   else []) ++
  [ Compute (compute.delete_target_grpc_proxy
               (name TrafficDirectorManager.ALTERNATIVE_TARGET_PROXY_NAME));
    Compute (compute.delete_url_map
               (name TrafficDirectorManager.URL_MAP_NAME));
    Compute (compute.delete_url_map
               (name TrafficDirectorManager.ALTERNATIVE_URL_MAP_NAME));
    Compute (compute.delete_backend_service
               (name TrafficDirectorManager.BACKEND_SERVICE_NAME));
    Compute (compute.delete_backend_service
               (name TrafficDirectorManager.ALTERNATIVE_BACKEND_SERVICE_NAME));
    Compute (compute.delete_backend_service
               (name TrafficDirectorManager.AFFINITY_BACKEND_SERVICE_NAME));
    Compute (compute.delete_health_check
               (name TrafficDirectorManager.HEALTH_CHECK_NAME)) ].

(** What the extensions delete under [force], around the base cleanup. *)
Definition forced_appnet_cleanup (s : TrafficDirector) : list Call :=
  let name := TrafficDirectorManager.make_resource_name s in
  [ NetSvc (netsvc.delete_http_route
              (name TrafficDirectorAppNetManager.HTTP_ROUTE_NAME));
    NetSvc (netsvc.delete_grpc_route
              (name TrafficDirectorAppNetManager.GRPC_ROUTE_NAME));
    NetSvc (netsvc.delete_mesh
              (name TrafficDirectorAppNetManager.MESH_NAME)) ].

Definition forced_secure_cleanup (s : TrafficDirector) : list Call :=
  let name := TrafficDirectorManager.make_resource_name s in
  [ NetSvc (netsvc.delete_endpoint_policy
              (name TrafficDirectorSecureManager.ENDPOINT_POLICY));
    NetSec (netsec.delete_server_tls_policy
              (name TrafficDirectorSecureManager.SERVER_TLS_POLICY_NAME));
    NetSec (netsec.delete_client_tls_policy
              (name TrafficDirectorSecureManager.CLIENT_TLS_POLICY_NAME));
    NetSec (netsec.delete_authz_policy
              (name TrafficDirectorSecureManager.AUTHZ_POLICY_NAME)) ].

(** A forced cleanup that goes for a firewall rule. *)
Definition attempts_firewall_deletion (w : World) : Prop :=
  exists c,
    c ∈ emitted (TrafficDirectorManager.cleanup true) w
    /\ is_firewall_deletion c.

(** * Further properties of the orchestrator *)

(** ** Single deletions *)

(** The delete methods, each with the slot it reads. *)
Definition slot_readers : list ((bool -> Py unit) * Attr) :=
  [ (TrafficDirectorManager.delete_health_check, health_check);
    (TrafficDirectorManager.delete_backend_service, backend_service);
    (TrafficDirectorManager.delete_alternative_backend_service,
     alternative_backend_service);
    (TrafficDirectorManager.delete_affinity_backend_service,
     affinity_backend_service);
    (TrafficDirectorManager.delete_url_map, url_map);
    (TrafficDirectorManager.delete_alternative_url_map, alternative_url_map);
    (TrafficDirectorManager.delete_target_grpc_proxy, target_proxy);
    (TrafficDirectorManager.delete_target_http_proxy, target_proxy);
    (TrafficDirectorManager.delete_target_proxy_ipv6, target_proxy_ipv6);
    (TrafficDirectorManager.delete_alternative_target_grpc_proxy,
     alternative_target_proxy);
    (TrafficDirectorManager.delete_forwarding_rule, forwarding_rule);
    (TrafficDirectorManager.delete_forwarding_rule_ipv6, forwarding_rule_ipv6);
    (TrafficDirectorManager.delete_alternative_forwarding_rule,
     alternative_forwarding_rule);
    (TrafficDirectorManager.delete_firewall_rule, firewall_rule);
    (TrafficDirectorManager.delete_firewall_rule_ipv6, firewall_rule_ipv6);
    (TrafficDirectorAppNetManager.delete_mesh, mesh);
    (TrafficDirectorAppNetManager.delete_grpc_route, grpc_route);
    (TrafficDirectorAppNetManager.delete_http_route, http_route);
    (TrafficDirectorSecureManager.delete_server_tls_policy, server_tls_policy);
    (TrafficDirectorSecureManager.delete_client_tls_policy, client_tls_policy);
    (TrafficDirectorSecureManager.delete_authz_policy, authz_policy);
    (TrafficDirectorSecureManager.delete_endpoint_policy, endpoint_policy) ].

(** Without [force] and with the slot empty, the method returns and leaves
    the world, trace and log included, as it was. *)
Definition idle_when_absent (row : (bool -> Py unit) * Attr) : Prop :=
  let '(method, a) := row in
  forall w, resources (obj w) !! a = None -> method false w = (Return tt, w).

(** The delete methods that clear the slot they read, each with that slot
    and the gateway deletion it calls. *)
Definition slot_deleters
  : list ((bool -> Py unit) * Attr * (string -> Call)) :=
  [ (TrafficDirectorManager.delete_health_check, health_check,
     Compute ∘ compute.delete_health_check);
    (TrafficDirectorManager.delete_backend_service, backend_service,
     Compute ∘ compute.delete_backend_service);
    (TrafficDirectorManager.delete_alternative_backend_service,
     alternative_backend_service, Compute ∘ compute.delete_backend_service);
    (TrafficDirectorManager.delete_affinity_backend_service,
     affinity_backend_service, Compute ∘ compute.delete_backend_service);
    (TrafficDirectorManager.delete_url_map, url_map,
     Compute ∘ compute.delete_url_map);
    (TrafficDirectorManager.delete_target_grpc_proxy, target_proxy,
     Compute ∘ compute.delete_target_grpc_proxy);
    (TrafficDirectorManager.delete_target_proxy_ipv6, target_proxy_ipv6,
     Compute ∘ compute.delete_target_http_proxy);
    (TrafficDirectorManager.delete_alternative_target_grpc_proxy,
     alternative_target_proxy, Compute ∘ compute.delete_target_grpc_proxy);
    (TrafficDirectorManager.delete_forwarding_rule, forwarding_rule,
     Compute ∘ compute.delete_forwarding_rule);
    (TrafficDirectorManager.delete_forwarding_rule_ipv6, forwarding_rule_ipv6,
     Compute ∘ compute.delete_forwarding_rule);
    (TrafficDirectorManager.delete_alternative_forwarding_rule,
     alternative_forwarding_rule, Compute ∘ compute.delete_forwarding_rule);
    (TrafficDirectorManager.delete_firewall_rule, firewall_rule,
     Compute ∘ compute.delete_firewall_rule);
    (TrafficDirectorManager.delete_firewall_rule_ipv6, firewall_rule_ipv6,
     Compute ∘ compute.delete_firewall_rule);
    (TrafficDirectorAppNetManager.delete_mesh, mesh,
     NetSvc ∘ netsvc.delete_mesh);
    (TrafficDirectorAppNetManager.delete_grpc_route, grpc_route,
     NetSvc ∘ netsvc.delete_grpc_route);
    (TrafficDirectorAppNetManager.delete_http_route, http_route,
     NetSvc ∘ netsvc.delete_http_route);
    (TrafficDirectorSecureManager.delete_server_tls_policy, server_tls_policy,
     NetSec ∘ netsec.delete_server_tls_policy);
    (TrafficDirectorSecureManager.delete_client_tls_policy, client_tls_policy,
     NetSec ∘ netsec.delete_client_tls_policy);
    (TrafficDirectorSecureManager.delete_authz_policy, authz_policy,
     NetSec ∘ netsec.delete_authz_policy);
    (TrafficDirectorSecureManager.delete_endpoint_policy, endpoint_policy,
     NetSvc ∘ netsvc.delete_endpoint_policy) ].

(** Without [force], on a [Present] slot whose remote deletion succeeds: the
    method returns, the one call issued is the deletion of the handle's
    name, and the slot, and no other slot, is emptied. *)
Definition clears_own_slot
    (row : (bool -> Py unit) * Attr * (string -> Call)) : Prop :=
  let '(method, a, gateway) := row in
  forall w r,
    resources (obj w) !! a = Some r ->
    raises (remote w) (calls w) (gateway (GcpResource.name r)) = None ->
    outcome (method false) w = Return tt
    /\ emitted (method false) w = [gateway (GcpResource.name r)]
    /\ resources (obj (after (method false) w)) = delete a (resources (obj w)).

(** An exception other than the API client's own. *)
Definition not_google_error (e : Exn) : Prop :=
  match e with GoogleApiError _ => False | _ => True end.

(** Without [force], on a [Present] slot whose remote deletion raises: the
    exception reaches the caller and the object is as before, the slot
    still [Present]. *)
Definition keeps_slot_on_failure
    (row : (bool -> Py unit) * Attr * (string -> Call)) : Prop :=
  let '(method, a, gateway) := row in
  forall w r e,
    resources (obj w) !! a = Some r ->
    raises (remote w) (calls w) (gateway (GcpResource.name r)) = Some e ->
    not_google_error e \/ a <> firewall_rule /\ a <> firewall_rule_ipv6 ->
    outcome (method false) w = Raise e
    /\ emitted (method false) w = [gateway (GcpResource.name r)]
    /\ obj (after (method false) w) = obj w.

(** A URL map and a GRPC proxy with a reachable control plane, used by the
    examples below. *)
Definition w_proxied : World :=
  after TrafficDirectorManager.create_target_proxy w_grpc.

(** A control plane that is out of reach: every call raises. *)
Definition unreachable : Gateway :=
  {| raises := fun _ _ => Some (OtherError "connection reset");
     resource := resource accepting;
     network_endpoint_group := network_endpoint_group accepting;
     flag := flag accepting;
     resource_full_name := resource_full_name accepting |}.

(** The object of [w_grpc], the control plane now out of reach. *)
Definition w_cut_off : World := world_of (obj w_grpc) unreachable.

(** ** What cleanup leaves behind *)

(** [self.a = None] *)
Definition clear (a : Attr) (s : TrafficDirector) : TrafficDirector :=
  set_resources (delete a (resources s)) s.

(** [transforms m F]: on a reliable control plane [m] returns and turns the
    object [s] into [F s]. *)
Definition transforms (m : Py unit)
    (F : TrafficDirector -> TrafficDirector) : Prop :=
  forall w, reliable (remote w) ->
    exists w', m w = (Return tt, w') /\ obj w' = F (obj w)
               /\ remote w' = remote w.

(** The object after each irregular step of the base cleanup. *)
Definition firewall_cleared (s : TrafficDirector) : TrafficDirector :=
  if _ensure_firewall s
  then set_ensure_firewall false (clear firewall_rule_ipv6 (clear firewall_rule s))
  else s.

Definition target_proxy_cleared (force : bool) (s : TrafficDirector)
  : TrafficDirector :=
  if force || bool_decide (is_Some (resources s !! target_proxy))
  then set_target_proxy_is_http false (clear target_proxy s)
  else s.

Definition dualstack_cleared (s : TrafficDirector) : TrafficDirector :=
  if enable_dualstack s
  then clear target_proxy_ipv6 (clear forwarding_rule_ipv6 s)
  else s.

Definition alternative_url_map_deleted (force : bool) (s : TrafficDirector)
  : TrafficDirector :=
  if force || bool_decide (is_Some (resources s !! alternative_url_map))
  then clear url_map s
  else s.

(** The object after the whole base cleanup. *)
Definition cleaned_up (force : bool) (s : TrafficDirector) : TrafficDirector :=
  clear health_check
    (clear affinity_backend_service
       (clear alternative_backend_service
          (clear backend_service
             (alternative_url_map_deleted force
                (clear url_map
                   (clear alternative_target_proxy
                      (dualstack_cleared
                         (target_proxy_cleared force
                            (clear alternative_forwarding_rule
                               (clear forwarding_rule
                                  (firewall_cleared s))))))))))).

(** The slots base cleanup always leaves empty. *)
Definition always_cleared : list Attr :=
  [ forwarding_rule; alternative_forwarding_rule; target_proxy;
    alternative_target_proxy; url_map; backend_service;
    alternative_backend_service; affinity_backend_service; health_check ].

(** Everything [setup_for_grpc] creates, then an alternative backend
    service and the alternative URL map that routes to it. *)
Definition w_rerouted : World :=
  after
    (TrafficDirectorManager.create_alternative_backend_service None;;
     TrafficDirectorManager.create_alternative_url_map "alt.example" 8080
       None)
    w_serving.

(** ** What setup provisions *)

(** The proxy creation that goes with the protocol of the backend service. *)
Definition proxy_creation (p : BackendServiceProtocol.t) (name : string)
    (url_map : GcpResource.t) : Call :=
  match p with
  | BackendServiceProtocol.HTTP2 =>
      Compute (compute.create_target_http_proxy name (Some url_map))
  | _ => Compute (compute.create_target_grpc_proxy name (Some url_map) None)
  end.

(** Whether the proxy that goes with the protocol is recorded as HTTP-kind. *)
Definition http_kind (p : BackendServiceProtocol.t) : bool :=
  match p with
  | BackendServiceProtocol.HTTP2 => true
  | _ => false
  end.

(** The five creations of [setup_for_grpc], each given the handles its
    resource refers to. *)
Definition provisioning (s : TrafficDirector) (host : string) (port : Z)
    (p : BackendServiceProtocol.t) (health_check_port : option Z)
    (hc bs um tp : GcpResource.t) : list Call :=
  let name := TrafficDirectorManager.make_resource_name s in
  [ Compute (compute.create_health_check
               (name TrafficDirectorManager.HEALTH_CHECK_NAME)
               HealthCheckProtocol.GRPC health_check_port);
    Compute (compute.create_backend_service_traffic_director
               (name TrafficDirectorManager.BACKEND_SERVICE_NAME)
               (Some hc) p None None None None (enable_dualstack s));
    Compute (compute.create_url_map_with_content
               (TrafficDirectorManager._generate_url_map_body
                  (name TrafficDirectorManager.URL_MAP_NAME)
                  (name TrafficDirectorManager.URL_MAP_PATH_MATCHER_NAME)
                  [host +:+ ":" +:+ pretty port] bs None));
    proxy_creation p (name TrafficDirectorManager.TARGET_PROXY_NAME) um;
    Compute (compute.create_forwarding_rule
               (name TrafficDirectorManager.FORWARDING_RULE_NAME) port
               (Some tp) (TrafficDirectorManager.network_url s) None) ].

(** The two further creations on a dual-stack manager. *)
Definition provisioning_ipv6 (s : TrafficDirector) (port : Z)
    (um tp6 : GcpResource.t) : list Call :=
  let name := TrafficDirectorManager.make_resource_name s in
  [ Compute (compute.create_target_http_proxy
               (name TrafficDirectorManager.TARGET_PROXY_NAME_IPV6)
               (Some um));
    Compute (compute.create_forwarding_rule
               (name TrafficDirectorManager.FORWARDING_RULE_NAME_IPV6) port
               (Some tp6) (TrafficDirectorManager.network_url s) (Some "::")) ].

(** The slots [setup_for_grpc] fills, in the order it fills them. *)
Definition provisioned (hc bs um tp fr : GcpResource.t)
    (m : gmap Attr GcpResource.t) : gmap Attr GcpResource.t :=
  <[forwarding_rule := fr]>
    (<[target_proxy := tp]>
       (<[url_map := um]>
          (<[backend_service := bs]> (<[health_check := hc]> m)))).

Definition provisioned_ipv6 (tp6 fr6 : GcpResource.t)
    (m : gmap Attr GcpResource.t) : gmap Attr GcpResource.t :=
  <[forwarding_rule_ipv6 := fr6]> (<[target_proxy_ipv6 := tp6]> m).

(** [fills m w a c F r w']: started in [w], [m] returns after the one call
    [c], stores the handle [r] in slot [a], applies [F] to the flags and
    ends in [w']. *)
Definition fills {A} (m : Py A) (w : World) (a : Attr) (c : Call)
    (F : TrafficDirector -> TrafficDirector) (r : GcpResource.t)
    (w' : World) : Prop :=
  (exists x, m w = (Return x, w'))
  /\ calls w' = calls w ++ [c]
  /\ remote w' = remote w
  /\ obj w' = F (set_resources (<[a := r]> (resources (obj w))) (obj w)).

(** The proxy deletion that goes with the protocol of the backend service. *)
Definition proxy_deletion (p : BackendServiceProtocol.t)
    (tp : GcpResource.t) : Call :=
  match p with
  | BackendServiceProtocol.HTTP2 =>
      Compute (compute.delete_target_http_proxy (GcpResource.name tp))
  | _ => Compute (compute.delete_target_grpc_proxy (GcpResource.name tp))
  end.

(** The deletions of what [setup_for_grpc] stored, as cleanup issues
    them. *)
Definition teardown (p : BackendServiceProtocol.t) (dualstack : bool)
    (hc bs um tp fr tp6 fr6 : GcpResource.t) : list Call :=
  [ Compute (compute.delete_forwarding_rule (GcpResource.name fr));
    proxy_deletion p tp ] ++
  (if dualstack
   then [ Compute (compute.delete_forwarding_rule (GcpResource.name fr6));
          Compute (compute.delete_target_http_proxy (GcpResource.name tp6)) ]
   else []) ++
  [ Compute (compute.delete_url_map (GcpResource.name um));
    Compute (compute.delete_backend_service (GcpResource.name bs));
    Compute (compute.delete_health_check (GcpResource.name hc)) ].

(** ** Missing dependencies *)



(** ** Security policies *)

(** [body.get(key)] on a request body. *)
Fixpoint assoc (key : string) (fields : list (string * Json))
  : option Json :=
  match fields with
  | [] => None
  | (k, v) :: fields => if String.eqb k key then Some v else assoc key fields
  end.

Definition field (key : string) (body : Json) : option Json :=
  match body with
  | JDict fields => assoc key fields
  | _ => None
  end.

(** The bodies of the endpoint-policy creations of a trace. *)
Definition endpoint_policy_bodies (t : list Call) : list Json :=
  omap (fun c => match c with
                 | NetSvc (netsvc.create_endpoint_policy _ body) => Some body
                 | _ => None
                 end) t.

(** The backend-service patches of a trace. *)
Definition backend_service_patches (t : list Call) : list Json :=
  omap (fun c => match c with
                 | Compute (compute.patch_backend_service _ body) => Some body
                 | _ => None
                 end) t.

(** The name of a handle as a request body carries it. *)
Definition named (r : GcpResource.t) : Json := JStr (GcpResource.name r).

(** ** Creating into a filled slot *)

(** [overwrites m a]: the creation [m] does not look at its slot [a].  Run
    with the slot holding any handle it returns or raises as it does with
    the slot empty and issues the same calls; when it returns, the object
    is the one the run on the empty slot leaves, so the old handle is gone,
    and the slot holds the control plane's answer to one of the calls just
    issued. *)
Definition overwrites {A} (m : Py A) (a : Attr) : Prop :=
  forall w old,
    let filled := after (setattr a (Some old)) w in
    let empty := after (setattr a None) w in
    outcome m filled = outcome m empty
    /\ emitted m filled = emitted m empty
    /\ (forall x, outcome m filled = Return x ->
          obj (after m filled) = obj (after m empty)
          /\ exists t0 c t1,
               emitted m filled = t0 ++ c :: t1
               /\ resources (obj (after m filled)) !! a
                  = Some (resource (remote w) (calls w ++ t0) c)).

(** ** Teardown order *)

(** The slots a cleanup visits, in the order it visits them; the IPv6 pair
    only on a dual-stack manager. *)
Definition base_schedule (dualstack : bool) : list Attr :=
  [ firewall_rule; firewall_rule_ipv6; forwarding_rule;
    alternative_forwarding_rule; target_proxy ] ++
  (if dualstack then [forwarding_rule_ipv6; target_proxy_ipv6] else []) ++
  [ alternative_target_proxy; url_map; alternative_url_map; backend_service;
    alternative_backend_service; affinity_backend_service; health_check ].

Definition appnet_schedule (dualstack : bool) : list Attr :=
  [http_route; grpc_route; mesh] ++ base_schedule dualstack.

Definition secure_schedule (dualstack : bool) : list Attr :=
  base_schedule dualstack ++
  [endpoint_policy; server_tls_policy; client_tls_policy; authz_policy].

(** The gateway deletion of a slot and the class constant of its name. *)
Definition deleter (a : Attr) : (string -> Call) * string :=
  match a with
  | health_check =>
      (Compute ∘ compute.delete_health_check,
       TrafficDirectorManager.HEALTH_CHECK_NAME)
  | url_map =>
      (Compute ∘ compute.delete_url_map, TrafficDirectorManager.URL_MAP_NAME)
  | alternative_url_map =>
      (Compute ∘ compute.delete_url_map,
       TrafficDirectorManager.ALTERNATIVE_URL_MAP_NAME)
  | firewall_rule =>
      (Compute ∘ compute.delete_firewall_rule,
       TrafficDirectorManager.FIREWALL_RULE_NAME)
  | firewall_rule_ipv6 =>
      (Compute ∘ compute.delete_firewall_rule,
       TrafficDirectorManager.FIREWALL_RULE_NAME_IPV6)
  | target_proxy =>
      (Compute ∘ compute.delete_target_grpc_proxy,
       TrafficDirectorManager.TARGET_PROXY_NAME)
  | target_proxy_ipv6 =>
      (Compute ∘ compute.delete_target_http_proxy,
       TrafficDirectorManager.TARGET_PROXY_NAME_IPV6)
  | alternative_target_proxy =>
      (Compute ∘ compute.delete_target_grpc_proxy,
       TrafficDirectorManager.ALTERNATIVE_TARGET_PROXY_NAME)
  | forwarding_rule =>
      (Compute ∘ compute.delete_forwarding_rule,
       TrafficDirectorManager.FORWARDING_RULE_NAME)
  | forwarding_rule_ipv6 =>
      (Compute ∘ compute.delete_forwarding_rule,
       TrafficDirectorManager.FORWARDING_RULE_NAME_IPV6)
  | alternative_forwarding_rule =>
      (Compute ∘ compute.delete_forwarding_rule,
       TrafficDirectorManager.ALTERNATIVE_FORWARDING_RULE_NAME)
  | backend_service =>
      (Compute ∘ compute.delete_backend_service,
       TrafficDirectorManager.BACKEND_SERVICE_NAME)
  | affinity_backend_service =>
      (Compute ∘ compute.delete_backend_service,
       TrafficDirectorManager.AFFINITY_BACKEND_SERVICE_NAME)
  | alternative_backend_service =>
      (Compute ∘ compute.delete_backend_service,
       TrafficDirectorManager.ALTERNATIVE_BACKEND_SERVICE_NAME)
  | grpc_route =>
      (NetSvc ∘ netsvc.delete_grpc_route,
       TrafficDirectorAppNetManager.GRPC_ROUTE_NAME)
  | http_route =>
      (NetSvc ∘ netsvc.delete_http_route,
       TrafficDirectorAppNetManager.HTTP_ROUTE_NAME)
  | mesh =>
      (NetSvc ∘ netsvc.delete_mesh, TrafficDirectorAppNetManager.MESH_NAME)
  | server_tls_policy =>
      (NetSec ∘ netsec.delete_server_tls_policy,
       TrafficDirectorSecureManager.SERVER_TLS_POLICY_NAME)
  | client_tls_policy =>
      (NetSec ∘ netsec.delete_client_tls_policy,
       TrafficDirectorSecureManager.CLIENT_TLS_POLICY_NAME)
  | authz_policy =>
      (NetSec ∘ netsec.delete_authz_policy,
       TrafficDirectorSecureManager.AUTHZ_POLICY_NAME)
  | endpoint_policy =>
      (NetSvc ∘ netsvc.delete_endpoint_policy,
       TrafficDirectorSecureManager.ENDPOINT_POLICY)
  end.

(** The deletions a cleanup issues when it visits a slot: the handle's name
    without [force], the recomputed name with it; the firewall rules only
    under the firewall flag; the proxy through the gateway of its kind. *)
Definition slot_deletions (force : bool) (s : TrafficDirector) (a : Attr)
  : list Call :=
  match a with
  | firewall_rule | firewall_rule_ipv6 =>
      if _ensure_firewall s
      then deletion (deleter a).1 (firewall_target force a (deleter a).2 s)
      else []
  | target_proxy => target_proxy_deletions force s
  | _ => deletion (deleter a).1 (target force a (deleter a).2 s)
  end.

(** [refers_to a b]: the resource in slot [a] is created or configured with
    the handle in slot [b] ([create_backend_service] passes the health
    check, [create_url_map] the backend service, the proxies their URL map,
    the forwarding rules their proxy, [create_grpc_route] the mesh and the
    backend service, [create_endpoint_policy] the server TLS and the
    authorization policy, [backend_service_apply_client_mtls_policy]
    the client TLS policy). *)
Definition refers_to (a b : Attr) : bool :=
  match a, b with
  | backend_service, health_check
  | alternative_backend_service, health_check
  | affinity_backend_service, health_check
  | url_map, backend_service
  | alternative_url_map, alternative_backend_service
  | target_proxy, url_map
  | target_proxy_ipv6, url_map
  | alternative_target_proxy, alternative_url_map
  | forwarding_rule, target_proxy
  | forwarding_rule_ipv6, target_proxy_ipv6
  | alternative_forwarding_rule, alternative_target_proxy
  | grpc_route, mesh
  | grpc_route, backend_service
  | endpoint_policy, server_tls_policy
  | endpoint_policy, authz_policy
  | backend_service, client_tls_policy => true
  | _, _ => false
  end.

(** Strict reverse dependency order: whatever refers to a resource is
    visited before that resource. *)
Definition in_reverse_dependency_order (schedule : list Attr) : Prop :=
  forall i j a b,
    schedule !! i = Some a -> schedule !! j = Some b ->
    refers_to a b = true -> (i < j)%nat.

(** Extension first, base last. *)
Definition extension_first (schedule : list Attr) : Prop :=
  forall i j a b,
    schedule !! i = Some a -> schedule !! j = Some b ->
    a ∉ base_schedule true -> b ∈ base_schedule true -> (i < j)%nat.

(** Everything [setup_for_grpc] creates, then a mesh and a gRPC route. *)
Definition w_meshed : World :=
  after
    (TrafficDirectorAppNetManager.create_mesh;;
     TrafficDirectorAppNetManager.create_grpc_route "svc.example" 8080)
    w_serving.

(** * Properties *)

(** ** Running computations *)

Lemma bind_return {A B} (m : Py A) (k : A -> Py B) w a w' :
  m w = (Return a, w') -> (m ≫= k) w = k a w'.
Proof. intros H. unfold mbind, Py_bind. by rewrite H. Qed.

Lemma bind_raise {A B} (m : Py A) (k : A -> Py B) w e w' :
  m w = (Raise e, w') -> (m ≫= k) w = (Raise e, w').
Proof. intros H. unfold mbind, Py_bind. by rewrite H. Qed.

(** ** Naming *)

Lemma join_name_for prefix base suffix :
  join "-"
    (if truthy suffix then [prefix; base] ++ [default EmptyString suffix]
     else [prefix; base])%list
  = name_for prefix base suffix.
Proof. by destruct suffix as [[|c sfx]|]. Qed.

Lemma last_char_app (a b : string) :
  b <> EmptyString -> last_char (a +:+ b) = last_char b.
Proof.
  intros Hb. induction a as [|c a IH]; [done|].
  simpl. rewrite <- IH.
  destruct (a +:+ b) eqn:E; [|done].
  destruct a; simpl in E; [done | discriminate].
Qed.

(** C9. The derived name is a function of (prefix, base name, suffix) alone:
    it is [prefix-base] when the suffix is empty or [None], with nothing
    after the base name, and [prefix-base-suffix] otherwise. *)
Theorem make_resource_name_pure (s : TrafficDirector) (name : string) :
  TrafficDirectorManager.make_resource_name s name
    = name_for (resource_prefix s) name (resource_suffix s)
  /\ (forall s',
        resource_prefix s' = resource_prefix s ->
        resource_suffix s' = resource_suffix s ->
        TrafficDirectorManager.make_resource_name s' name
          = TrafficDirectorManager.make_resource_name s name)
  /\ (truthy (resource_suffix s) = false ->
        TrafficDirectorManager.make_resource_name s name
          = resource_prefix s +:+ "-" +:+ name
        /\ (name <> EmptyString ->
              last_char (TrafficDirectorManager.make_resource_name s name)
                = last_char name))
  /\ (forall sfx,
        resource_suffix s = Some sfx -> sfx <> EmptyString ->
        TrafficDirectorManager.make_resource_name s name
          = resource_prefix s +:+ "-" +:+ name +:+ "-" +:+ sfx).
Proof.
  unfold TrafficDirectorManager.make_resource_name.
  split; [apply join_name_for|].
  split; [intros s' Hp Hs; by rewrite Hp, Hs|].
  split.
  - intros Hs. rewrite join_name_for.
    assert (name_for (resource_prefix s) name (resource_suffix s)
            = resource_prefix s +:+ "-" +:+ name) as ->.
    { by destruct (resource_suffix s) as [[|c sfx]|]. }
    split; [done|]. intros Hn.
    rewrite last_char_app; [|by destruct name].
    by destruct name.
  - intros sfx Hs Hne. rewrite join_name_for, Hs.
    by destruct sfx.
Qed.

(** Memoisation is not observable: from a coherent cache (the empty one
    included) the cached method returns what the body computes and leaves a
    coherent cache. *)
Lemma make_resource_name_cached_sound cache s name :
  coherent cache s ->
  (TrafficDirectorManager.make_resource_name_cached cache s name).1
    = TrafficDirectorManager.make_resource_name s name
  /\ coherent (TrafficDirectorManager.make_resource_name_cached cache s name).2
       s.
Proof.
  intros Hc. unfold TrafficDirectorManager.make_resource_name_cached.
  destruct (cache !! name) as [hit|] eqn:E; cbn.
  - split; [by apply Hc | done].
  - split; [done|]. intros n v. rewrite lookup_insert.
    case_decide; [by intros [= <-]; subst | apply Hc].
Qed.

Lemma coherent_empty s : coherent ∅ s.
Proof. intros n v H. by rewrite lookup_empty in H. Qed.

Lemma make_resource_name_pure_witness :
  TrafficDirectorManager.make_resource_name fresh "health-check"
    = "psm-interop-health-check-t1"
  /\ TrafficDirectorManager.make_resource_name
       (__init__ "psm" "psm-interop" (Some EmptyString) "default" false) "health-check"
     = "psm-interop-health-check"
  /\ last_char
       (TrafficDirectorManager.make_resource_name
          (__init__ "psm" "psm-interop" None "default" true) "url-map")
     = last_char "url-map".
Proof.
  split; [|split].
  - apply (proj2 (proj2 (proj2 (make_resource_name_pure fresh "health-check")))
             "t1"); [reflexivity | discriminate].
  - apply (proj2 (proj2 (make_resource_name_pure
             (__init__ "psm" "psm-interop" (Some EmptyString) "default" false)
             "health-check"))).
    reflexivity.
  - refine (eq_trans
      (proj2 (proj1 (proj2 (proj2 (make_resource_name_pure
         (__init__ "psm" "psm-interop" None "default" true) "url-map")))
         eq_refl) _) eq_refl).
    discriminate.
Defined.

(** ** Symbolic execution *)

Ltac py_unfold :=
  unfold emitted, after, outcome, mbind, mret, Py_bind, Py_ret, self,
    collaborators, raise, logger.info, logger.debug, logger.warning, invoke_,
    invoke, setattr, getattr, deref, modify, emit, try_except_google,
    randint in *.

Lemma set_resources_id s : set_resources (resources s) s = s.
Proof. by destruct s. Qed.

Lemma emitted_app {A} (m : Py A) w t :
  calls (after m w) = calls w ++ t -> emitted m w = t.
Proof. unfold emitted. intros ->. apply drop_app_length. Qed.

(** ** C5: creating into a [Present] slot *)

Import TrafficDirectorManager.

(** C5 (as stated) fails: [create_backend_service] has no guard; on a
    [Present] slot it issues the remote creation and returns. *)
Lemma create_backend_service_unguarded :
  ~ rejects_present backend_service
      (create_backend_service None None None None None).
Proof.
  intros H. destruct (H w_grpc) as [msg Hmsg]; [vm_compute; by eexists|].
  vm_compute in Hmsg. discriminate.
Qed.

(** ** C6: the proxy kind follows the backend-service protocol *)

(** C6. [create_target_proxy] picks the proxy kind from the recorded
    backend-service protocol.  GRPC: the flag is cleared and, the URL map
    being there, the one remote call is the GRPC-proxy creation whose answer
    becomes the target proxy.  HTTP2: the flag is set and the one remote call
    is the HTTP-proxy creation.  Any other value, that is UNSET: [TypeError],
    no remote call, nothing changed. *)
Theorem create_target_proxy_by_protocol (w : World) :
  let s := obj w in
  let name := make_resource_name s TARGET_PROXY_NAME in
  let w' := after create_target_proxy w in
  (backend_service_protocol s = BackendServiceProtocol.GRPC ->
     target_proxy_is_http (obj w') = false
     /\ (forall um, resources s !! url_map = Some um ->
         let c := Compute (compute.create_target_grpc_proxy name (Some um)
                             None) in
         calls w' = calls w ++ [c]
         /\ (raises (remote w) (calls w) c = None ->
             outcome create_target_proxy w = Return tt
             /\ resources (obj w') !! target_proxy
                = Some (resource (remote w) (calls w) c))))
  /\ (backend_service_protocol s = BackendServiceProtocol.HTTP2 ->
      target_proxy_is_http (obj w') = true
      /\ (forall um, resources s !! url_map = Some um ->
          let c := Compute (compute.create_target_http_proxy name (Some um)) in
          calls w' = calls w ++ [c]
          /\ (raises (remote w) (calls w) c = None ->
              outcome create_target_proxy w = Return tt
              /\ resources (obj w') !! target_proxy
                 = Some (resource (remote w) (calls w) c))))
  /\ (backend_service_protocol s <> BackendServiceProtocol.GRPC ->
      backend_service_protocol s <> BackendServiceProtocol.HTTP2 ->
      create_target_proxy w
      = (Raise (TypeError "Unexpected backend service protocol"), w)).
Proof.
  destruct w as [s g e d cs lg]. unfold create_target_proxy. py_unfold.
  cbn. split; [|split].
  - intros ->. cbn. split.
    + destruct (resources s !! url_map); cbn; [|done].
      by destruct (raises g cs _).
    + intros um ->. cbn. destruct (raises g cs _); cbn; [done|].
      split; [done|]. intros _. split; [done|]. apply lookup_insert_eq.
  - intros ->. cbn. split.
    + destruct (resources s !! url_map); cbn; [|done].
      by destruct (raises g cs _).
    + intros um ->. cbn. destruct (raises g cs _); cbn; [done|].
      split; [done|]. intros _. split; [done|]. apply lookup_insert_eq.
  - intros H1 H2. by destruct (backend_service_protocol s).
Qed.

Lemma create_target_proxy_by_protocol_witness :
  (outcome create_target_proxy w_grpc = Return tt
   /\ target_proxy_is_http (obj (after create_target_proxy w_grpc)) = false
   /\ emitted create_target_proxy w_grpc
      = [Compute (compute.create_target_grpc_proxy
                    (make_resource_name (obj w_grpc) TARGET_PROXY_NAME)
                    (Some (GcpResource.Build "psm-interop-url-map-t1"
                             "global/psm-interop-url-map-t1")) None)])
  /\ (outcome create_target_proxy w_http2 = Return tt
      /\ target_proxy_is_http (obj (after create_target_proxy w_http2)) = true)
  /\ create_target_proxy (world_of fresh accepting)
     = (Raise (TypeError "Unexpected backend service protocol"),
        world_of fresh accepting).
Proof.
  split; [|split].
  - destruct (proj1 (create_target_proxy_by_protocol w_grpc)) as [Hflag H];
      [by vm_compute|].
    destruct (H (GcpResource.Build "psm-interop-url-map-t1"
                   "global/psm-interop-url-map-t1")) as [Hc Hok];
      [by vm_compute|].
    split; [apply Hok; reflexivity|]. split; [exact Hflag|].
    apply emitted_app. exact Hc.
  - destruct (proj1 (proj2 (create_target_proxy_by_protocol w_http2)))
      as [Hflag H]; [by vm_compute|].
    destruct (H (GcpResource.Build "psm-interop-url-map-t1"
                   "global/psm-interop-url-map-t1")) as [Hc Hok];
      [by vm_compute|].
    split; [apply Hok; reflexivity | exact Hflag].
  - apply (proj2 (proj2 (create_target_proxy_by_protocol
                           (world_of fresh accepting)))); by vm_compute.
Defined.

(** ** C7: adding backends from no zones *)


Lemma get_gcp_negs_no_zones name w :
  exists lg,
    _get_gcp_negs_in_zones name [] w
    = (Return ∅,
       {| obj := obj w; remote := remote w; entropy := entropy w;
          draws := draws w; calls := calls w; logged := logged w ++ lg |}).
Proof. eexists. unfold _get_gcp_negs_in_zones. py_unfold. by cbn. Qed.



(** ** The program logic *)

#[global] Instance same_preorder {X} (f : TrafficDirector -> X)
  : PreOrder (same f).
Proof.
  split; [by intros s | intros s1 s2 s3 H1 H2; unfold same in *; congruence].
Qed.

#[global] Instance anything_preorder : PreOrder anything.
Proof. by split. Qed.

Section Steps.
Context (P : Call -> bool) (R : relation TrafficDirector) `{!PreOrder R}.

Lemma evolves_refl w : evolves P R w w.
Proof.
  split; [reflexivity|]. split; [done|]. split.
  - exists []. by rewrite app_nil_r.
  - exists []. by rewrite app_nil_r.
Qed.

Lemma evolves_trans w1 w2 w3 :
  evolves P R w1 w2 -> evolves P R w2 w3 -> evolves P R w1 w3.
Proof.
  intros (HR1 & Hg1 & (t1 & Ht1 & HP1) & (l1 & Hl1))
         (HR2 & Hg2 & (t2 & Ht2 & HP2) & (l2 & Hl2)).
  split; [by etrans|]. split; [congruence|]. split.
  - exists (t1 ++ t2). rewrite Ht2, Ht1, app_assoc. split; [done|].
    by apply Forall_app.
  - exists (l1 ++ l2). by rewrite Hl2, Hl1, app_assoc.
Qed.

Lemma steps_ret {A} (a : A) : steps (evolves P R) (mret a).
Proof. intros w. apply evolves_refl. Qed.

Lemma steps_raise {A} e : steps (evolves P R) (@raise A e).
Proof. intros w. apply evolves_refl. Qed.

Lemma steps_self : steps (evolves P R) self.
Proof. intros w. apply evolves_refl. Qed.

Lemma steps_collaborators : steps (evolves P R) collaborators.
Proof. intros w. apply evolves_refl. Qed.

Lemma steps_bind {A B} (m : Py A) (k : A -> Py B) :
  steps (evolves P R) m -> (forall a, steps (evolves P R) (k a)) ->
  steps (evolves P R) (m ≫= k).
Proof.
  intros Hm Hk w. specialize (Hm w). unfold after, mbind, Py_bind in *.
  destruct (m w) as [[a|e] w'] eqn:E; [|exact Hm].
  eapply evolves_trans; [exact Hm | apply Hk].
Qed.

Lemma steps_emit r : steps (evolves P R) (emit r).
Proof.
  intros w. split; [reflexivity|]. split; [done|]. split.
  - exists []. by rewrite app_nil_r.
  - by exists [r].
Qed.

Lemma steps_invoke {A} (answer : Gateway -> list Call -> Call -> A) c :
  P c -> steps (evolves P R) (invoke answer c).
Proof.
  intros Hc w. unfold after, invoke.
  destruct (raises (remote w) (calls w) c); cbn.
  all: split; [reflexivity|]; split; [done|]; split;
    [ exists [c]; split; [done | by constructor]
    | exists []; by rewrite app_nil_r ].
Qed.

Lemma steps_modify f :
  (forall s, R s (f s)) -> steps (evolves P R) (modify f).
Proof.
  intros Hf w. split; [apply Hf|]. split; [done|]. split.
  - exists []. by rewrite app_nil_r.
  - exists []. by rewrite app_nil_r.
Qed.

Lemma steps_randint lo hi : steps (evolves P R) (randint lo hi).
Proof.
  intros w. unfold after, randint. destruct (hi <? lo); cbn.
  all: split; [reflexivity|]; split; [done|]; split;
    exists []; by rewrite app_nil_r.
Qed.

Lemma steps_try {A} (m : Py A) (handler : Exn -> Py A) :
  steps (evolves P R) m -> (forall e, steps (evolves P R) (handler e)) ->
  steps (evolves P R) (try_except_google m handler).
Proof.
  intros Hm Hh w. specialize (Hm w). unfold after, try_except_google in *.
  destruct (m w) as [[a|[]] w'] eqn:E; try exact Hm.
  eapply evolves_trans; [exact Hm | apply Hh].
Qed.

End Steps.

Lemma steps_emits {A} P R (m : Py A) :
  steps (evolves P R) m -> emits (all P) m.
Proof. intros H w. by destruct (H w) as (_ & _ & Ht & _). Qed.

Lemma emits_bind {A B} L1 L2 (m : Py A) (k : A -> Py B) :
  emits L1 m -> (forall a, emits L2 (k a)) -> L2 [] ->
  emits (then_ L1 L2) (m ≫= k).
Proof.
  intros Hm Hk Hnil w. destruct (Hm w) as (t1 & Ht1 & HL1).
  unfold after, mbind, Py_bind in *.
  destruct (m w) as [[a|e] w'] eqn:E; cbn in *.
  - destruct (Hk a w') as (t2 & Ht2 & HL2). unfold after in Ht2.
    exists (t1 ++ t2).
    split; [by rewrite Ht2, Ht1, app_assoc|]. by exists t1, t2.
  - exists t1. split; [done|]. exists t1, []. by rewrite app_nil_r.
Qed.

Lemma all_nil P : all P [].
Proof. constructor. Qed.

Lemma then_nil L1 L2 : L1 [] -> L2 [] -> then_ L1 L2 [].
Proof. intros H1 H2. by exists [], []. Qed.

Lemma bind_returns {A B} (m : Py A) (k : A -> Py B) w b w2 :
  (m ≫= k) w = (Return b, w2) ->
  exists a w1, m w = (Return a, w1) /\ k a w1 = (Return b, w2).
Proof.
  unfold mbind, Py_bind. destruct (m w) as [[a|e] w1]; [|done].
  intros H. by exists a, w1.
Qed.

Create HintDb td_methods.

#[global] Hint Unfold logger.info logger.debug logger.warning invoke_ setattr
  getattr deref : td_methods.

#[global] Hint Unfold
  delete_health_check delete_backend_service
  delete_alternative_backend_service delete_affinity_backend_service
  delete_url_map delete_alternative_url_map delete_target_grpc_proxy
  delete_target_http_proxy delete_target_proxy_ipv6
  delete_alternative_target_grpc_proxy delete_forwarding_rule
  delete_forwarding_rule_ipv6 delete_alternative_forwarding_rule
  _delete_firewall_rule delete_firewall_rule delete_firewall_rule_ipv6
  delete_firewall_rules cleanup
  TrafficDirectorAppNetManager.delete_mesh
  TrafficDirectorAppNetManager.delete_grpc_route
  TrafficDirectorAppNetManager.delete_http_route
  TrafficDirectorSecureManager.delete_server_tls_policy
  TrafficDirectorSecureManager.delete_client_tls_policy
  TrafficDirectorSecureManager.delete_authz_policy
  TrafficDirectorSecureManager.delete_endpoint_policy : td_methods.

Ltac frame :=
  unfold same, anything, firewall_state, firewall_state_ipv6; cbn;
  rewrite ?lookup_delete_ne, ?lookup_insert_ne by done; done.

Ltac steps_step :=
  lazymatch goal with
  | |- PreOrder _ => apply _
  | |- forall _, _ => intros
  | |- steps _ (mbind _ _) => apply steps_bind
  | |- steps _ (mret _) => apply steps_ret
  | |- steps _ (raise _) => apply steps_raise
  | |- steps _ self => apply steps_self
  | |- steps _ collaborators => apply steps_collaborators
  | |- steps _ (emit _) => apply steps_emit
  | |- steps _ (randint _ _) => apply steps_randint
  | |- steps _ (invoke _ _) =>
      apply steps_invoke;
      lazymatch goal with |- PreOrder _ => apply _ | |- _ => done end
  | |- steps _ (modify _) =>
      apply steps_modify;
      lazymatch goal with |- PreOrder _ => apply _ | |- _ => intros; frame end
  | |- steps _ (try_except_google _ _) => apply steps_try
  | |- steps _ (match ?x with _ => _ end) => destruct x
  | |- steps _ _ => progress (autounfold with td_methods; cbv beta zeta)
  end.

Ltac steps := repeat steps_step.

Ltac steps_of_tail :=
  match goal with
  | |- evolves ?P ?R ?w (after ?m ?w) =>
      let H := fresh in
      assert (steps (evolves P R) m) as H by steps; apply H
  end.

Lemma Forall_bool_impl (P Q : Call -> bool) t :
  (forall c, P c -> Q c) -> all P t -> all Q t.
Proof. intros H Ht. eapply Forall_impl; [exact Ht | exact H]. Qed.

Lemma precedes_app P Q t1 t2 :
  all (fun c => negb (Q c)) t1 -> all (fun c => negb (P c)) t2 ->
  precedes P Q (t1 ++ t2).
Proof.
  intros H1 H2 i j c d Hi Hj Hc Hd.
  destruct (decide (i < length t1)%nat) as [Hlt|Hge].
  - destruct (decide (j < length t1)%nat) as [Hj1|Hj1]; [|lia].
    rewrite lookup_app_l in Hj by done.
    unfold all in H1. rewrite Forall_lookup in H1.
    specialize (H1 _ _ Hj). by destruct (Q d).
  - rewrite lookup_app_r in Hi by lia.
    unfold all in H2. rewrite Forall_lookup in H2.
    specialize (H2 _ _ Hi). by destruct (P c).
Qed.

(** ** C1: order of teardown *)

(** C1 (as stated) fails for the security extension: its cleanup runs the
    base cleanup first, so base deletions come before the policy
    deletions. *)
Lemma secure_cleanup_base_first :
  ~ precedes is_extension_call is_base_call
      (emitted (TrafficDirectorSecureManager.cleanup true)
         (world_of fresh accepting)).
Proof.
  intros H.
  assert (emitted (TrafficDirectorSecureManager.cleanup true)
            (world_of fresh accepting) !! 11%nat
          = Some (NetSvc (netsvc.delete_endpoint_policy
                            "psm-interop-endpoint-policy-t1"))) as H11
    by (by vm_compute).
  assert (emitted (TrafficDirectorSecureManager.cleanup true)
            (world_of fresh accepting) !! 0%nat
          = Some (Compute (compute.delete_forwarding_rule
                             "psm-interop-forwarding-rule-t1"))) as H0
    by (by vm_compute).
  specialize (H _ _ _ _ H11 H0 I I). lia.
Qed.

Lemma base_cleanup_steps force :
  steps (evolves is_base_call anything) (cleanup force).
Proof. steps. Qed.

(** Whatever the control plane answers, and so also when a deletion fails
    and the cleanup stops there, the calls of the mesh extension's cleanup
    are route deletions, then mesh deletions, then base calls, and those of
    the security extension's cleanup are base calls, then the deletions of
    the endpoint policy, the server TLS policy, the client TLS policy and
    the authorization policy. *)
Lemma cleanup_class_blocks (force : bool) (w : World) :
  (exists routes meshes base,
     emitted (TrafficDirectorAppNetManager.cleanup force) w
       = routes ++ meshes ++ base
     /\ all is_route_deletion routes /\ all is_mesh_deletion meshes
     /\ all is_base_call base)
  /\ precedes is_extension_call is_base_call
       (emitted (TrafficDirectorAppNetManager.cleanup force) w)
  /\ (exists base endpoint server client authz,
        emitted (TrafficDirectorSecureManager.cleanup force) w
          = base ++ endpoint ++ server ++ client ++ authz
        /\ all is_base_call base
        /\ all is_endpoint_policy_deletion endpoint
        /\ all is_server_tls_policy_deletion server
        /\ all is_client_tls_policy_deletion client
        /\ all is_authz_policy_deletion authz)
  /\ precedes is_base_call is_extension_call
       (emitted (TrafficDirectorSecureManager.cleanup force) w).
Proof.
  assert (emits
            (then_ (all is_route_deletion)
               (then_ (all is_route_deletion)
                  (then_ (all is_mesh_deletion) (all is_base_call))))
            (TrafficDirectorAppNetManager.cleanup force)) as Happ.
  { unfold TrafficDirectorAppNetManager.cleanup.
    apply emits_bind; [| intros _ |].
    - apply (steps_emits _ anything). steps.
    - apply emits_bind; [| intros _ |].
      + apply (steps_emits _ anything). steps.
      + apply emits_bind; [| intros _ |].
        * apply (steps_emits _ anything). steps.
        * apply (steps_emits _ anything), base_cleanup_steps.
        * apply all_nil.
      + apply then_nil; apply all_nil.
    - repeat apply then_nil; apply all_nil. }
  assert (emits
            (then_ (all is_base_call)
               (then_ (all is_endpoint_policy_deletion)
                  (then_ (all is_server_tls_policy_deletion)
                     (then_ (all is_client_tls_policy_deletion)
                        (all is_authz_policy_deletion)))))
            (TrafficDirectorSecureManager.cleanup force)) as Hsec.
  { unfold TrafficDirectorSecureManager.cleanup.
    apply emits_bind; [| intros _ |].
    - apply (steps_emits _ anything), base_cleanup_steps.
    - apply emits_bind; [| intros _ |].
      + apply (steps_emits _ anything). steps.
      + apply emits_bind; [| intros _ |].
        * apply (steps_emits _ anything). steps.
        * apply emits_bind; [| intros _ |].
          -- apply (steps_emits _ anything). steps.
          -- apply (steps_emits _ anything). steps.
          -- apply all_nil.
        * apply then_nil; apply all_nil.
      + repeat apply then_nil; apply all_nil.
    - repeat apply then_nil; apply all_nil. }
  destruct (Happ w)
    as (t & Ht & th & t' & -> & Hh & tg & t'' & -> & Hg & tm & tb & -> & Hm & Hb).
  destruct (Hsec w)
    as (u & Hu & ub & u1 & -> & Hub & ue & u2 & -> & Hue & us & u3 & -> & Hus
          & uc & ua & -> & Huc & Hua).
  apply emitted_app in Ht. apply emitted_app in Hu. rewrite Ht, Hu.
  split; [|split; [|split]].
  - exists (th ++ tg), tm, tb. rewrite <- !app_assoc.
    split; [done|]. split; [by apply Forall_app|]. done.
  - rewrite !app_assoc. apply precedes_app.
    + repeat apply Forall_app_2.
      all: eapply Forall_bool_impl; [|eassumption]; by intros [[]|[]|[]].
    + eapply Forall_bool_impl; [|exact Hb]. by intros [[]|[]|[]].
  - by exists ub, ue, us, uc, ua.
  - apply precedes_app.
    + eapply Forall_bool_impl; [|exact Hub]. by intros [[]|[]|[]].
    + repeat apply Forall_app_2.
      all: eapply Forall_bool_impl; [|eassumption]; by intros [[]|[]|[]].
Qed.

(** ** C3: a refused firewall deletion *)

(** C3 (as stated) fails: after a cleanup whose firewall deletion was
    refused, the next cleanup issues no firewall deletion. *)
Lemma refused_firewall_deletion_not_retried :
  ~ retries_firewall_deletion w_firewall.
Proof.
  intros (r & Hr & Hin). vm_compute in Hin. by apply elem_of_nil in Hin.
Qed.

Lemma delete_firewall_rule_refused force w r d :
  resources (obj w) !! firewall_rule = Some r ->
  raises (remote w) (calls w)
    (Compute (compute.delete_firewall_rule (GcpResource.name r)))
    = Some (GoogleApiError d) ->
  delete_firewall_rule force w
  = (Return tt,
     {| obj := obj w; remote := remote w; entropy := entropy w;
        draws := draws w;
        calls := calls w ++
          [Compute (compute.delete_firewall_rule (GcpResource.name r))];
        logged := logged w ++
          [Log INFO "Deleting Firewall Rule '%s'" [AStr (GcpResource.name r)];
           Log WARNING "Failed deleting Firewall Rule '%s': %r"
             [AStr (GcpResource.name r); AExn (GoogleApiError d)]] |}).
Proof.
  destruct w as [s g e n cs lg]. cbn. intros Hr Hfail.
  unfold delete_firewall_rule, _delete_firewall_rule. py_unfold. cbn.
  rewrite Hr. cbn. rewrite Hfail. cbn. by rewrite <- app_assoc.
Qed.

Lemma delete_firewall_rules_idle force w :
  _ensure_firewall (obj w) = false ->
  delete_firewall_rules force w = (Return tt, w).
Proof.
  intros H. unfold delete_firewall_rules. py_unfold. by rewrite H.
Qed.

Lemma cleanup_without_firewall force w :
  _ensure_firewall (obj w) = false ->
  evolves not_firewall_deletion (same firewall_state) w
    (after (cleanup force) w).
Proof.
  intros H. unfold cleanup, after.
  rewrite (bind_return _ _ _ _ _ (delete_firewall_rules_idle force w H)).
  change (?m w).2 with (after m w). steps_of_tail.
Qed.

(** The IPv4 rule: its deletion is the first call of cleanup. *)
Lemma firewall_rule_deletion_refused (w : World) (r : GcpResource.t)
    (d : string) (force : bool) :
  resources (obj w) !! firewall_rule = Some r ->
  _ensure_firewall (obj w) = true ->
  raises (remote w) (calls w)
    (Compute (compute.delete_firewall_rule (GcpResource.name r)))
    = Some (GoogleApiError d) ->
  outcome (cleanup force) w = Return tt ->
  let c := Compute (compute.delete_firewall_rule (GcpResource.name r)) in
  let w1 := after (cleanup force) w in
  (exists t, emitted (cleanup force) w = c :: t)
  /\ Log WARNING "Failed deleting Firewall Rule '%s': %r"
       [AStr (GcpResource.name r); AExn (GoogleApiError d)] ∈ logged w1
  /\ resources (obj w1) !! firewall_rule = Some r
  /\ _ensure_firewall (obj w1) = false
  /\ (forall force',
        all not_firewall_deletion (emitted (cleanup force') w1))
  /\ (forall force', emitted (delete_firewall_rule force') w1 = [c]).
Proof.
  intros Hr Hflag Hfail Hret c w1. subst w1. unfold outcome, after in *.
  destruct (cleanup force w) as [o w1] eqn:Hrun. cbn in Hret. subst o. cbn.
  pose proof Hrun as Hall.
  unfold cleanup in Hrun. apply bind_returns in Hrun as ([] & wa & Hfw & Hrest).
  (* the firewall step *)
  unfold delete_firewall_rules in Hfw.
  apply bind_returns in Hfw as (s & w0 & Hself & Hfw).
  unfold self in Hself. injection Hself as <- <-. rewrite Hflag in Hfw. cbn in Hfw.
  apply bind_returns in Hfw as ([] & wb & Hv4 & Hfw).
  rewrite (delete_firewall_rule_refused force w r d Hr Hfail) in Hv4.
  injection Hv4 as <-.
  apply bind_returns in Hfw as ([] & wc & Hv6 & Hmod).
  unfold modify in Hmod. injection Hmod as <-.
  assert (steps (evolves any_call (same firewall_state))
            (delete_firewall_rule_ipv6 force)) as Hs6 by steps.
  match type of Hv6 with
  | _ ?w0 = _ => specialize (Hs6 w0)
  end.
  unfold after in Hs6. rewrite Hv6 in Hs6.
  destruct Hs6 as (Hst6 & _ & (t6 & Ht6 & _) & (l6 & Hl6)). cbn in *.
  unfold same, firewall_state in Hst6. cbn in Hst6. rewrite Hr in Hst6.
  injection Hst6 as Hslot6 Hflag6.
  (* the steps after it *)
  match type of Hrest with
  | ?m ?w0 = _ =>
      assert (steps (evolves any_call (same firewall_state)) m) as Hsr
        by steps;
      specialize (Hsr w0)
  end.
  unfold after in Hsr. rewrite Hrest in Hsr.
  destruct Hsr as (Hstr & _ & (tr & Htr & _) & (lr & Hlr)). cbn in *.
  unfold same, firewall_state in Hstr. cbn in Hstr. rewrite Hslot6 in Hstr.
  injection Hstr as Hslot Hflag1.
  repeat split.
  - exists (t6 ++ tr). unfold emitted, after. rewrite Hall. cbn.
    rewrite Htr, Ht6, <- !app_assoc. apply drop_app_length.
  - rewrite Hlr, Hl6. set_solver.
  - done.
  - done.
  - intros force'.
    destruct (cleanup_without_firewall force' w1 Hflag1)
      as (_ & _ & (t & Ht & HP) & _).
    by rewrite (emitted_app _ _ _ Ht).
  - intros force'. apply emitted_app.
    unfold delete_firewall_rule, _delete_firewall_rule. py_unfold.
    rewrite Hslot. cbn.
    destruct (raises (remote w1) (calls w1) _) as [[]|]; by cbn.
Qed.

(** What a returning [delete_firewall_rule] has done: the one deletion its
    target asks for, if any, and nothing to the IPv6 slot or the flag. *)
Lemma delete_firewall_rule_returns force w w' :
  delete_firewall_rule force w = (Return tt, w') ->
  calls w'
  = calls w ++
    deletion (Compute ∘ compute.delete_firewall_rule)
      (firewall_target force firewall_rule FIREWALL_RULE_NAME (obj w))
  /\ remote w' = remote w
  /\ firewall_state_ipv6 (obj w') = firewall_state_ipv6 (obj w)
  /\ exists l, logged w' = logged w ++ l.
Proof.
  destruct w as [s g e n cs lg].
  unfold delete_firewall_rule, _delete_firewall_rule, firewall_target,
    firewall_state_ipv6.
  py_unfold. cbn.
  destruct (resources s !! firewall_rule) eqn:E4, force; cbn;
    try destruct (raises g cs _) as [[]|]; cbn;
    intros H; try discriminate H; injection H as <-; cbn;
    rewrite ?lookup_delete_ne, ?app_nil_r by done;
    repeat split; try done; rewrite <- ?app_assoc;
    first [by eexists | by (exists []; rewrite app_nil_r)].
Qed.

Lemma delete_firewall_rule_ipv6_refused force w r d :
  resources (obj w) !! firewall_rule_ipv6 = Some r ->
  raises (remote w) (calls w) (firewall_deletion r)
    = Some (GoogleApiError d) ->
  delete_firewall_rule_ipv6 force w
  = (Return tt,
     {| obj := obj w; remote := remote w; entropy := entropy w;
        draws := draws w;
        calls := calls w ++ [firewall_deletion r];
        logged := logged w ++
          [Log INFO "Deleting Firewall Rule '%s'" [AStr (GcpResource.name r)];
           firewall_warning r d] |}).
Proof.
  destruct w as [s g e n cs lg]. cbn. intros Hr Hfail.
  unfold delete_firewall_rule_ipv6, _delete_firewall_rule, firewall_deletion,
    firewall_warning in *.
  py_unfold. cbn. rewrite Hr. cbn. rewrite Hfail. cbn.
  by rewrite <- app_assoc.
Qed.

(** The IPv6 rule: its deletion comes after the IPv4 rule's, if there is
    one. *)
Lemma firewall_rule_ipv6_deletion_refused (w : World) (r : GcpResource.t)
    (d : string) (force : bool) :
  resources (obj w) !! firewall_rule_ipv6 = Some r ->
  _ensure_firewall (obj w) = true ->
  let before :=
    deletion (Compute ∘ compute.delete_firewall_rule)
      (firewall_target force firewall_rule FIREWALL_RULE_NAME (obj w)) in
  raises (remote w) (calls w ++ before) (firewall_deletion r)
    = Some (GoogleApiError d) ->
  outcome (cleanup force) w = Return tt ->
  let w1 := after (cleanup force) w in
  (exists t, emitted (cleanup force) w = before ++ firewall_deletion r :: t)
  /\ firewall_warning r d ∈ logged w1
  /\ resources (obj w1) !! firewall_rule_ipv6 = Some r
  /\ _ensure_firewall (obj w1) = false
  /\ (forall force',
        all not_firewall_deletion (emitted (cleanup force') w1))
  /\ (forall force',
        emitted (delete_firewall_rule_ipv6 force') w1
        = [firewall_deletion r]).
Proof.
  intros Hr Hflag before Hfail Hret w1. subst w1.
  unfold outcome, after in *.
  destruct (cleanup force w) as [o w1] eqn:Hrun. cbn in Hret. subst o. cbn.
  pose proof Hrun as Hall.
  unfold cleanup in Hrun. apply bind_returns in Hrun as ([] & wa & Hfw & Hrest).
  unfold delete_firewall_rules in Hfw.
  apply bind_returns in Hfw as (s & w0 & Hself & Hfw).
  unfold self in Hself. injection Hself as <- <-. rewrite Hflag in Hfw.
  cbn in Hfw.
  apply bind_returns in Hfw as ([] & wb & Hv4 & Hfw).
  destruct (delete_firewall_rule_returns _ _ _ Hv4)
    as (Hc4 & Hg4 & Hst4 & (l4 & Hl4)).
  unfold firewall_state_ipv6 in Hst4. rewrite Hr in Hst4.
  injection Hst4 as Hslot4 Hflag4. fold before in Hc4.
  apply bind_returns in Hfw as ([] & wc & Hv6 & Hmod).
  rewrite (delete_firewall_rule_ipv6_refused force wb r d Hslot4) in Hv6
    by (by rewrite Hg4, Hc4).
  injection Hv6 as <-.
  unfold modify in Hmod. injection Hmod as <-.
  match type of Hrest with
  | ?m ?w0 = _ =>
      assert (steps (evolves any_call (same firewall_state_ipv6)) m) as Hsr
        by steps;
      specialize (Hsr w0)
  end.
  unfold after in Hsr. rewrite Hrest in Hsr.
  destruct Hsr as (Hstr & _ & (tr & Htr & _) & (lr & Hlr)). cbn in *.
  unfold same, firewall_state_ipv6 in Hstr. cbn in Hstr.
  rewrite Hslot4 in Hstr. injection Hstr as Hslot Hflag1.
  repeat split.
  - exists tr. unfold emitted, after. rewrite Hall. cbn.
    rewrite Htr, Hc4, <- !app_assoc. apply drop_app_length.
  - rewrite Hlr. set_solver.
  - done.
  - done.
  - intros force'.
    destruct (cleanup_without_firewall force' w1 Hflag1)
      as (_ & _ & (t & Ht & HP) & _).
    by rewrite (emitted_app _ _ _ Ht).
  - intros force'. apply emitted_app.
    unfold delete_firewall_rule_ipv6, _delete_firewall_rule,
      firewall_deletion.
    py_unfold. rewrite Hslot. cbn.
    destruct (raises (remote w1) (calls w1) _) as [[]|]; by cbn.
Qed.

(** C3 (amended). When the remote API refuses the deletion of a firewall
    rule, the IPv4 one or the IPv6 one, during a cleanup that runs to its
    end, the refusal is logged as a warning and not raised, and the slot of
    that rule keeps its handle; but the firewall flag is reset all the
    same, so a later [cleanup], forced or not, issues no firewall deletion.
    Only a direct call of the rule's own delete method issues that
    deletion again.  The IPv4 deletion is the first call of the cleanup;
    the IPv6 deletion follows it. *)
Theorem firewall_deletion_refused (w : World) (d : string) (force : bool) :
  _ensure_firewall (obj w) = true ->
  outcome (cleanup force) w = Return tt ->
  let w1 := after (cleanup force) w in
  let before :=
    deletion (Compute ∘ compute.delete_firewall_rule)
      (firewall_target force firewall_rule FIREWALL_RULE_NAME (obj w)) in
  (forall r,
     resources (obj w) !! firewall_rule = Some r ->
     raises (remote w) (calls w) (firewall_deletion r)
       = Some (GoogleApiError d) ->
     (exists t, emitted (cleanup force) w = firewall_deletion r :: t)
     /\ firewall_warning r d ∈ logged w1
     /\ resources (obj w1) !! firewall_rule = Some r
     /\ _ensure_firewall (obj w1) = false
     /\ (forall force',
           all not_firewall_deletion (emitted (cleanup force') w1))
     /\ (forall force',
           emitted (delete_firewall_rule force') w1 = [firewall_deletion r]))
  /\ (forall r,
        resources (obj w) !! firewall_rule_ipv6 = Some r ->
        raises (remote w) (calls w ++ before) (firewall_deletion r)
          = Some (GoogleApiError d) ->
        (exists t,
           emitted (cleanup force) w = before ++ firewall_deletion r :: t)
        /\ firewall_warning r d ∈ logged w1
        /\ resources (obj w1) !! firewall_rule_ipv6 = Some r
        /\ _ensure_firewall (obj w1) = false
        /\ (forall force',
              all not_firewall_deletion (emitted (cleanup force') w1))
        /\ (forall force',
              emitted (delete_firewall_rule_ipv6 force') w1
              = [firewall_deletion r])).
Proof.
  intros Hflag Hret w1 before. split.
  - intros r Hr Hfail.
    exact (firewall_rule_deletion_refused w r d force Hr Hflag Hfail Hret).
  - intros r Hr Hfail.
    exact (firewall_rule_ipv6_deletion_refused w r d force Hr Hflag Hfail
             Hret).
Qed.

Lemma firewall_deletion_refused_witness :
  (resources (obj (after (cleanup false) w_firewall)) !! firewall_rule
     = Some (GcpResource.Build "psm-interop-allow-health-checks-t1"
               "global/psm-interop-allow-health-checks-t1")
   /\ _ensure_firewall (obj (after (cleanup false) w_firewall)) = false)
  /\ (resources (obj (after (cleanup true) w_firewall_ipv6))
        !! firewall_rule_ipv6
      = Some (GcpResource.Build "psm-interop-allow-health-checks-ipv6-t1"
                "global/psm-interop-allow-health-checks-ipv6-t1")
      /\ forall force',
           emitted (delete_firewall_rule_ipv6 force')
             (after (cleanup true) w_firewall_ipv6)
           = [Compute (compute.delete_firewall_rule
                         "psm-interop-allow-health-checks-ipv6-t1")]).
Proof.
  split.
  - destruct (firewall_deletion_refused w_firewall "HttpError 403" false)
      as [H4 _]; [by vm_compute | by vm_compute |].
    destruct (H4 (GcpResource.Build "psm-interop-allow-health-checks-t1"
                    "global/psm-interop-allow-health-checks-t1"))
      as (_ & _ & Hslot & Hflag & _ & _); [by vm_compute | by vm_compute |].
    by split.
  - destruct (firewall_deletion_refused w_firewall_ipv6 "HttpError 403" true)
      as [_ H6]; [by vm_compute | by vm_compute |].
    destruct (H6 (GcpResource.Build "psm-interop-allow-health-checks-ipv6-t1"
                    "global/psm-interop-allow-health-checks-ipv6-t1"))
      as (_ & _ & Hslot & _ & _ & Hagain); [by vm_compute | by vm_compute |].
    by split.
Defined.

(** ** C2: create, delete, delete again *)

(** C2 at the alternative URL map: [delete_alternative_url_map] clears
    [url_map] instead of [alternative_url_map], so after create and delete
    the slot still holds its handle and a second delete issues the remote
    deletion again. *)
Theorem delete_alternative_url_map_keeps_slot :
  let create := create_alternative_url_map "svc.example" 8080 None in
  let w1 := after (create;; delete_alternative_url_map false) w_alt in
  outcome (create;; delete_alternative_url_map false) w_alt = Return tt
  /\ resources (obj w1) !! alternative_url_map
     = Some (GcpResource.Build "psm-interop-url-map-alt-t1"
               "global/psm-interop-url-map-alt-t1")
  /\ emitted (delete_alternative_url_map false) w1
     = [Compute (compute.delete_url_map "psm-interop-url-map-alt-t1")]
  /\ ~ roundtrip alternative_url_map create delete_alternative_url_map w_alt.
Proof.
  cbv zeta. split; [by vm_compute|]. split; [by vm_compute|].
  split; [by vm_compute|].
  intros [H _]. vm_compute in H. discriminate.
Qed.

(** The sibling [delete_url_map] does what the claim says: the slot it
    clears is the one it read. *)
Lemma delete_url_map_roundtrip (w : World) (src_host : string) (src_port : Z) :
  reliable (remote w) ->
  is_Some (resources (obj w) !! backend_service) ->
  roundtrip url_map (create_url_map src_host src_port) delete_url_map w.
Proof.
  destruct w as [s g e d cs lg]. cbn. intros Hg [bs Hbs].
  unfold roundtrip, create_url_map, delete_url_map. py_unfold. cbn.
  rewrite Hbs. cbn. rewrite Hg. cbn. rewrite lookup_insert_eq. cbn.
  rewrite Hg. cbn. rewrite lookup_delete_eq. split; [done|].
  by rewrite drop_all.
Qed.

(** So does [delete_health_check]. *)
Lemma delete_health_check_roundtrip (w : World) protocol port :
  reliable (remote w) ->
  resources (obj w) !! health_check = None ->
  roundtrip health_check (create_health_check protocol port)
    delete_health_check w.
Proof.
  destruct w as [s g e d cs lg]. cbn. intros Hg Hhc.
  unfold roundtrip, create_health_check, delete_health_check. py_unfold. cbn.
  rewrite Hhc. cbn. rewrite Hg. cbn. rewrite lookup_insert_eq. cbn.
  rewrite Hg. cbn. rewrite lookup_delete_eq. split; [done|].
  by rewrite drop_all.
Qed.

(** What [delete_alternative_url_map] does on any object whose alternative
    URL map is there: it deletes the right remote resource and clears the
    wrong slot. *)
Lemma delete_alternative_url_map_clears_url_map (w : World) (r : GcpResource.t) :
  reliable (remote w) ->
  resources (obj w) !! alternative_url_map = Some r ->
  let w' := after (delete_alternative_url_map false) w in
  calls w' = calls w ++ [Compute (compute.delete_url_map (GcpResource.name r))]
  /\ resources (obj w') = delete url_map (resources (obj w)).
Proof.
  destruct w as [s g e d cs lg]. cbn. intros Hg Hr.
  unfold delete_alternative_url_map. py_unfold. cbn.
  rewrite Hr. cbn. by rewrite Hg.
Qed.

(** ** C8: the bounded port search *)

Lemma sampled_bounds lo hi w i : lo <= hi -> lo <= sampled lo hi w i <= hi.
Proof.
  intros H. unfold sampled.
  pose proof (Z.mod_pos_bound (entropy w (draws w + i)%nat) (hi - lo + 1)).
  lia.
Qed.

Lemma probed_0 lo hi w : probed lo hi w 0 = w.
Proof.
  destruct w. unfold probed, probes. cbn.
  by rewrite Nat.add_0_r, app_nil_r.
Qed.

Lemma probed_S lo hi w n :
  probed lo hi (probed lo hi w 1) n = probed lo hi w (S n).
Proof.
  unfold probed, probes, sampled. cbn. f_equal; [lia|].
  rewrite <- app_assoc. cbn. rewrite Nat.add_0_r. do 2 f_equal.
  rewrite <- fmap_S_seq, <- list_fmap_compose. apply list_fmap_ext.
  intros _ i _. cbn.
  by replace (draws w + 1 + i)%nat with (draws w + S i)%nat by lia.
Qed.

Lemma sampled_S lo hi w i :
  sampled lo hi (probed lo hi w 1) i = sampled lo hi w (S i).
Proof.
  unfold sampled. cbn.
  by replace (draws w + 1 + i)%nat with (draws w + S i)%nat by lia.
Qed.

Lemma reported_in_use_S lo hi w i :
  reported_in_use lo hi (probed lo hi w 1) i = reported_in_use lo hi w (S i).
Proof.
  unfold reported_in_use.
  change (calls (probed lo hi w 1) ++ probes lo hi (probed lo hi w 1) i)
    with (calls (probed lo hi (probed lo hi w 1) i)).
  by rewrite probed_S, sampled_S.
Qed.

Lemma answers_probes_S lo hi w n :
  answers_probes lo hi w (S n) -> answers_probes lo hi (probed lo hi w 1) n.
Proof.
  intros H i Hi. specialize (H (S i) ltac:(lia)).
  change (calls (probed lo hi w 1) ++ probes lo hi (probed lo hi w 1) i)
    with (calls (probed lo hi (probed lo hi w 1) i)).
  by rewrite probed_S, sampled_S.
Qed.

(** One turn of the loop, when the range is not empty and the probe is
    answered. *)
Lemma find_unused_loop_step lo hi n w :
  lo <= hi -> answers_probes lo hi w 1 ->
  find_unused_forwarding_rule_port_loop lo hi (S n) w
  = if reported_in_use lo hi w 0
    then find_unused_forwarding_rule_port_loop lo hi n (probed lo hi w 1)
    else (Return (sampled lo hi w 0), probed lo hi w 1).
Proof.
  intros Hlo Hans. specialize (Hans 0%nat ltac:(lia)).
  unfold reported_in_use, probed, probes, sampled, probe in *. cbn in *.
  rewrite app_nil_r, Nat.add_0_r in *.
  py_unfold. destruct (hi <? lo) eqn:E; [lia|]. cbn. rewrite Hans. cbn.
  replace (draws w + 1)%nat with (S (draws w)) by lia.
  by destruct (flag _ _ _).
Qed.

Lemma find_unused_loop_exhausted lo hi n : forall w,
  lo <= hi -> answers_probes lo hi w n ->
  (forall i, (i < n)%nat -> reported_in_use lo hi w i = true) ->
  find_unused_forwarding_rule_port_loop lo hi n w
  = (Raise (RuntimeError "Couldn't find unused forwarding rule port"),
     probed lo hi w n).
Proof.
  induction n as [|n IH]; intros w Hlo Hans Hbusy.
  - by rewrite probed_0.
  - rewrite find_unused_loop_step; [|done|intros i Hi; apply Hans; lia].
    rewrite (Hbusy 0%nat) by lia.
    rewrite IH; [by rewrite probed_S | done | by apply answers_probes_S |].
    intros i Hi. rewrite reported_in_use_S. apply Hbusy. lia.
Qed.

Lemma find_unused_loop_found lo hi k : forall n w,
  lo <= hi -> (k < n)%nat -> answers_probes lo hi w (S k) ->
  (forall i, (i < k)%nat -> reported_in_use lo hi w i = true) ->
  reported_in_use lo hi w k = false ->
  find_unused_forwarding_rule_port_loop lo hi n w
  = (Return (sampled lo hi w k), probed lo hi w (S k)).
Proof.
  induction k as [|k IH]; intros n w Hlo Hk Hans Hbusy Hfree.
  - destruct n; [lia|]. rewrite find_unused_loop_step; [|done|done].
    by rewrite Hfree.
  - destruct n; [lia|].
    rewrite find_unused_loop_step; [|done|intros i Hi; apply Hans; lia].
    rewrite (Hbusy 0%nat) by lia.
    rewrite (IH n (probed lo hi w 1));
      [| done | lia | by apply answers_probes_S | |].
    + by rewrite probed_S, sampled_S.
    + intros i Hi. rewrite reported_in_use_S. apply Hbusy. lia.
    + by rewrite reported_in_use_S.
Qed.

Lemma length_probes lo hi w n : length (probes lo hi w n) = n.
Proof. unfold probes. by rewrite length_fmap, length_seq. Qed.

(** C8. With the default bounds and budget, and a collaborator that answers
    the probes: if every sampled port is reported in use, the search raises
    the exhaustion error after exactly 25 samples and 25 probes; otherwise
    it returns the first sampled port reported unused, which lies in
    [1024, 65535], and stops probing there. *)
Theorem find_unused_forwarding_rule_port_default (w : World) :
  let search := find_unused_forwarding_rule_port 1024 65535 25 in
  answers_probes 1024 65535 w 25 ->
  ((forall i, (i < 25)%nat -> reported_in_use 1024 65535 w i = true) ->
     outcome search w
       = Raise (RuntimeError "Couldn't find unused forwarding rule port")
     /\ emitted search w = probes 1024 65535 w 25
     /\ length (emitted search w) = 25%nat
     /\ draws (after search w) = (draws w + 25)%nat)
  /\ (forall k, (k < 25)%nat ->
        (forall i, (i < k)%nat -> reported_in_use 1024 65535 w i = true) ->
        reported_in_use 1024 65535 w k = false ->
        outcome search w = Return (sampled 1024 65535 w k)
        /\ 1024 <= sampled 1024 65535 w k <= 65535
        /\ emitted search w = probes 1024 65535 w (S k)
        /\ draws (after search w) = (draws w + S k)%nat).
Proof.
  intros search Hans. subst search.
  unfold find_unused_forwarding_rule_port, emitted, outcome, after.
  change (Z.to_nat 25) with 25%nat. split.
  - intros Hbusy.
    rewrite find_unused_loop_exhausted by (done || lia).
    cbn -[probes sampled]. rewrite drop_app_length.
    by rewrite length_probes.
  - intros k Hk Hbusy Hfree.
    rewrite (find_unused_loop_found 1024 65535 k);
      [| lia | done | intros i Hi; apply Hans; lia | done | done ].
    cbn -[probes sampled]. rewrite drop_app_length.
    split; [done|]. split; [apply sampled_bounds; lia | done].
Qed.

Lemma find_unused_forwarding_rule_port_default_witness :
  outcome (find_unused_forwarding_rule_port 1024 65535 25)
    (world_of fresh congested)
  = Raise (RuntimeError "Couldn't find unused forwarding rule port")
  /\ length (emitted (find_unused_forwarding_rule_port 1024 65535 25)
               (world_of fresh congested)) = 25%nat
  /\ outcome (find_unused_forwarding_rule_port 1024 65535 25)
       (world_of fresh accepting)
     = Return (sampled 1024 65535 (world_of fresh accepting) 0).
Proof.
  destruct (find_unused_forwarding_rule_port_default
              (world_of fresh congested)) as [Hbusy _];
    [by intros i Hi|].
  destruct Hbusy as (Hout & _ & Hlen & _); [by intros i Hi|].
  destruct (find_unused_forwarding_rule_port_default
              (world_of fresh accepting)) as [_ Hfree];
    [by intros i Hi|].
  destruct (Hfree 0%nat) as (Hret & _); [lia | intros i Hi; lia | done |].
  by repeat split.
Defined.

(** ** Exact teardown under a reliable control plane *)

Lemma frame_refl L s : frame L s s.
Proof. by repeat split. Qed.

Lemma frame_trans L1 L2 s1 s2 s3 :
  frame L1 s1 s2 -> frame L2 s2 s3 -> frame (L1 ++ L2) s1 s3.
Proof.
  intros (Hr1 & Hp1 & Hs1 & Hd1 & Hh1 & He1)
         (Hr2 & Hp2 & Hs2 & Hd2 & Hh2 & He2).
  split; [|split; [|split; [|split; [|split]]]]; try congruence.
  - intros a Ha. rewrite not_elem_of_app in Ha. destruct Ha as [Ha1 Ha2].
    by rewrite Hr2, Hr1.
  - intros Ha. rewrite not_elem_of_app in Ha. destruct Ha as [Ha1 Ha2].
    by rewrite Hh2, Hh1.
  - intros Ha. rewrite not_elem_of_app in Ha. destruct Ha as [Ha1 Ha2].
    by rewrite He2, He1.
Qed.

Lemma make_resource_name_frame L s s' name :
  frame L s s' -> make_resource_name s' name = make_resource_name s name.
Proof.
  intros (_ & Hp & Hs & _). unfold make_resource_name. by rewrite Hp, Hs.
Qed.

Lemma bind_assoc {A B C} (m : Py A) (f : A -> Py B) (g : B -> Py C) w :
  (m ≫= fun x => f x ≫= g) w = ((m ≫= f) ≫= g) w.
Proof.
  unfold mbind, Py_bind. by destruct (m w) as [[a|e] w'].
Qed.

Lemma deletes_ext {A} (m m' : Py A) a L T :
  (forall w, m' w = m w) -> deletes m a L T -> deletes m' a L T.
Proof.
  intros Hext H w Hw. destruct (H w Hw) as (w' & Hrun & Hrest).
  exists w'. by rewrite Hext.
Qed.

Lemma deletes_bind {A B} (m : Py A) (k : A -> Py B) a b L L' T T' :
  deletes m a L T -> deletes (k a) b L' T' -> stable L T' ->
  deletes (m ≫= k) b (L ++ L') (fun s => T s ++ T' s).
Proof.
  intros Hm Hk Hst w Hw.
  destruct (Hm w Hw) as (w1 & Hrun1 & Hc1 & Hg1 & Hf1).
  destruct (Hk w1) as (w2 & Hrun2 & Hc2 & Hg2 & Hf2); [by rewrite Hg1|].
  exists w2. rewrite (bind_return _ _ _ _ _ Hrun1).
  split; [done|]. split.
  - by rewrite Hc2, Hc1, (Hst _ _ Hf1), app_assoc.
  - split; [congruence|]. by eapply frame_trans.
Qed.

Lemma stable_app L T1 T2 :
  stable L T1 -> stable L T2 -> stable L (fun s => T1 s ++ T2 s).
Proof. intros H1 H2 s s' Hf. by rewrite (H1 _ _ Hf), (H2 _ _ Hf). Qed.

Lemma stable_nil L : stable L (fun _ => []).
Proof. done. Qed.

Lemma stable_deletion L mk force a base :
  a ∉ L -> stable L (fun s => deletion mk (target force a base s)).
Proof.
  intros Ha s s' Hf. unfold target.
  rewrite (make_resource_name_frame _ _ _ _ Hf).
  destruct Hf as (Hr & _). by rewrite (Hr a Ha).
Qed.

Lemma stable_target_proxy_deletions L force :
  target_proxy ∉ L -> stable L (target_proxy_deletions force).
Proof.
  intros Ha s s' Hf. unfold target_proxy_deletions.
  rewrite (make_resource_name_frame _ _ _ _ Hf).
  destruct Hf as (Hr & _ & _ & _ & Hh & _). by rewrite (Hr _ Ha), (Hh Ha).
Qed.

Lemma stable_cleanup_dualstack L force :
  forwarding_rule_ipv6 ∉ L -> target_proxy_ipv6 ∉ L ->
  stable L (cleanup_dualstack force).
Proof.
  intros H1 H2 s s' Hf. unfold cleanup_dualstack.
  rewrite (stable_deletion L _ force _ _ H1 s s' Hf).
  rewrite (stable_deletion L _ force _ _ H2 s s' Hf).
  destruct Hf as (_ & _ & _ & -> & _). done.
Qed.

Lemma frame_clear a s :
  frame [a] s (set_resources (delete a (resources s)) s).
Proof.
  split; [|by repeat split].
  intros b Hb. cbn. apply lookup_delete_ne. set_solver.
Qed.

Ltac not_in :=
  let H := fresh in
  unfold base_slots; cbn; intros H;
  repeat (apply elem_of_cons in H as [H|H]; [discriminate H|]);
  by apply elem_of_nil in H.

(** A deletion of the common shape: name from [force] or the slot, one
    remote call, the same slot cleared. *)
Ltac deletes_slot :=
  let s := fresh "s" in
  let Hw := fresh "Hw" in
  let E := fresh "E" in
  intros force [s ? ? ? ? ?] Hw; cbn in Hw;
  unfold deletes_at, target; autounfold with td_methods; py_unfold; cbn;
  destruct force; [| match goal with |- context [resources s !! ?a] =>
                       destruct (resources s !! a) eqn:E end ];
  cbn; rewrite ?Hw; cbn;
  (eexists; split; [reflexivity|]; cbn;
   split; [by rewrite ?app_nil_r|]; split; [done|];
   first [ apply frame_clear | apply frame_refl ]).

Lemma delete_forwarding_rule_deletes force :
  deletes (delete_forwarding_rule force) tt [forwarding_rule]
    (fun s => deletion (Compute ∘ compute.delete_forwarding_rule)
                (target force forwarding_rule FORWARDING_RULE_NAME s)).
Proof. revert force. deletes_slot. Qed.

Lemma delete_alternative_forwarding_rule_deletes force :
  deletes (delete_alternative_forwarding_rule force) tt
    [alternative_forwarding_rule]
    (fun s => deletion (Compute ∘ compute.delete_forwarding_rule)
                (target force alternative_forwarding_rule
                   ALTERNATIVE_FORWARDING_RULE_NAME s)).
Proof. revert force. deletes_slot. Qed.

Lemma delete_forwarding_rule_ipv6_deletes force :
  deletes (delete_forwarding_rule_ipv6 force) tt [forwarding_rule_ipv6]
    (fun s => deletion (Compute ∘ compute.delete_forwarding_rule)
                (target force forwarding_rule_ipv6
                   FORWARDING_RULE_NAME_IPV6 s)).
Proof. revert force. deletes_slot. Qed.

Lemma delete_target_proxy_ipv6_deletes force :
  deletes (delete_target_proxy_ipv6 force) tt [target_proxy_ipv6]
    (fun s => deletion (Compute ∘ compute.delete_target_http_proxy)
                (target force target_proxy_ipv6 TARGET_PROXY_NAME_IPV6 s)).
Proof. revert force. deletes_slot. Qed.

Lemma delete_alternative_target_grpc_proxy_deletes force :
  deletes (delete_alternative_target_grpc_proxy force) tt
    [alternative_target_proxy]
    (fun s => deletion (Compute ∘ compute.delete_target_grpc_proxy)
                (target force alternative_target_proxy
                   ALTERNATIVE_TARGET_PROXY_NAME s)).
Proof. revert force. deletes_slot. Qed.

Lemma delete_url_map_deletes force :
  deletes (delete_url_map force) tt [url_map]
    (fun s => deletion (Compute ∘ compute.delete_url_map)
                (target force url_map URL_MAP_NAME s)).
Proof. revert force. deletes_slot. Qed.

(** The slot it touches is [url_map]. *)
Lemma delete_alternative_url_map_deletes force :
  deletes (delete_alternative_url_map force) tt [url_map]
    (fun s => deletion (Compute ∘ compute.delete_url_map)
                (target force alternative_url_map
                   ALTERNATIVE_URL_MAP_NAME s)).
Proof. revert force. deletes_slot. Qed.

Lemma delete_backend_service_deletes force :
  deletes (delete_backend_service force) tt [backend_service]
    (fun s => deletion (Compute ∘ compute.delete_backend_service)
                (target force backend_service BACKEND_SERVICE_NAME s)).
Proof. revert force. deletes_slot. Qed.

Lemma delete_alternative_backend_service_deletes force :
  deletes (delete_alternative_backend_service force) tt
    [alternative_backend_service]
    (fun s => deletion (Compute ∘ compute.delete_backend_service)
                (target force alternative_backend_service
                   ALTERNATIVE_BACKEND_SERVICE_NAME s)).
Proof. revert force. deletes_slot. Qed.

Lemma delete_affinity_backend_service_deletes force :
  deletes (delete_affinity_backend_service force) tt
    [affinity_backend_service]
    (fun s => deletion (Compute ∘ compute.delete_backend_service)
                (target force affinity_backend_service
                   AFFINITY_BACKEND_SERVICE_NAME s)).
Proof. revert force. deletes_slot. Qed.

Lemma delete_health_check_deletes force :
  deletes (delete_health_check force) tt [health_check]
    (fun s => deletion (Compute ∘ compute.delete_health_check)
                (target force health_check HEALTH_CHECK_NAME s)).
Proof. revert force. deletes_slot. Qed.

Ltac frame_solver :=
  split;
  [ let b := fresh "b" in
    let Hb := fresh "Hb" in
    intros b Hb; cbn; rewrite ?lookup_delete_ne by set_solver; done
  | cbn; repeat split; try done;
    let Hn := fresh "Hn" in intros Hn; exfalso; apply Hn; set_solver ].

Lemma delete_firewall_rules_deletes force :
  deletes (delete_firewall_rules force) tt [firewall_rule; firewall_rule_ipv6]
    (firewall_deletions force).
Proof.
  intros [s g e d cs lg] Hw. cbn in Hw.
  unfold deletes_at, firewall_deletions, firewall_target.
  autounfold with td_methods. py_unfold. cbn.
  destruct force, (_ensure_firewall s); cbn;
    destruct (resources s !! firewall_rule) eqn:E4; cbn;
    rewrite ?Hw; cbn; rewrite ?lookup_delete_ne by done;
    destruct (resources s !! firewall_rule_ipv6) eqn:E6; cbn;
    rewrite ?Hw; cbn;
    (eexists; split; [reflexivity|]; cbn;
     split; [by rewrite <- ?app_assoc, ?app_nil_r|]; split; [done|];
     first [apply frame_refl | frame_solver]).
Qed.

Lemma delete_target_proxies_deletes force :
  deletes (delete_target_http_proxy force ≫= fun _ =>
           delete_target_grpc_proxy force) tt [target_proxy]
    (target_proxy_deletions force).
Proof.
  intros [s g e d cs lg] Hw. cbn in Hw.
  unfold deletes_at, target_proxy_deletions.
  autounfold with td_methods. py_unfold. cbn.
  destruct force; cbn; rewrite ?Hw; cbn; rewrite ?Hw; cbn.
  - eexists. split; [reflexivity|]. cbn.
    split; [by rewrite <- ?app_assoc|]. split; [done|]. frame_solver.
  - destruct (resources s !! target_proxy) eqn:E; cbn;
      [destruct (target_proxy_is_http s); cbn|];
      rewrite ?Hw; cbn; rewrite ?lookup_delete_eq, ?E; cbn; rewrite ?Hw; cbn;
      (eexists; split; [reflexivity|]; cbn;
       split; [by rewrite <- ?app_assoc, ?app_nil_r|]; split; [done|];
       first [apply frame_refl | frame_solver]).
Qed.

Lemma frame_weaken L0 L s s' : frame L s s' -> frame (L0 ++ L) s s'.
Proof. intros H. eapply frame_trans; [apply frame_refl | exact H]. Qed.

Lemma deletes_dualstack {B} force (k : unit -> Py B) b L' T' :
  deletes (k tt) b L' T' ->
  stable [forwarding_rule_ipv6; target_proxy_ipv6] T' ->
  deletes
    (self ≫= fun s =>
       (if enable_dualstack s
        then delete_forwarding_rule_ipv6 force ≫= fun _ =>
             delete_target_proxy_ipv6 force
        else mret tt) ≫= k)
    b ([forwarding_rule_ipv6; target_proxy_ipv6] ++ L')
    (fun s => cleanup_dualstack force s ++ T' s).
Proof.
  intros Hk Hst w Hw. unfold cleanup_dualstack.
  destruct (enable_dualstack (obj w)) eqn:E.
  - assert (deletes
              (delete_forwarding_rule_ipv6 force ≫= fun _ =>
               delete_target_proxy_ipv6 force) tt
              ([forwarding_rule_ipv6] ++ [target_proxy_ipv6])
              (fun s =>
                 deletion (Compute ∘ compute.delete_forwarding_rule)
                   (target force forwarding_rule_ipv6
                      FORWARDING_RULE_NAME_IPV6 s) ++
                 deletion (Compute ∘ compute.delete_target_http_proxy)
                   (target force target_proxy_ipv6
                      TARGET_PROXY_NAME_IPV6 s))) as Hpair.
    { apply (deletes_bind _ _ tt);
        [ apply delete_forwarding_rule_ipv6_deletes
        | apply delete_target_proxy_ipv6_deletes
        | apply stable_deletion; not_in ]. }
    destruct (deletes_bind _ _ tt b _ _ _ _ Hpair Hk Hst w Hw)
      as (w' & Hrun & Hrest).
    exists w'. split; [|exact Hrest].
    unfold mbind, Py_bind, self in *. cbn. by rewrite E.
  - destruct (Hk w Hw) as (w' & Hrun & Hc & Hg & Hf).
    exists w'. split; [|split; [done|split; [done|by apply frame_weaken]]].
    unfold mbind, Py_bind, self, mret, Py_ret in *. cbn. by rewrite E.
Qed.

Lemma stable_firewall_deletions L force :
  firewall_rule ∉ L -> firewall_rule_ipv6 ∉ L ->
  stable L (firewall_deletions force).
Proof.
  intros H4 H6 s s' Hf. unfold firewall_deletions, firewall_target.
  rewrite !(make_resource_name_frame _ _ _ _ Hf).
  destruct Hf as (Hr & _ & _ & _ & _ & He).
  by rewrite (Hr _ H4), (Hr _ H6), (He H4).
Qed.

Ltac stable_solver :=
  unfold cleanup_before, cleanup_after;
  repeat apply stable_app;
  first [ apply stable_deletion; not_in
        | apply stable_target_proxy_deletions; not_in
        | apply stable_cleanup_dualstack; not_in
        | apply stable_firewall_deletions; not_in ].

(** The whole base cleanup, call by call. *)
Lemma cleanup_deletes_nested force :
    deletes (cleanup force) tt base_slots
      (fun s =>
         firewall_deletions force s ++
         deletion (Compute ∘ compute.delete_forwarding_rule)
           (target force forwarding_rule FORWARDING_RULE_NAME s) ++
         deletion (Compute ∘ compute.delete_forwarding_rule)
           (target force alternative_forwarding_rule
              ALTERNATIVE_FORWARDING_RULE_NAME s) ++
         target_proxy_deletions force s ++
         cleanup_dualstack force s ++
         deletion (Compute ∘ compute.delete_target_grpc_proxy)
           (target force alternative_target_proxy
              ALTERNATIVE_TARGET_PROXY_NAME s) ++
         deletion (Compute ∘ compute.delete_url_map)
           (target force url_map URL_MAP_NAME s) ++
         deletion (Compute ∘ compute.delete_url_map)
           (target force alternative_url_map ALTERNATIVE_URL_MAP_NAME s) ++
         deletion (Compute ∘ compute.delete_backend_service)
           (target force backend_service BACKEND_SERVICE_NAME s) ++
         deletion (Compute ∘ compute.delete_backend_service)
           (target force alternative_backend_service
              ALTERNATIVE_BACKEND_SERVICE_NAME s) ++
         deletion (Compute ∘ compute.delete_backend_service)
           (target force affinity_backend_service
              AFFINITY_BACKEND_SERVICE_NAME s) ++
         deletion (Compute ∘ compute.delete_health_check)
           (target force health_check HEALTH_CHECK_NAME s)).
Proof.
  unfold cleanup, base_slots.
  eapply (deletes_bind _ _ tt);
    [apply delete_firewall_rules_deletes | | stable_solver].
  eapply (deletes_bind _ _ tt);
    [apply delete_forwarding_rule_deletes | | stable_solver].
  eapply (deletes_bind _ _ tt);
    [apply delete_alternative_forwarding_rule_deletes | | stable_solver].
  eapply deletes_ext;
    [ intros w;
      apply (bind_assoc (delete_target_http_proxy force)
               (fun _ => delete_target_grpc_proxy force)) |].
  eapply (deletes_bind _ _ tt);
    [apply delete_target_proxies_deletes | | stable_solver].
  eapply deletes_dualstack; [| stable_solver].
  eapply (deletes_bind _ _ tt);
    [apply delete_alternative_target_grpc_proxy_deletes | | stable_solver].
  eapply (deletes_bind _ _ tt);
    [apply delete_url_map_deletes | | stable_solver].
  eapply (deletes_bind _ _ tt);
    [apply delete_alternative_url_map_deletes | | stable_solver].
  eapply (deletes_bind _ _ tt);
    [apply delete_backend_service_deletes | | stable_solver].
  eapply (deletes_bind _ _ tt);
    [apply delete_alternative_backend_service_deletes | | stable_solver].
  eapply (deletes_bind _ _ tt);
    [apply delete_affinity_backend_service_deletes | | stable_solver].
  apply delete_health_check_deletes.
Qed.

Lemma deletes_trace_ext {A} (m : Py A) a L T T' :
  (forall s, T' s = T s) -> deletes m a L T -> deletes m a L T'.
Proof. intros Hext H w Hw. rewrite Hext. by apply H. Qed.

Lemma cleanup_deletes force :
  deletes (cleanup force) tt base_slots
    (fun s => cleanup_before force s ++ target_proxy_deletions force s ++
              cleanup_after force s).
Proof.
  eapply deletes_trace_ext; [|apply cleanup_deletes_nested].
  intros s. unfold cleanup_before, cleanup_after. by rewrite <- !app_assoc.
Qed.

(** ** C10: one proxy slot, two delete gateways *)

(** C10. On a reliable control plane base cleanup returns and issues, between
    the deletions that come before and after, the deletions for the
    target-proxy slot: without [force] at most one, through the HTTP gateway
    if the proxy is marked HTTP-kind and through the GRPC gateway if not,
    none if the slot is empty; with [force] two, the HTTP and then the GRPC
    gateway with the same recomputed name. *)
Theorem cleanup_target_proxy_deletions (force : bool) (w : World) :
  reliable (remote w) ->
  let s := obj w in
  let name := make_resource_name s TARGET_PROXY_NAME in
  outcome (cleanup force) w = Return tt
  /\ emitted (cleanup force) w
     = cleanup_before force s ++ target_proxy_deletions force s ++
       cleanup_after force s
  /\ (force = false ->
      (length (target_proxy_deletions force s) <= 1)%nat
      /\ (forall p, resources s !! target_proxy = Some p ->
          target_proxy_deletions force s
          = [Compute (if target_proxy_is_http s
                      then compute.delete_target_http_proxy (GcpResource.name p)
                      else compute.delete_target_grpc_proxy
                             (GcpResource.name p))])
      /\ (resources s !! target_proxy = None ->
          target_proxy_deletions force s = []))
  /\ (force = true ->
      target_proxy_deletions force s
      = [Compute (compute.delete_target_http_proxy name);
         Compute (compute.delete_target_grpc_proxy name)]).
Proof.
  intros Hw s name. subst s name.
  destruct (cleanup_deletes force w Hw) as (w' & Hrun & Hc & _).
  unfold outcome, emitted, after. rewrite Hrun. cbn.
  split; [done|]. split.
  - by rewrite Hc, drop_app_length.
  - split.
    + intros ->. unfold target_proxy_deletions.
      destruct (resources (obj w) !! target_proxy) as [p|];
        destruct (target_proxy_is_http (obj w)); cbn.
      all: repeat split; try done; try lia.
      all: by intros ? [= <-].
    + by intros ->.
Qed.

Lemma cleanup_target_proxy_deletions_witness :
  outcome (cleanup false) w_serving = Return tt
  /\ target_proxy_deletions false (obj w_serving)
     = [Compute (compute.delete_target_grpc_proxy
                   "psm-interop-target-proxy-t1")]
  /\ target_proxy_deletions true (obj w_serving)
     = [Compute (compute.delete_target_http_proxy
                   "psm-interop-target-proxy-t1");
        Compute (compute.delete_target_grpc_proxy
                   "psm-interop-target-proxy-t1")]
  /\ emitted (cleanup true) w_serving
     = cleanup_before true (obj w_serving) ++
       target_proxy_deletions true (obj w_serving) ++
       cleanup_after true (obj w_serving).
Proof.
  assert (reliable (remote w_serving)) as Hw by (by intros h c).
  destruct (cleanup_target_proxy_deletions false w_serving Hw)
    as (Hret & _ & Hone & _).
  destruct (Hone eq_refl) as (_ & Hp & _).
  destruct (cleanup_target_proxy_deletions true w_serving Hw)
    as (_ & Htrace & _ & Htwo).
  split; [exact Hret|]. split; [|split; [|exact Htrace]].
  - rewrite (Hp (GcpResource.Build "psm-interop-target-proxy-t1"
                   "global/psm-interop-target-proxy-t1"));
      by vm_compute.
  - rewrite (Htwo eq_refl). by vm_compute.
Defined.

(** ** C4: forced deletion *)

Lemma delete_http_route_deletes force :
  deletes (TrafficDirectorAppNetManager.delete_http_route force) tt
    [http_route]
    (fun s => deletion (NetSvc ∘ netsvc.delete_http_route)
                (target force http_route
                   TrafficDirectorAppNetManager.HTTP_ROUTE_NAME s)).
Proof. revert force. deletes_slot. Qed.

Lemma delete_grpc_route_deletes force :
  deletes (TrafficDirectorAppNetManager.delete_grpc_route force) tt
    [grpc_route]
    (fun s => deletion (NetSvc ∘ netsvc.delete_grpc_route)
                (target force grpc_route
                   TrafficDirectorAppNetManager.GRPC_ROUTE_NAME s)).
Proof. revert force. deletes_slot. Qed.

Lemma delete_mesh_deletes force :
  deletes (TrafficDirectorAppNetManager.delete_mesh force) tt [mesh]
    (fun s => deletion (NetSvc ∘ netsvc.delete_mesh)
                (target force mesh TrafficDirectorAppNetManager.MESH_NAME s)).
Proof. revert force. deletes_slot. Qed.

Lemma delete_endpoint_policy_deletes force :
  deletes (TrafficDirectorSecureManager.delete_endpoint_policy force) tt
    [endpoint_policy]
    (fun s => deletion (NetSvc ∘ netsvc.delete_endpoint_policy)
                (target force endpoint_policy
                   TrafficDirectorSecureManager.ENDPOINT_POLICY s)).
Proof. revert force. deletes_slot. Qed.

Lemma delete_server_tls_policy_deletes force :
  deletes (TrafficDirectorSecureManager.delete_server_tls_policy force) tt
    [server_tls_policy]
    (fun s => deletion (NetSec ∘ netsec.delete_server_tls_policy)
                (target force server_tls_policy
                   TrafficDirectorSecureManager.SERVER_TLS_POLICY_NAME s)).
Proof. revert force. deletes_slot. Qed.

Lemma delete_client_tls_policy_deletes force :
  deletes (TrafficDirectorSecureManager.delete_client_tls_policy force) tt
    [client_tls_policy]
    (fun s => deletion (NetSec ∘ netsec.delete_client_tls_policy)
                (target force client_tls_policy
                   TrafficDirectorSecureManager.CLIENT_TLS_POLICY_NAME s)).
Proof. revert force. deletes_slot. Qed.

Lemma delete_authz_policy_deletes force :
  deletes (TrafficDirectorSecureManager.delete_authz_policy force) tt
    [authz_policy]
    (fun s => deletion (NetSec ∘ netsec.delete_authz_policy)
                (target force authz_policy
                   TrafficDirectorSecureManager.AUTHZ_POLICY_NAME s)).
Proof. revert force. deletes_slot. Qed.

Lemma appnet_cleanup_deletes force :
  deletes (TrafficDirectorAppNetManager.cleanup force) tt
    ([http_route] ++ [grpc_route] ++ [mesh] ++ base_slots)
    (fun s =>
       deletion (NetSvc ∘ netsvc.delete_http_route)
         (target force http_route
            TrafficDirectorAppNetManager.HTTP_ROUTE_NAME s) ++
       deletion (NetSvc ∘ netsvc.delete_grpc_route)
         (target force grpc_route
            TrafficDirectorAppNetManager.GRPC_ROUTE_NAME s) ++
       deletion (NetSvc ∘ netsvc.delete_mesh)
         (target force mesh TrafficDirectorAppNetManager.MESH_NAME s) ++
       (cleanup_before force s ++ target_proxy_deletions force s ++
        cleanup_after force s)).
Proof.
  unfold TrafficDirectorAppNetManager.cleanup.
  eapply (deletes_bind _ _ tt);
    [apply delete_http_route_deletes | | stable_solver].
  eapply (deletes_bind _ _ tt);
    [apply delete_grpc_route_deletes | | stable_solver].
  eapply (deletes_bind _ _ tt);
    [apply delete_mesh_deletes | | stable_solver].
  apply cleanup_deletes.
Qed.

Lemma secure_cleanup_deletes force :
  deletes (TrafficDirectorSecureManager.cleanup force) tt
    (base_slots ++ [endpoint_policy] ++ [server_tls_policy] ++
     [client_tls_policy] ++ [authz_policy])
    (fun s =>
       (cleanup_before force s ++ target_proxy_deletions force s ++
        cleanup_after force s) ++
       deletion (NetSvc ∘ netsvc.delete_endpoint_policy)
         (target force endpoint_policy
            TrafficDirectorSecureManager.ENDPOINT_POLICY s) ++
       deletion (NetSec ∘ netsec.delete_server_tls_policy)
         (target force server_tls_policy
            TrafficDirectorSecureManager.SERVER_TLS_POLICY_NAME s) ++
       deletion (NetSec ∘ netsec.delete_client_tls_policy)
         (target force client_tls_policy
            TrafficDirectorSecureManager.CLIENT_TLS_POLICY_NAME s) ++
       deletion (NetSec ∘ netsec.delete_authz_policy)
         (target force authz_policy
            TrafficDirectorSecureManager.AUTHZ_POLICY_NAME s)).
Proof.
  unfold TrafficDirectorSecureManager.cleanup.
  eapply (deletes_bind _ _ tt); [apply cleanup_deletes | | stable_solver].
  eapply (deletes_bind _ _ tt);
    [apply delete_endpoint_policy_deletes | | stable_solver].
  eapply (deletes_bind _ _ tt);
    [apply delete_server_tls_policy_deletes | | stable_solver].
  eapply (deletes_bind _ _ tt);
    [apply delete_client_tls_policy_deletes | | stable_solver].
  apply delete_authz_policy_deletes.
Qed.

Lemma forced_base_trace s :
  cleanup_before true s ++ target_proxy_deletions true s ++
  cleanup_after true s
  = firewall_deletions true s ++ forced_cleanup s.
Proof.
  unfold cleanup_before, cleanup_after, cleanup_dualstack,
    target_proxy_deletions, forced_cleanup, target, deletion.
  destruct (enable_dualstack s); by rewrite <- !app_assoc.
Qed.

Lemma emitted_deletes {A} (m : Py A) a L T w :
  deletes m a L T -> reliable (remote w) -> emitted m w = T (obj w).
Proof.
  intros H Hw. destruct (H w Hw) as (w' & Hrun & Hc & _).
  apply emitted_app. unfold after. by rewrite Hrun.
Qed.

Create HintDb td_creators.

#[global] Hint Unfold
  create_health_check create_backend_service
  create_alternative_backend_service create_affinity_backend_service
  create_url_map create_alternative_url_map create_target_proxy
  create_target_proxy_ipv6 create_alternative_target_proxy
  create_forwarding_rule create_forwarding_rule_ipv6
  create_alternative_forwarding_rule _create_firewall_rule
  create_firewall_rules
  TrafficDirectorAppNetManager.create_mesh
  TrafficDirectorAppNetManager.create_grpc_route
  TrafficDirectorAppNetManager.create_grpc_route_with_content
  TrafficDirectorAppNetManager.create_http_route_with_content
  TrafficDirectorSecureManager.create_server_tls_policy
  TrafficDirectorSecureManager.create_client_tls_policy
  TrafficDirectorSecureManager.create_authz_policy
  TrafficDirectorSecureManager.create_endpoint_policy : td_creators.

Ltac split_cases :=
  repeat (match goal with
          | |- context [nonempty ?x] => destruct (nonempty x)
          | |- context [backend_service_protocol ?s] =>
              destruct (backend_service_protocol s)
          | |- context [resources ?s !! ?a] => destruct (resources s !! a)
          | |- context [raises ?g ?h ?c] => destruct (raises g h c)
          | |- context [if ?b then _ else _] => is_var b; destruct b
          | |- context [match ?o with Some _ => _ | None => _ end] =>
              is_var o; destruct o
          end; cbn).

Ltac creates :=
  let s := fresh "s" in
  let x := fresh "x" in
  let Hx := fresh "Hx" in
  split; [|by (eexists; vm_compute)];
  intros [s ? ? ? ? ?]; autounfold with td_creators; py_unfold; cbn;
  split_cases; py_unfold; cbn;
  rewrite <- ?app_assoc, ?drop_app_length, ?drop_all; cbn;
  (split; [by eexists | intros x Hx; first [discriminate Hx | reflexivity]]).

Lemma create_url_map_with_content_emits body w :
  emitted (create_url_map_with_content body) w
  = [Compute (compute.create_url_map_with_content body)].
Proof.
  destruct w as [s g e d cs lg]. unfold create_url_map_with_content.
  py_unfold. cbn. destruct (raises g cs _); cbn; apply drop_app_length.
Qed.

Lemma creation_names : creation_names_agree.
Proof.
  unfold creation_names_agree.
  do 5 (split; [intros; creates|]).
  split; [intros ? ? []; creates|].
  do 6 (split; [intros; creates|]).
  split; [intros ? [|? ?] [|? ?]; creates|].
  do 4 (split; [intros; creates|]).
  do 2 (split; [intros [] []; creates|]).
  do 2 (split; [intros; creates|]).
  split; [apply create_url_map_with_content_emits|].
  intros name rest w. by rewrite create_url_map_with_content_emits.
Qed.

Ltac recomputes_row :=
  let s := fresh "s" in
  let g := fresh "g" in
  let cs := fresh "cs" in
  intros [s g ? ? cs ?]; autounfold with td_methods; py_unfold; cbn;
  destruct (raises g cs _); cbn; apply drop_app_length.

Lemma forced_deletions_recompute : Forall recomputes forced_deletions.
Proof.
  unfold forced_deletions.
  repeat match goal with
         | |- Forall _ (_ :: _) => constructor; [cbn; recomputes_row|]
         end.
  constructor.
Qed.

Lemma delete_firewall_rule_forced w :
  emitted (delete_firewall_rule true) w
  = [Compute (compute.delete_firewall_rule
                (match resources (obj w) !! firewall_rule with
                 | Some r => GcpResource.name r
                 | None => make_resource_name (obj w) FIREWALL_RULE_NAME
                 end))].
Proof.
  destruct w as [s g e d cs lg].
  autounfold with td_methods. py_unfold. cbn.
  destruct (resources s !! firewall_rule); cbn;
    destruct (raises g cs _) as [[]|]; cbn; apply drop_app_length.
Qed.

Lemma delete_firewall_rule_ipv6_forced w :
  emitted (delete_firewall_rule_ipv6 true) w
  = [Compute (compute.delete_firewall_rule
                (match resources (obj w) !! firewall_rule_ipv6 with
                 | Some r => GcpResource.name r
                 | None => make_resource_name (obj w) FIREWALL_RULE_NAME_IPV6
                 end))].
Proof.
  destruct w as [s g e d cs lg].
  autounfold with td_methods. py_unfold. cbn.
  destruct (resources s !! firewall_rule_ipv6); cbn;
    destruct (raises g cs _) as [[]|]; cbn; apply drop_app_length.
Qed.

(** C4 (as stated) fails: on a never-created orchestrator
    [cleanup(force=True)] issues no firewall deletion, the firewall flag
    being unset. *)
Lemma forced_cleanup_skips_firewall :
  ~ attempts_firewall_deletion (world_of fresh accepting).
Proof.
  intros (c & Hin & Hc).
  assert (emitted (cleanup true) (world_of fresh accepting)
          = forced_cleanup fresh) as E by (by vm_compute).
  rewrite E in Hin. unfold forced_cleanup in Hin. cbn in Hin.
  repeat (apply elem_of_cons in Hin as [->|Hin]; [done|]).
  by apply elem_of_nil in Hin.
Qed.

(** C4 (amended). Under [force] every delete method issues exactly one
    remote deletion whatever the slot holds.  All but the two firewall
    deletions recompute the name from the naming tuple, the same name the
    creation method of the kind passes to the control plane: every creator
    that returns has asked for exactly the derived names of its kind.  The
    one creator that derives no name is [create_url_map_with_content]: it
    creates the URL map under the name its caller put into the body, which
    the forced deletion finds only if it is the derived one.  The firewall
    deletions use the name of the handle when the slot is [Present] and
    recompute it when the slot is [Absent].  On a reliable control plane
    [cleanup(force=True)] deletes, by recomputed name, every base kind
    except the firewall rules, which it attempts only if the firewall flag is
    set, and the IPv6 forwarding rule and proxy, which it attempts only on a
    dual-stack manager; the extensions add their own forced deletions before
    (mesh) or after (security) the base ones. *)
Theorem forced_deletion_names :
  Forall recomputes forced_deletions
  /\ (forall w,
        emitted (delete_firewall_rule true) w
        = [Compute (compute.delete_firewall_rule
                      (match resources (obj w) !! firewall_rule with
                       | Some r => GcpResource.name r
                       | None =>
                           make_resource_name (obj w) FIREWALL_RULE_NAME
                       end))])
  /\ (forall w,
        emitted (delete_firewall_rule_ipv6 true) w
        = [Compute (compute.delete_firewall_rule
                      (match resources (obj w) !! firewall_rule_ipv6 with
                       | Some r => GcpResource.name r
                       | None =>
                           make_resource_name (obj w) FIREWALL_RULE_NAME_IPV6
                       end))])
  /\ creation_names_agree
  /\ (forall w, reliable (remote w) ->
        emitted (cleanup true) w
        = firewall_deletions true (obj w) ++ forced_cleanup (obj w)
        /\ emitted (TrafficDirectorAppNetManager.cleanup true) w
           = forced_appnet_cleanup (obj w) ++
             firewall_deletions true (obj w) ++ forced_cleanup (obj w)
        /\ emitted (TrafficDirectorSecureManager.cleanup true) w
           = firewall_deletions true (obj w) ++ forced_cleanup (obj w) ++
             forced_secure_cleanup (obj w)
        /\ (_ensure_firewall (obj w) = false ->
            firewall_deletions true (obj w) = [])).
Proof.
  split; [apply forced_deletions_recompute|].
  split; [apply delete_firewall_rule_forced|].
  split; [apply delete_firewall_rule_ipv6_forced|].
  split; [apply creation_names|].
  intros w Hw. split; [|split; [|split]].
  - rewrite (emitted_deletes _ _ _ _ _ (cleanup_deletes true) Hw).
    apply forced_base_trace.
  - rewrite (emitted_deletes _ _ _ _ _ (appnet_cleanup_deletes true) Hw).
    by rewrite forced_base_trace.
  - rewrite (emitted_deletes _ _ _ _ _ (secure_cleanup_deletes true) Hw).
    by rewrite forced_base_trace, <- app_assoc.
  - intros H. unfold firewall_deletions. by rewrite H.
Qed.

Lemma forced_deletion_names_witness :
  emitted (cleanup true) (world_of fresh accepting) = forced_cleanup fresh
  /\ emitted (TrafficDirectorSecureManager.cleanup true)
       (world_of fresh accepting)
     = forced_cleanup fresh ++ forced_secure_cleanup fresh.
Proof.
  destruct forced_deletion_names as (_ & _ & _ & _ & H).
  destruct (H (world_of fresh accepting)) as (Hbase & _ & Hsec & Hfw);
    [by intros h c|].
  change (obj (world_of fresh accepting)) with fresh in *.
  specialize (Hfw eq_refl). rewrite Hfw in Hbase, Hsec.
  split; [exact Hbase | exact Hsec].
Defined.

(** * Further properties of the orchestrator *)

(** ** Single deletions *)

Ltac idle_row :=
  let s := fresh "s" in
  let H := fresh "H" in
  intros [s ? ? ? ? ?] H; cbn in H;
  autounfold with td_methods; py_unfold; cbn; by rewrite H.

(** X1. A delete method called without [force] on an [Absent] slot does
    nothing at all: no remote call, no log record, no change, no exception.
    The same holds for [delete_target_http_proxy] on a proxy that is not
    marked HTTP-kind, and for [delete_firewall_rules], forced or not, when
    the firewall flag is unset. *)
Theorem delete_without_force_idle :
  Forall idle_when_absent slot_readers
  /\ (forall w,
        target_proxy_is_http (obj w) = false ->
        delete_target_http_proxy false w = (Return tt, w))
  /\ (forall w force,
        _ensure_firewall (obj w) = false ->
        delete_firewall_rules force w = (Return tt, w)).
Proof.
  split; [|split].
  - unfold slot_readers.
    repeat match goal with
           | |- Forall _ (_ :: _) => constructor; [cbn; idle_row|]
           end.
    constructor.
  - intros [s ? ? ? ? ?] H. cbn in H.
    autounfold with td_methods. py_unfold. cbn. rewrite H.
    by destruct (resources s !! target_proxy).
  - intros w force H. by apply delete_firewall_rules_idle.
Qed.

Lemma delete_without_force_idle_witness :
  delete_health_check false (world_of fresh accepting)
    = (Return tt, world_of fresh accepting)
  /\ delete_target_http_proxy false w_proxied = (Return tt, w_proxied)
  /\ delete_firewall_rules true w_proxied = (Return tt, w_proxied).
Proof.
  destruct delete_without_force_idle as (Hrows & Hhttp & Hfw).
  split; [|split].
  - apply (Forall_inv Hrows). by vm_compute.
  - apply Hhttp. by vm_compute.
  - apply Hfw. by vm_compute.
Defined.

Ltac clears_row :=
  let s := fresh "s" in
  let g := fresh "g" in
  let cs := fresh "cs" in
  let Hr := fresh "Hr" in
  let Hok := fresh "Hok" in
  intros [s g ? ? cs ?] ? Hr Hok; cbn in Hr, Hok;
  autounfold with td_methods; py_unfold; cbn;
  rewrite Hr; cbn; unfold compose in Hok; rewrite Hok; cbn;
  split; [done|]; split; [apply drop_app_length | done].

(** X2. A delete method other than [delete_alternative_url_map], called
    without [force] on a [Present] slot, when the remote deletion succeeds,
    returns after exactly one remote call, the deletion of the name stored
    in the handle, and empties that slot and no other.
    [delete_target_http_proxy] does so when the proxy is marked HTTP-kind.
    [delete_alternative_url_map] issues the deletion of its handle's name
    as well, but the slot it empties is the URL map's: its own slot keeps
    the handle and a URL map the manager holds is forgotten. *)
Theorem delete_clears_own_slot :
  Forall clears_own_slot slot_deleters
  /\ (forall w r,
        resources (obj w) !! target_proxy = Some r ->
        target_proxy_is_http (obj w) = true ->
        raises (remote w) (calls w)
          (Compute (compute.delete_target_http_proxy (GcpResource.name r)))
          = None ->
        outcome (delete_target_http_proxy false) w = Return tt
        /\ emitted (delete_target_http_proxy false) w
           = [Compute (compute.delete_target_http_proxy (GcpResource.name r))]
        /\ resources (obj (after (delete_target_http_proxy false) w))
           = delete target_proxy (resources (obj w))
        /\ target_proxy_is_http (obj (after (delete_target_http_proxy false) w))
           = false)
  /\ (forall w r,
        resources (obj w) !! alternative_url_map = Some r ->
        raises (remote w) (calls w)
          (Compute (compute.delete_url_map (GcpResource.name r))) = None ->
        let w' := after (delete_alternative_url_map false) w in
        outcome (delete_alternative_url_map false) w = Return tt
        /\ emitted (delete_alternative_url_map false) w
           = [Compute (compute.delete_url_map (GcpResource.name r))]
        /\ resources (obj w') = delete url_map (resources (obj w))
        /\ resources (obj w') !! alternative_url_map = Some r
        /\ resources (obj w') !! url_map = None)
  /\ ~ clears_own_slot
        (delete_alternative_url_map, alternative_url_map,
         Compute ∘ compute.delete_url_map).
Proof.
  split; [|split; [|split]].
  - unfold slot_deleters.
    repeat match goal with
           | |- Forall _ (_ :: _) => constructor; [cbn; clears_row|]
           end.
    constructor.
  - intros [s g ? ? cs ?] r Hr Hh Hok. cbn in Hr, Hh, Hok.
    autounfold with td_methods. py_unfold. cbn.
    rewrite Hr, Hh. cbn. rewrite Hok. cbn.
    split; [done|]. split; [apply drop_app_length | done].
  - intros [s g ? ? cs ?] r Hr Hok. cbn in Hr, Hok.
    autounfold with td_methods. py_unfold. cbn.
    rewrite Hr. cbn. rewrite Hok. cbn.
    split; [done|]. split; [apply drop_app_length|]. split; [done|].
    split; [by rewrite lookup_delete_ne | apply lookup_delete_eq].
  - intros H.
    destruct (H w_rerouted
                (GcpResource.Build "psm-interop-url-map-alt-t1"
                   "global/psm-interop-url-map-alt-t1"))
      as (_ & _ & Hslots); [by vm_compute | by vm_compute |].
    assert (resources
              (obj (after (delete_alternative_url_map false) w_rerouted))
            !! alternative_url_map = None) as Hnone
      by (rewrite Hslots; apply lookup_delete_eq).
    vm_compute in Hnone. discriminate.
Qed.

Lemma delete_clears_own_slot_witness :
  outcome (delete_health_check false) w_grpc = Return tt
  /\ emitted (delete_health_check false) w_grpc
     = [Compute (compute.delete_health_check "psm-interop-health-check-t1")]
  /\ resources (obj (after (delete_health_check false) w_grpc))
     = delete health_check (resources (obj w_grpc)).
Proof.
  apply (Forall_inv (proj1 delete_clears_own_slot) w_grpc
           (GcpResource.Build "psm-interop-health-check-t1"
              "global/psm-interop-health-check-t1")); by vm_compute.
Defined.

Ltac keeps_row :=
  let s := fresh "s" in
  let g := fresh "g" in
  let cs := fresh "cs" in
  let e := fresh "e" in
  let Hr := fresh "Hr" in
  let Hfail := fresh "Hfail" in
  let He := fresh "He" in
  intros [s g ? ? cs ?] ? e Hr Hfail He; cbn in Hr, Hfail;
  autounfold with td_methods; py_unfold; cbn;
  rewrite Hr; cbn; unfold compose in Hfail; rewrite Hfail; cbn;
  first
    [ by (split; [done|]; split; [apply drop_app_length | done])
    | destruct e; cbn;
      first
        [ by (split; [done|]; split; [apply drop_app_length | done])
        | by destruct He as [[]|[? ?]] ] ].

(** X3. A delete method called without [force] on a [Present] slot, when the
    remote deletion raises, lets the exception reach the caller after that
    one call and leaves the object as it was, so the slot is still
    [Present] and the deletion can be asked for again.  The two firewall
    deletions do so for every exception but the API client's own, which
    they swallow. *)
Theorem delete_failure_keeps_slot :
  Forall keeps_slot_on_failure slot_deleters
  /\ keeps_slot_on_failure
       (delete_alternative_url_map, alternative_url_map,
        Compute ∘ compute.delete_url_map)
  /\ (forall w r e,
        resources (obj w) !! target_proxy = Some r ->
        target_proxy_is_http (obj w) = true ->
        raises (remote w) (calls w)
          (Compute (compute.delete_target_http_proxy (GcpResource.name r)))
          = Some e ->
        outcome (delete_target_http_proxy false) w = Raise e
        /\ obj (after (delete_target_http_proxy false) w) = obj w).
Proof.
  split; [|split].
  - unfold slot_deleters.
    repeat match goal with
           | |- Forall _ (_ :: _) => constructor; [cbn; keeps_row|]
           end.
    constructor.
  - cbn. keeps_row.
  - intros [s g ? ? cs ?] r e Hr Hh Hfail. cbn in Hr, Hh, Hfail.
    autounfold with td_methods. py_unfold. cbn.
    rewrite Hr, Hh. cbn. by rewrite Hfail.
Qed.

Lemma delete_failure_keeps_slot_witness :
  outcome (delete_health_check false) w_cut_off
    = Raise (OtherError "connection reset")
  /\ obj (after (delete_health_check false) w_cut_off) = obj w_cut_off.
Proof.
  destruct (Forall_inv (proj1 delete_failure_keeps_slot) w_cut_off
              (GcpResource.Build "psm-interop-health-check-t1"
                 "global/psm-interop-health-check-t1")
              (OtherError "connection reset"))
    as (Hout & _ & Hobj); [by vm_compute | by vm_compute | by left |].
  by split.
Defined.

(** ** What cleanup leaves behind *)

(** X4. A cleanup without [force] on a manager that holds no resource and
    whose firewall flag is unset returns without a remote call, a log record
    or a change, for each of the three manager classes and whatever the
    control plane would answer. *)
Theorem cleanup_nothing_created (w : World) :
  resources (obj w) = ∅ ->
  _ensure_firewall (obj w) = false ->
  cleanup false w = (Return tt, w)
  /\ TrafficDirectorAppNetManager.cleanup false w = (Return tt, w)
  /\ TrafficDirectorSecureManager.cleanup false w = (Return tt, w).
Proof.
  destruct w as [s g e d cs lg]. cbn. intros Hempty Hflag.
  unfold TrafficDirectorAppNetManager.cleanup,
    TrafficDirectorSecureManager.cleanup.
  autounfold with td_methods. py_unfold.
  destruct (enable_dualstack s) eqn:Hds.
  all: repeat (progress (cbn; rewrite ?Hflag, ?Hempty, ?Hds, ?lookup_empty)).
  all: done.
Qed.

Lemma cleanup_nothing_created_witness :
  cleanup false (world_of fresh accepting)
    = (Return tt, world_of fresh accepting)
  /\ TrafficDirectorSecureManager.cleanup false (world_of fresh unreachable)
     = (Return tt, world_of fresh unreachable).
Proof.
  split.
  - apply (cleanup_nothing_created (world_of fresh accepting));
      by vm_compute.
  - apply (cleanup_nothing_created (world_of fresh unreachable));
      by vm_compute.
Defined.

Lemma clear_absent a s : resources s !! a = None -> clear a s = s.
Proof.
  intros H. unfold clear. rewrite (delete_id _ _ H). apply set_resources_id.
Qed.

Lemma transforms_bind (m : Py unit) (k : unit -> Py unit) F G :
  transforms m F -> transforms (k tt) G ->
  transforms (m ≫= k) (fun s => G (F s)).
Proof.
  intros Hm Hk w Hw.
  destruct (Hm w Hw) as (w1 & Hrun1 & Ho1 & Hg1).
  destruct (Hk w1) as (w2 & Hrun2 & Ho2 & Hg2); [by rewrite Hg1|].
  exists w2. rewrite (bind_return _ _ _ _ _ Hrun1).
  split; [done|]. split; [by rewrite Ho2, Ho1 | congruence].
Qed.

Lemma transforms_ext (m m' : Py unit) F :
  (forall w, m' w = m w) -> transforms m F -> transforms m' F.
Proof.
  intros Hext H w Hw. destruct (H w Hw) as (w' & Hrun & Hrest).
  exists w'. by rewrite Hext.
Qed.

(** A deletion of the common shape leaves its slot empty, deleted or not. *)
Ltac transforms_slot :=
  let s := fresh "s" in
  let Hw := fresh "Hw" in
  let E := fresh "E" in
  intros force [s ? ? ? ? ?] Hw; cbn in Hw;
  autounfold with td_methods; py_unfold; cbn;
  destruct force; [| match goal with |- context [resources s !! ?a] =>
                       destruct (resources s !! a) eqn:E end ];
  cbn; rewrite ?Hw; cbn;
  (eexists; split; [reflexivity|]; cbn; split; [|done];
   first [ done | by rewrite (clear_absent _ _ E) ]).

Lemma delete_forwarding_rule_transforms force :
  transforms (delete_forwarding_rule force) (clear forwarding_rule).
Proof. revert force. transforms_slot. Qed.

Lemma delete_alternative_forwarding_rule_transforms force :
  transforms (delete_alternative_forwarding_rule force)
    (clear alternative_forwarding_rule).
Proof. revert force. transforms_slot. Qed.

Lemma delete_forwarding_rule_ipv6_transforms force :
  transforms (delete_forwarding_rule_ipv6 force) (clear forwarding_rule_ipv6).
Proof. revert force. transforms_slot. Qed.

Lemma delete_target_proxy_ipv6_transforms force :
  transforms (delete_target_proxy_ipv6 force) (clear target_proxy_ipv6).
Proof. revert force. transforms_slot. Qed.

Lemma delete_alternative_target_grpc_proxy_transforms force :
  transforms (delete_alternative_target_grpc_proxy force)
    (clear alternative_target_proxy).
Proof. revert force. transforms_slot. Qed.

Lemma delete_url_map_transforms force :
  transforms (delete_url_map force) (clear url_map).
Proof. revert force. transforms_slot. Qed.

Lemma delete_backend_service_transforms force :
  transforms (delete_backend_service force) (clear backend_service).
Proof. revert force. transforms_slot. Qed.

Lemma delete_alternative_backend_service_transforms force :
  transforms (delete_alternative_backend_service force)
    (clear alternative_backend_service).
Proof. revert force. transforms_slot. Qed.

Lemma delete_affinity_backend_service_transforms force :
  transforms (delete_affinity_backend_service force)
    (clear affinity_backend_service).
Proof. revert force. transforms_slot. Qed.

Lemma delete_health_check_transforms force :
  transforms (delete_health_check force) (clear health_check).
Proof. revert force. transforms_slot. Qed.

Lemma delete_alternative_url_map_transforms force :
  transforms (delete_alternative_url_map force)
    (alternative_url_map_deleted force).
Proof.
  intros [s g e d cs lg] Hw. cbn in Hw.
  unfold alternative_url_map_deleted.
  autounfold with td_methods. py_unfold. cbn.
  destruct force; [|destruct (resources s !! alternative_url_map) eqn:E];
    cbn; rewrite ?Hw; cbn;
    (eexists; split; [reflexivity|]; cbn; split; [|done]); done.
Qed.

Lemma delete_target_proxies_transforms force :
  transforms (delete_target_http_proxy force ≫= fun _ =>
              delete_target_grpc_proxy force)
    (target_proxy_cleared force).
Proof.
  intros [s g e d cs lg] Hw. cbn in Hw.
  unfold target_proxy_cleared.
  autounfold with td_methods. py_unfold. cbn.
  destruct force; cbn; rewrite ?Hw; cbn; rewrite ?Hw; cbn.
  - eexists. split; [reflexivity|]. cbn. split; [|done].
    unfold clear. cbn. by rewrite delete_delete_eq.
  - destruct (resources s !! target_proxy) eqn:E; cbn;
      [destruct (target_proxy_is_http s); cbn|];
      rewrite ?Hw; cbn; rewrite ?lookup_delete_eq, ?E; cbn; rewrite ?Hw; cbn;
      (eexists; split; [reflexivity|]; cbn; split; [|done]); done.
Qed.

Lemma delete_firewall_rules_transforms force :
  transforms (delete_firewall_rules force) firewall_cleared.
Proof.
  intros [s g e d cs lg] Hw. cbn in Hw.
  unfold firewall_cleared.
  autounfold with td_methods. py_unfold. cbn.
  destruct force, (_ensure_firewall s); cbn;
    destruct (resources s !! firewall_rule) eqn:E4; cbn;
    rewrite ?Hw; cbn; rewrite ?lookup_delete_ne by done;
    destruct (resources s !! firewall_rule_ipv6) eqn:E6; cbn;
    rewrite ?Hw; cbn;
    (eexists; split; [reflexivity|]; cbn; split; [|done]).
  all: unfold clear; cbn;
    rewrite ?(delete_id _ _ E4);
    rewrite ?(delete_id (delete firewall_rule (resources s))
                firewall_rule_ipv6) by (by rewrite lookup_delete_ne);
    rewrite ?(delete_id _ _ E6);
    try done.
Qed.

Lemma transforms_dualstack force (k : unit -> Py unit) G :
  transforms (k tt) G ->
  transforms
    (self ≫= fun s =>
       (if enable_dualstack s
        then delete_forwarding_rule_ipv6 force ≫= fun _ =>
             delete_target_proxy_ipv6 force
        else mret tt) ≫= k)
    (fun s => G (dualstack_cleared s)).
Proof.
  intros Hk w Hw. unfold dualstack_cleared.
  destruct (enable_dualstack (obj w)) eqn:E.
  - destruct (transforms_bind _ _ _ _
                (transforms_bind _ (fun _ => delete_target_proxy_ipv6 force)
                   _ _
                   (delete_forwarding_rule_ipv6_transforms force)
                   (delete_target_proxy_ipv6_transforms force))
                Hk w Hw) as (w' & Hrun & Hrest).
    exists w'. split; [|exact Hrest].
    unfold mbind, Py_bind, self in *. cbn. by rewrite E.
  - destruct (Hk w Hw) as (w' & Hrun & Hrest).
    exists w'. split; [|exact Hrest].
    unfold mbind, Py_bind, self, mret, Py_ret in *. cbn. by rewrite E.
Qed.

(** Sequencing read from the last operation backwards: the operation [Hop]
    is put in front of the sequence already described by [H]. *)
Ltac preceded_by H Hop :=
  lazymatch type of H with
  | transforms ?n ?G =>
      let H' := fresh "H" in
      pose proof (transforms_bind _ (fun _ : unit => n) _ G Hop H) as H';
      clear H; rename H' into H
  end.

Lemma cleanup_transforms force :
  transforms (cleanup force) (cleaned_up force).
Proof.
  pose proof (delete_health_check_transforms force) as H.
  preceded_by H (delete_affinity_backend_service_transforms force).
  preceded_by H (delete_alternative_backend_service_transforms force).
  preceded_by H (delete_backend_service_transforms force).
  preceded_by H (delete_alternative_url_map_transforms force).
  preceded_by H (delete_url_map_transforms force).
  preceded_by H (delete_alternative_target_grpc_proxy_transforms force).
  lazymatch type of H with
  | transforms ?n ?G =>
      pose proof (transforms_dualstack force (fun _ : unit => n) G H) as H'
  end.
  clear H.
  preceded_by H' (delete_target_proxies_transforms force).
  pose proof (transforms_ext _ _ _
                (fun w => bind_assoc (delete_target_http_proxy force)
                            (fun _ => delete_target_grpc_proxy force) _ w)
                H') as H.
  clear H'.
  preceded_by H (delete_alternative_forwarding_rule_transforms force).
  preceded_by H (delete_forwarding_rule_transforms force).
  preceded_by H (delete_firewall_rules_transforms force).
  exact H.
Qed.

Lemma lookup_clear_eq a s : resources (clear a s) !! a = None.
Proof. destruct s. cbn. apply lookup_delete_eq. Qed.

Lemma lookup_clear_ne a b s :
  a <> b -> resources (clear a s) !! b = resources s !! b.
Proof. intros H. destruct s. cbn. by apply lookup_delete_ne. Qed.

Lemma clear_settings a s :
  enable_dualstack (clear a s) = enable_dualstack s
  /\ _ensure_firewall (clear a s) = _ensure_firewall s.
Proof. by destruct s. Qed.

Lemma firewall_cleared_lookup a s :
  a <> firewall_rule -> a <> firewall_rule_ipv6 ->
  resources (firewall_cleared s) !! a = resources s !! a.
Proof.
  intros H1 H2. unfold firewall_cleared.
  destruct (_ensure_firewall s); [|done].
  change (resources (set_ensure_firewall false ?x)) with (resources x).
  by rewrite !lookup_clear_ne.
Qed.

Lemma firewall_cleared_settings s :
  enable_dualstack (firewall_cleared s) = enable_dualstack s
  /\ _ensure_firewall (firewall_cleared s) = false.
Proof.
  unfold firewall_cleared. destruct (_ensure_firewall s) eqn:E; [|done].
  by destruct s.
Qed.

Lemma target_proxy_cleared_eq force s :
  resources (target_proxy_cleared force s) !! target_proxy = None.
Proof.
  unfold target_proxy_cleared.
  destruct force; cbn -[clear].
  - change (resources (set_target_proxy_is_http false ?x))
      with (resources x).
    apply lookup_clear_eq.
  - case_bool_decide as E.
    + change (resources (set_target_proxy_is_http false ?x))
        with (resources x).
      apply lookup_clear_eq.
    + by apply eq_None_not_Some.
Qed.

Lemma target_proxy_cleared_ne force a s :
  a <> target_proxy ->
  resources (target_proxy_cleared force s) !! a = resources s !! a.
Proof.
  intros H. unfold target_proxy_cleared.
  destruct (force || _); [|done].
  change (resources (set_target_proxy_is_http false ?x)) with (resources x).
  by rewrite lookup_clear_ne.
Qed.

Lemma target_proxy_cleared_settings force s :
  enable_dualstack (target_proxy_cleared force s) = enable_dualstack s
  /\ _ensure_firewall (target_proxy_cleared force s) = _ensure_firewall s.
Proof.
  unfold target_proxy_cleared. destruct (force || _); [|done].
  by destruct s.
Qed.

Lemma dualstack_cleared_ne a s :
  a <> forwarding_rule_ipv6 -> a <> target_proxy_ipv6 ->
  resources (dualstack_cleared s) !! a = resources s !! a.
Proof.
  intros H1 H2. unfold dualstack_cleared.
  destruct (enable_dualstack s); [|done].
  by rewrite !lookup_clear_ne.
Qed.

Lemma dualstack_cleared_eq a s :
  enable_dualstack s = true ->
  a = forwarding_rule_ipv6 \/ a = target_proxy_ipv6 ->
  resources (dualstack_cleared s) !! a = None.
Proof.
  intros E Ha. unfold dualstack_cleared. rewrite E.
  destruct Ha as [->| ->].
  - rewrite lookup_clear_ne by done. apply lookup_clear_eq.
  - apply lookup_clear_eq.
Qed.

Lemma dualstack_cleared_settings s :
  enable_dualstack (dualstack_cleared s) = enable_dualstack s
  /\ _ensure_firewall (dualstack_cleared s) = _ensure_firewall s.
Proof.
  unfold dualstack_cleared. destruct (enable_dualstack s) eqn:E; [|done].
  destruct s; cbn in *. by rewrite E.
Qed.

Lemma alternative_url_map_deleted_ne force a s :
  a <> url_map ->
  resources (alternative_url_map_deleted force s) !! a = resources s !! a.
Proof.
  intros H. unfold alternative_url_map_deleted.
  destruct (force || _); [|done]. by rewrite lookup_clear_ne.
Qed.

Lemma alternative_url_map_deleted_eq force s :
  resources (alternative_url_map_deleted force (clear url_map s)) !! url_map
  = None.
Proof.
  unfold alternative_url_map_deleted.
  destruct (force || _); apply lookup_clear_eq.
Qed.

Lemma alternative_url_map_deleted_settings force s :
  enable_dualstack (alternative_url_map_deleted force s) = enable_dualstack s
  /\ _ensure_firewall (alternative_url_map_deleted force s)
     = _ensure_firewall s.
Proof.
  unfold alternative_url_map_deleted. destruct (force || _); [|done].
  by destruct s.
Qed.

(** Looks a slot up in an object written as a chain of cleanup steps. *)
Ltac lookup_cleaned :=
  repeat first
    [ rewrite lookup_clear_eq
    | rewrite alternative_url_map_deleted_eq
    | rewrite target_proxy_cleared_eq
    | rewrite lookup_clear_ne by done
    | rewrite alternative_url_map_deleted_ne by done
    | rewrite dualstack_cleared_ne by done
    | rewrite target_proxy_cleared_ne by done
    | rewrite firewall_cleared_lookup by done ].

Ltac settings_cleaned :=
  repeat first
    [ rewrite (proj1 (clear_settings _ _))
    | rewrite (proj2 (clear_settings _ _))
    | rewrite (proj1 (alternative_url_map_deleted_settings _ _))
    | rewrite (proj2 (alternative_url_map_deleted_settings _ _))
    | rewrite (proj1 (dualstack_cleared_settings _))
    | rewrite (proj2 (dualstack_cleared_settings _))
    | rewrite (proj1 (target_proxy_cleared_settings _ _))
    | rewrite (proj2 (target_proxy_cleared_settings _ _))
    | rewrite (proj1 (firewall_cleared_settings _))
    | rewrite (proj2 (firewall_cleared_settings _)) ].

Lemma cleaned_up_slots force s :
  (forall a, a ∈ always_cleared -> resources (cleaned_up force s) !! a = None)
  /\ resources (cleaned_up force s) !! alternative_url_map
     = resources s !! alternative_url_map
  /\ _ensure_firewall (cleaned_up force s) = false
  /\ enable_dualstack (cleaned_up force s) = enable_dualstack s
  /\ (enable_dualstack s = true ->
      resources (cleaned_up force s) !! forwarding_rule_ipv6 = None
      /\ resources (cleaned_up force s) !! target_proxy_ipv6 = None).
Proof.
  unfold cleaned_up. repeat split.
  - intros a Ha. unfold always_cleared in Ha.
    repeat (apply elem_of_cons in Ha as [->|Ha]);
      [..|by apply elem_of_nil in Ha].
    all: by lookup_cleaned.
  - by lookup_cleaned.
  - by settings_cleaned.
  - by settings_cleaned.
  - lookup_cleaned. apply dualstack_cleared_eq; [|by left].
    by settings_cleaned.
  - lookup_cleaned. apply dualstack_cleared_eq; [|by right].
    by settings_cleaned.
Qed.

Ltac in_always_cleared :=
  unfold always_cleared;
  repeat first [apply list_elem_of_here | apply list_elem_of_further].

(** X5. On a reliable control plane base cleanup, forced or not, returns
    and leaves every slot of [always_cleared] empty and the firewall flag
    reset; with dual stack enabled the two IPv6 slots are empty as well.
    The alternative URL map slot is the one it never empties: it holds
    after cleanup what it held before. *)
Theorem cleanup_leaves force w :
  reliable (remote w) ->
  let w' := after (cleanup force) w in
  outcome (cleanup force) w = Return tt
  /\ (forall a, a ∈ always_cleared -> resources (obj w') !! a = None)
  /\ _ensure_firewall (obj w') = false
  /\ (enable_dualstack (obj w) = true ->
      resources (obj w') !! forwarding_rule_ipv6 = None
      /\ resources (obj w') !! target_proxy_ipv6 = None)
  /\ resources (obj w') !! alternative_url_map
     = resources (obj w) !! alternative_url_map.
Proof.
  intros Hw. destruct (cleanup_transforms force w Hw) as (w1 & Hrun & Ho & _).
  unfold outcome, after. rewrite Hrun. cbn. rewrite Ho.
  destruct (cleaned_up_slots force (obj w)) as (H1 & H2 & H3 & _ & H5).
  done.
Qed.

Lemma cleanup_leaves_witness :
  outcome (cleanup false) w_rerouted = Return tt
  /\ resources (obj (after (cleanup false) w_rerouted)) !! url_map = None
  /\ resources (obj (after (cleanup false) w_rerouted)) !! alternative_url_map
     = resources (obj w_rerouted) !! alternative_url_map.
Proof.
  destruct (cleanup_leaves false w_rerouted) as (H1 & H2 & _ & _ & H5);
    [by intros h c|].
  split; [exact H1|]. split; [|exact H5].
  apply H2. in_always_cleared.
Defined.

(** X6. Cleanup is not idempotent on the control plane: a second,
    unforced cleanup right after a first one issues exactly the deletion
    of the alternative URL map the first one found in its slot, and
    nothing when that slot was empty. *)
Theorem cleanup_again force w :
  reliable (remote w) ->
  emitted (cleanup false) (after (cleanup force) w)
  = deletion (Compute ∘ compute.delete_url_map)
      (GcpResource.name <$> resources (obj w) !! alternative_url_map).
Proof.
  intros Hw. destruct (cleanup_transforms force w Hw) as (w1 & Hrun & Ho & Hg).
  unfold after at 1. rewrite Hrun. cbn.
  rewrite (emitted_deletes _ _ _ _ _ (cleanup_deletes false))
    by (by rewrite Hg).
  rewrite Ho.
  destruct (cleaned_up_slots force (obj w)) as (H1 & H2 & H3 & H4 & H5).
  set (s' := cleaned_up force (obj w)) in *. clearbody s'.
  unfold cleanup_before, target_proxy_deletions, cleanup_after,
    cleanup_dualstack, firewall_deletions, target.
  rewrite H2, H3, H4.
  rewrite (H1 forwarding_rule), (H1 alternative_forwarding_rule),
    (H1 target_proxy), (H1 alternative_target_proxy), (H1 url_map),
    (H1 backend_service), (H1 alternative_backend_service),
    (H1 affinity_backend_service), (H1 health_check)
    by in_always_cleared.
  destruct (enable_dualstack (obj w)) eqn:E.
  - destruct (H5 eq_refl) as [-> ->]. cbn.
    by destruct (resources (obj w) !! alternative_url_map).
  - cbn. by destruct (resources (obj w) !! alternative_url_map).
Qed.

Lemma cleanup_again_witness :
  emitted (cleanup false) (after (cleanup false) w_rerouted)
  = [Compute (compute.delete_url_map "psm-interop-url-map-alt-t1")].
Proof.
  rewrite (cleanup_again false w_rerouted) by (by intros h c).
  by vm_compute.
Defined.

(** ** Provisioning *)

Ltac fills_now :=
  let s := fresh "s" in
  let g := fresh "g" in
  let cs := fresh "cs" in
  intros [s g ? ? cs ?];
  cbn [obj remote calls]; intros;
  eexists _, _; unfold fills;
  autounfold with td_creators; py_unfold;
  cbn -[make_resource_name _generate_url_map_body network_url pretty];
  repeat match goal with
         | H : resources _ !! _ = _ |- _ => rewrite H
         | H : backend_service_protocol _ = _ |- _ => rewrite H
         | H : reliable _ |- _ => rewrite !H
         end;
  cbn -[make_resource_name _generate_url_map_body network_url pretty];
  repeat match goal with
         | H : reliable _ |- _ => rewrite !H
         end;
  cbn -[make_resource_name _generate_url_map_body network_url pretty];
  split; [by eexists|]; by repeat split.

Lemma create_health_check_fills protocol port w :
  reliable (remote w) ->
  resources (obj w) !! health_check = None ->
  exists r w',
    fills (create_health_check protocol port) w health_check
      (Compute (compute.create_health_check
                  (make_resource_name (obj w) HEALTH_CHECK_NAME)
                  (default HealthCheckProtocol.GRPC protocol) port))
      id r w'.
Proof. revert w. fills_now. Qed.

Lemma create_backend_service_fills protocol w :
  reliable (remote w) ->
  exists r w',
    fills (create_backend_service protocol None None None None) w
      backend_service
      (Compute (compute.create_backend_service_traffic_director
                  (make_resource_name (obj w) BACKEND_SERVICE_NAME)
                  (resources (obj w) !! health_check)
                  (default BackendServiceProtocol.GRPC protocol)
                  None None None None (enable_dualstack (obj w))))
      (set_backend_service_protocol
         (default BackendServiceProtocol.GRPC protocol)) r w'.
Proof. revert w. fills_now. Qed.

Lemma create_url_map_fills host port bs w :
  reliable (remote w) ->
  resources (obj w) !! backend_service = Some bs ->
  exists r w',
    fills (create_url_map host port) w url_map
      (Compute (compute.create_url_map_with_content
                  (_generate_url_map_body
                     (make_resource_name (obj w) URL_MAP_NAME)
                     (make_resource_name (obj w) URL_MAP_PATH_MATCHER_NAME)
                     [host +:+ ":" +:+ pretty port] bs None)))
      id r w'.
Proof. revert w. fills_now. Qed.

Lemma create_target_proxy_fills um w :
  reliable (remote w) ->
  resources (obj w) !! url_map = Some um ->
  backend_service_protocol (obj w) <> BackendServiceProtocol.UNSET ->
  exists r w',
    fills create_target_proxy w target_proxy
      (proxy_creation (backend_service_protocol (obj w))
         (make_resource_name (obj w) TARGET_PROXY_NAME) um)
      (set_target_proxy_is_http
         (http_kind (backend_service_protocol (obj w)))) r w'.
Proof.
  destruct w as [s g e d cs lg]. cbn [obj remote calls]. intros Hw Hum Hp.
  unfold fills. autounfold with td_creators. py_unfold.
  destruct (backend_service_protocol s) eqn:E; [| |done].
  all: eexists _, _.
  all: cbn -[make_resource_name _generate_url_map_body network_url pretty].
  all: rewrite ?E, ?Hum, ?Hw.
  all: cbn -[make_resource_name _generate_url_map_body network_url pretty].
  all: rewrite ?Hw.
  all: cbn -[make_resource_name _generate_url_map_body network_url pretty].
  all: split; [by eexists|]; by repeat split.
Qed.

Lemma create_forwarding_rule_fills port tp w :
  reliable (remote w) ->
  resources (obj w) !! target_proxy = Some tp ->
  exists r w',
    fills (create_forwarding_rule port) w forwarding_rule
      (Compute (compute.create_forwarding_rule
                  (make_resource_name (obj w) FORWARDING_RULE_NAME) port
                  (Some tp) (network_url (obj w)) None))
      id r w'.
Proof. revert w. fills_now. Qed.

Lemma create_target_proxy_ipv6_fills um w :
  reliable (remote w) ->
  resources (obj w) !! url_map = Some um ->
  exists r w',
    fills create_target_proxy_ipv6 w target_proxy_ipv6
      (Compute (compute.create_target_http_proxy
                  (make_resource_name (obj w) TARGET_PROXY_NAME_IPV6)
                  (Some um)))
      id r w'.
Proof. revert w. fills_now. Qed.

Lemma create_forwarding_rule_ipv6_fills port tp w :
  reliable (remote w) ->
  resources (obj w) !! target_proxy_ipv6 = Some tp ->
  exists r w',
    fills (create_forwarding_rule_ipv6 port) w forwarding_rule_ipv6
      (Compute (compute.create_forwarding_rule
                  (make_resource_name (obj w) FORWARDING_RULE_NAME_IPV6) port
                  (Some tp) (network_url (obj w)) (Some "::")))
      id r w'.
Proof. revert w. fills_now. Qed.

(** Runs the next creation of a sequence: [H] is its [fills] fact. *)
Ltac creation_step H r w' Hc Hg Ho :=
  let x := fresh "x" in
  let Hrun := fresh "Hrun" in
  destruct H as (r & w' & [x Hrun] & Hc & Hg & Ho);
  [..|rewrite Hrun; cbv beta iota].

Lemma setup_for_grpc_runs w host port protocol hcport :
  reliable (remote w) ->
  resources (obj w) !! health_check = None ->
  default BackendServiceProtocol.GRPC protocol
    <> BackendServiceProtocol.UNSET ->
  exists hc bs um tp fr tp6 fr6 w',
    setup_for_grpc host port protocol hcport w = (Return tt, w')
    /\ calls w'
       = calls w ++
         provisioning (obj w) host port
           (default BackendServiceProtocol.GRPC protocol) hcport hc bs um tp
         ++ (if enable_dualstack (obj w)
             then provisioning_ipv6 (obj w) port um tp6 else [])
    /\ resources (obj w')
       = (if enable_dualstack (obj w)
          then provisioned_ipv6 tp6 fr6 else id)
           (provisioned hc bs um tp fr (resources (obj w)))
    /\ backend_service_protocol (obj w')
       = default BackendServiceProtocol.GRPC protocol
    /\ target_proxy_is_http (obj w')
       = http_kind (default BackendServiceProtocol.GRPC protocol)
    /\ enable_dualstack (obj w') = enable_dualstack (obj w)
    /\ _ensure_firewall (obj w') = _ensure_firewall (obj w)
    /\ remote w' = remote w.
Proof.
  intros Hw Hhc Hp.
  unfold setup_for_grpc, setup_backend_for_grpc,
    setup_routing_rule_map_for_grpc.
  unfold mbind, Py_bind.
  creation_step (create_health_check_fills (Some _HealthCheckGRPC) hcport w
                   Hw Hhc) hc w1 Hc1 Hg1 Ho1.
  assert (reliable (remote w1)) as Hw1 by (by rewrite Hg1).
  creation_step (create_backend_service_fills protocol w1 Hw1)
    bs w2 Hc2 Hg2 Ho2.
  assert (reliable (remote w2)) as Hw2 by (by rewrite Hg2).
  assert (resources (obj w2) !! backend_service = Some bs) as Hbs
    by (rewrite Ho2; apply lookup_insert_eq).
  creation_step (create_url_map_fills host port bs w2 Hw2 Hbs)
    um w3 Hc3 Hg3 Ho3.
  assert (reliable (remote w3)) as Hw3 by (by rewrite Hg3).
  assert (resources (obj w3) !! url_map = Some um) as Hum
    by (rewrite Ho3; apply lookup_insert_eq).
  assert (backend_service_protocol (obj w3)
          = default BackendServiceProtocol.GRPC protocol) as Hp3
    by (by rewrite Ho3, Ho2).
  assert (backend_service_protocol (obj w3) <> BackendServiceProtocol.UNSET)
    as Hp3' by (by rewrite Hp3).
  creation_step (create_target_proxy_fills um w3 Hw3 Hum Hp3')
    tp w4 Hc4 Hg4 Ho4.
  assert (reliable (remote w4)) as Hw4 by (by rewrite Hg4).
  assert (resources (obj w4) !! target_proxy = Some tp) as Htp
    by (rewrite Ho4; apply lookup_insert_eq).
  creation_step (create_forwarding_rule_fills port tp w4 Hw4 Htp)
    fr w5 Hc5 Hg5 Ho5.
  assert (reliable (remote w5)) as Hw5 by (by rewrite Hg5).
  unfold id in *. rewrite Hp3 in Ho4, Hc4.
  rewrite Ho1 in Ho2, Hc2. rewrite Ho2 in Ho3, Hc3. rewrite Ho3 in Ho4, Hc4.
  rewrite Ho4 in Ho5, Hc5.
  cbn [resources set_resources] in Hc2. rewrite lookup_insert_eq in Hc2.
  rewrite Hc1 in Hc2. rewrite Hc2 in Hc3. rewrite Hc3 in Hc4.
  rewrite Hc4 in Hc5. rewrite <- !app_assoc in Hc5.
  clear Hc1 Hc2 Hc3 Hc4 Ho1 Ho2 Ho3 Ho4 Hp3 Hp3' Hbs Hum Htp.
  unfold self. cbv beta iota.
  assert (enable_dualstack (obj w5) = enable_dualstack (obj w)) as Hds
    by (by rewrite Ho5).
  rewrite Hds.
  destruct (enable_dualstack (obj w)) eqn:E.
  - assert (resources (obj w5) !! url_map = Some um) as Hum.
    { rewrite Ho5. cbn. rewrite !lookup_insert_ne by done.
      apply lookup_insert_eq. }
    creation_step (create_target_proxy_ipv6_fills um w5 Hw5 Hum)
      tp6 w6 Hc6 Hg6 Ho6.
    assert (reliable (remote w6)) as Hw6 by (by rewrite Hg6).
    assert (resources (obj w6) !! target_proxy_ipv6 = Some tp6) as Htp6
      by (rewrite Ho6; apply lookup_insert_eq).
    creation_step (create_forwarding_rule_ipv6_fills port tp6 w6 Hw6 Htp6)
      fr6 w7 Hc7 Hg7 Ho7.
    unfold id in *.
    exists hc, bs, um, tp, fr, tp6, fr6, w7.
    split; [done|].
    rewrite Ho7, Ho6, Ho5, Hc7, Hc6, Hc5, Ho6, Ho5.
    rewrite <- !app_assoc.
    repeat split; [done|congruence].
  - exists hc, bs, um, tp, fr, hc, hc, w5.
    split; [done|].
    rewrite Ho5, Hc5, app_nil_r.
    repeat split; [done|congruence].
Qed.



Ltac lookup_provisioned :=
  unfold provisioned, provisioned_ipv6, id;
  repeat first [ rewrite lookup_insert_eq
               | rewrite lookup_insert_ne by done ];
  rewrite ?lookup_empty.

Lemma firewall_cleared_unset s :
  _ensure_firewall s = false -> firewall_cleared s = s.
Proof. intros H. unfold firewall_cleared. by rewrite H. Qed.

(** X8. Cleanup undoes setup.  On a reliable control plane and a manager
    that holds nothing, an unforced cleanup after [setup_for_grpc] deletes
    exactly the handles setup stored, each by the name in the handle: the
    forwarding rule, the proxy through the gateway of its kind, on a
    dual-stack manager the IPv6 forwarding rule and proxy, then the URL map,
    the backend service and the health check; after it the manager holds
    nothing again. *)
Theorem cleanup_undoes_setup w host port protocol hcport :
  reliable (remote w) ->
  resources (obj w) = ∅ ->
  _ensure_firewall (obj w) = false ->
  default BackendServiceProtocol.GRPC protocol
    <> BackendServiceProtocol.UNSET ->
  let p := default BackendServiceProtocol.GRPC protocol in
  let w' := after (setup_for_grpc host port protocol hcport) w in
  exists hc bs um tp fr tp6 fr6,
    resources (obj w')
    = (if enable_dualstack (obj w) then provisioned_ipv6 tp6 fr6 else id)
        (provisioned hc bs um tp fr ∅)
    /\ emitted (cleanup false) w'
       = teardown p (enable_dualstack (obj w)) hc bs um tp fr tp6 fr6
    /\ resources (obj (after (cleanup false) w')) = ∅.
Proof.
  intros Hw Hempty Hfw Hp p w'.
  assert (resources (obj w) !! health_check = None) as Hhc
    by (by rewrite Hempty).
  destruct (setup_for_grpc_runs w host port protocol hcport Hw Hhc Hp)
    as (hc & bs & um & tp & fr & tp6 & fr6 & w1 & Hrun & Hc & Hr & Hbp
        & Hhttp & Hds & Hfw1 & Hg).
  assert (w' = w1) as -> by (subst w'; unfold after; by rewrite Hrun).
  subst p.
  rewrite Hempty in Hr. rewrite Hfw in Hfw1.
  assert (reliable (remote w1)) as Hw1 by (by rewrite Hg).
  exists hc, bs, um, tp, fr, tp6, fr6.
  split; [exact Hr|]. split.
  - rewrite (emitted_deletes _ _ _ _ _ (cleanup_deletes false) Hw1).
    unfold cleanup_before, target_proxy_deletions, cleanup_after,
      cleanup_dualstack, firewall_deletions, target, teardown.
    rewrite Hfw1, Hds, Hhttp, Hr.
    destruct (enable_dualstack (obj w)); lookup_provisioned;
      by destruct protocol as [[]|].
  - destruct (cleanup_transforms false w1 Hw1) as (w2 & Hrun2 & Ho2 & _).
    unfold after. rewrite Hrun2. cbn [snd]. rewrite Ho2.
    unfold cleaned_up. rewrite (firewall_cleared_unset _ Hfw1).
    apply map_eq. intros a. rewrite lookup_empty.
    destruct (enable_dualstack (obj w)) eqn:E.
    + destruct a; lookup_cleaned;
        first [ done
              | rewrite dualstack_cleared_eq;
                [done | by settings_cleaned | by auto]
              | rewrite Hr; by lookup_provisioned ].
    + assert (forall s, enable_dualstack s = false ->
                dualstack_cleared s = s) as Hoff
        by (intros s Hs; unfold dualstack_cleared; by rewrite Hs).
      rewrite Hoff by (by settings_cleaned).
      destruct a; lookup_cleaned;
        first [ done | rewrite Hr; by lookup_provisioned ].
Qed.

Lemma cleanup_undoes_setup_witness :
  resources
    (obj (after (cleanup false)
            (after (setup_for_grpc "svc.example" 8080 None None)
               (world_of fresh accepting))))
  = ∅.
Proof.
  destruct (cleanup_undoes_setup (world_of fresh accepting) "svc.example"
              8080 None None)
    as (hc & bs & um & tp & fr & tp6 & fr6 & _ & _ & H);
    [by vm_compute | by vm_compute | by vm_compute | by vm_compute |].
  exact H.
Defined.

(** ** Missing dependencies *)




(** ** C5: creating into a [Present] slot, every creator *)

Lemma make_resource_name_set_resources m s name :
  make_resource_name (set_resources m s) name = make_resource_name s name.
Proof. reflexivity. Qed.

Ltac lookup_slots :=
  repeat first
    [ rewrite lookup_insert_eq
    | rewrite lookup_delete_eq
    | rewrite make_resource_name_set_resources
    | rewrite lookup_insert_ne by done
    | rewrite lookup_delete_ne by done ].

Ltac overwrites_cases :=
  repeat (match goal with
          | |- context [nonempty ?x] => destruct (nonempty x)
          | |- context [backend_service_protocol ?s] =>
              is_var s; destruct (backend_service_protocol s)
          | |- context [resources ?s !! ?a] =>
              is_var s; destruct (resources s !! a)
          | |- context [raises ?g ?h ?c] => destruct (raises g h c)
          | |- context [if ?b then _ else _] => is_var b; destruct b
          | |- context [match ?o with Some _ => _ | None => _ end] =>
              is_var o; destruct o
          end;
          cbn -[make_resource_name _generate_url_map_body pretty nonempty
                String.append];
          lookup_slots).

Ltac overwrites_done :=
  split; [reflexivity|]; split; [reflexivity|];
  let x := fresh "x" in
  let Hx := fresh "Hx" in
  intros x Hx; first
    [ discriminate Hx
    | split;
      [ rewrite ?insert_insert_eq, ?insert_delete_eq; first
          [ reflexivity
          | unfold set_ensure_firewall, set_resources; cbn; f_equal;
            apply map_eq; intros []; by lookup_slots ]
      | rewrite <- ?app_assoc, ?drop_app_length; first
          [ by (eexists [], _, _; split; [reflexivity|];
                rewrite app_nil_r; lookup_slots)
          | by (eexists [_], _, _; split; [reflexivity|]; lookup_slots) ] ] ].

Ltac overwrites_now :=
  let s := fresh "s" in
  let g := fresh "g" in
  let cs := fresh "cs" in
  unfold overwrites; cbv zeta; intros;
  match goal with w : World |- _ => destruct w as [s g ? ? cs ?] end;
  autounfold with td_creators;
  unfold create_url_map_with_content, network_url;
  py_unfold;
  cbn -[make_resource_name _generate_url_map_body pretty nonempty
        String.append];
  lookup_slots;
  overwrites_cases;
  py_unfold;
  cbn -[make_resource_name _generate_url_map_body pretty nonempty
        String.append];
  lookup_slots;
  overwrites_cases;
  overwrites_done.

Lemma create_backend_service_overwrites protocol subset_size affinity_header
    locality_lb_policies outlier_detection :
  overwrites
    (create_backend_service protocol subset_size affinity_header
       locality_lb_policies outlier_detection) backend_service.
Proof. overwrites_now. Qed.

Lemma create_url_map_overwrites host port :
  overwrites (create_url_map host port) url_map.
Proof. overwrites_now. Qed.

Lemma create_target_proxy_overwrites :
  overwrites create_target_proxy target_proxy.
Proof. overwrites_now. Qed.

Lemma create_firewall_rules_overwrites ports source_range source_range_ipv6 :
  (nonempty source_range = true ->
   overwrites (create_firewall_rules ports source_range source_range_ipv6)
     firewall_rule)
  /\ (nonempty source_range_ipv6 = true ->
      overwrites (create_firewall_rules ports source_range source_range_ipv6)
        firewall_rule_ipv6).
Proof.
  split; intros H; unfold overwrites; intros w old; revert w old;
    intros [s g ? ? cs ?] ?; cbv zeta;
    autounfold with td_creators; unfold network_url; py_unfold;
    cbn -[make_resource_name _generate_url_map_body pretty nonempty
          String.append];
    rewrite H;
    cbn -[make_resource_name _generate_url_map_body pretty nonempty
          String.append];
    lookup_slots; overwrites_cases; overwrites_done.
Qed.

Lemma create_mesh_overwrites :
  overwrites TrafficDirectorAppNetManager.create_mesh mesh.
Proof. overwrites_now. Qed.

Lemma create_alternative_backend_service_overwrites protocol :
  overwrites (create_alternative_backend_service protocol)
    alternative_backend_service.
Proof. overwrites_now. Qed.

Lemma create_affinity_backend_service_overwrites protocol :
  overwrites (create_affinity_backend_service protocol)
    affinity_backend_service.
Proof. overwrites_now. Qed.

Lemma create_url_map_with_content_overwrites body :
  overwrites (create_url_map_with_content body) url_map.
Proof. overwrites_now. Qed.

Lemma create_alternative_url_map_overwrites host port backend_service :
  overwrites (create_alternative_url_map host port backend_service)
    alternative_url_map.
Proof. overwrites_now. Qed.

Lemma create_target_proxy_ipv6_overwrites :
  overwrites create_target_proxy_ipv6 target_proxy_ipv6.
Proof. overwrites_now. Qed.

Lemma create_alternative_target_proxy_overwrites :
  overwrites create_alternative_target_proxy alternative_target_proxy.
Proof. overwrites_now. Qed.

Lemma create_forwarding_rule_overwrites port :
  overwrites (create_forwarding_rule port) forwarding_rule.
Proof. overwrites_now. Qed.

Lemma create_forwarding_rule_ipv6_overwrites port :
  overwrites (create_forwarding_rule_ipv6 port) forwarding_rule_ipv6.
Proof. overwrites_now. Qed.

Lemma create_alternative_forwarding_rule_overwrites port ip :
  overwrites (create_alternative_forwarding_rule port ip)
    alternative_forwarding_rule.
Proof. overwrites_now. Qed.

Lemma create_grpc_route_overwrites host port :
  overwrites (TrafficDirectorAppNetManager.create_grpc_route host port)
    grpc_route.
Proof. overwrites_now. Qed.

Lemma create_grpc_route_with_content_overwrites body :
  overwrites
    (TrafficDirectorAppNetManager.create_grpc_route_with_content body)
    grpc_route.
Proof. overwrites_now. Qed.

Lemma create_http_route_with_content_overwrites body :
  overwrites
    (TrafficDirectorAppNetManager.create_http_route_with_content body)
    http_route.
Proof. overwrites_now. Qed.

Lemma create_authz_policy_overwrites action rules :
  overwrites
    (TrafficDirectorSecureManager.create_authz_policy action rules)
    authz_policy.
Proof. overwrites_now. Qed.

Lemma create_endpoint_policy_overwrites ns name port :
  overwrites
    (TrafficDirectorSecureManager.create_endpoint_policy ns name port)
    endpoint_policy.
Proof. overwrites_now. Qed.

Lemma create_server_tls_policy_overwrites tls mtls :
  tls || mtls = true ->
  overwrites (TrafficDirectorSecureManager.create_server_tls_policy tls mtls)
    server_tls_policy.
Proof. intros H. destruct tls, mtls; try discriminate H; overwrites_now. Qed.

Lemma create_client_tls_policy_overwrites tls mtls :
  tls || mtls = true ->
  overwrites (TrafficDirectorSecureManager.create_client_tls_policy tls mtls)
    client_tls_policy.
Proof. intros H. destruct tls, mtls; try discriminate H; overwrites_now. Qed.

(** C5 (amended). Only [create_health_check] guards its slot: on a [Present]
    health check it raises [ValueError] before any remote call and changes
    nothing.  No other creator looks at its slot.  [create_backend_service]
    on a [Present] slot issues the remote creation and stores the answer;
    and each of the other creators, run with its slot [Present], returns or
    raises as it does with the slot empty, issues the same calls and, when
    it returns, leaves the object the run on the empty slot leaves: the old
    handle is replaced by the control plane's answer.  The two TLS policy
    creators are taken with [tls] or [mtls] set, the firewall creation with a
    non-empty source range: without, they create nothing.  A slot holds a
    single optional handle, so it never holds two. *)
Theorem create_guard_health_check_only :
  (forall protocol port,
     rejects_present health_check (create_health_check protocol port))
  /\ (forall w old protocol subset_size affinity_header locality_lb_policies
        outlier_detection,
        resources (obj w) !! backend_service = Some old ->
        let m := create_backend_service protocol subset_size affinity_header
                   locality_lb_policies outlier_detection in
        let c := Compute (compute.create_backend_service_traffic_director
                   (make_resource_name (obj w) BACKEND_SERVICE_NAME)
                   (resources (obj w) !! health_check)
                   (default _BackendGRPC protocol) subset_size affinity_header
                   locality_lb_policies outlier_detection
                   (enable_dualstack (obj w))) in
        calls (after m w) = calls w ++ [c]
        /\ (raises (remote w) (calls w) c = None ->
            outcome m w = Return tt
            /\ resources (obj (after m w)) !! backend_service
               = Some (resource (remote w) (calls w) c)))
  /\ (forall protocol subset_size affinity_header locality_lb_policies
        outlier_detection,
        overwrites
          (create_backend_service protocol subset_size affinity_header
             locality_lb_policies outlier_detection) backend_service)
  /\ (forall protocol,
        overwrites (create_alternative_backend_service protocol)
          alternative_backend_service)
  /\ (forall protocol,
        overwrites (create_affinity_backend_service protocol)
          affinity_backend_service)
  /\ (forall host port, overwrites (create_url_map host port) url_map)
  /\ (forall body, overwrites (create_url_map_with_content body) url_map)
  /\ (forall host port backend_service,
        overwrites (create_alternative_url_map host port backend_service)
          alternative_url_map)
  /\ overwrites create_target_proxy target_proxy
  /\ overwrites create_target_proxy_ipv6 target_proxy_ipv6
  /\ overwrites create_alternative_target_proxy alternative_target_proxy
  /\ (forall port, overwrites (create_forwarding_rule port) forwarding_rule)
  /\ (forall port,
        overwrites (create_forwarding_rule_ipv6 port) forwarding_rule_ipv6)
  /\ (forall port ip,
        overwrites (create_alternative_forwarding_rule port ip)
          alternative_forwarding_rule)
  /\ (forall ports source_range source_range_ipv6,
        (nonempty source_range = true ->
         overwrites
           (create_firewall_rules ports source_range source_range_ipv6)
           firewall_rule)
        /\ (nonempty source_range_ipv6 = true ->
            overwrites
              (create_firewall_rules ports source_range source_range_ipv6)
              firewall_rule_ipv6))
  /\ overwrites TrafficDirectorAppNetManager.create_mesh mesh
  /\ (forall host port,
        overwrites (TrafficDirectorAppNetManager.create_grpc_route host port)
          grpc_route)
  /\ (forall body,
        overwrites
          (TrafficDirectorAppNetManager.create_grpc_route_with_content body)
          grpc_route)
  /\ (forall body,
        overwrites
          (TrafficDirectorAppNetManager.create_http_route_with_content body)
          http_route)
  /\ (forall tls mtls,
        tls || mtls = true ->
        overwrites
          (TrafficDirectorSecureManager.create_server_tls_policy tls mtls)
          server_tls_policy)
  /\ (forall tls mtls,
        tls || mtls = true ->
        overwrites
          (TrafficDirectorSecureManager.create_client_tls_policy tls mtls)
          client_tls_policy)
  /\ (forall action rules,
        overwrites
          (TrafficDirectorSecureManager.create_authz_policy action rules)
          authz_policy)
  /\ (forall ns name port,
        overwrites
          (TrafficDirectorSecureManager.create_endpoint_policy ns name port)
          endpoint_policy).
Proof.
  split.
  { intros protocol port w [hc Hhc]. eexists.
    unfold create_health_check. py_unfold. by rewrite Hhc. }
  split.
  { intros [s g e d cs lg] old protocol ? ? ? ? Hold.
    unfold create_backend_service. py_unfold. cbn in *.
    destruct (raises g cs _) eqn:E; cbn; [done|].
    split; [done|]. intros _. split; [done|].
    apply lookup_insert_eq. }
  split; [exact create_backend_service_overwrites|].
  split; [exact create_alternative_backend_service_overwrites|].
  split; [exact create_affinity_backend_service_overwrites|].
  split; [exact create_url_map_overwrites|].
  split; [exact create_url_map_with_content_overwrites|].
  split; [exact create_alternative_url_map_overwrites|].
  split; [exact create_target_proxy_overwrites|].
  split; [exact create_target_proxy_ipv6_overwrites|].
  split; [exact create_alternative_target_proxy_overwrites|].
  split; [exact create_forwarding_rule_overwrites|].
  split; [exact create_forwarding_rule_ipv6_overwrites|].
  split; [exact create_alternative_forwarding_rule_overwrites|].
  split; [exact create_firewall_rules_overwrites|].
  split; [exact create_mesh_overwrites|].
  split; [exact create_grpc_route_overwrites|].
  split; [exact create_grpc_route_with_content_overwrites|].
  split; [exact create_http_route_with_content_overwrites|].
  split; [exact create_server_tls_policy_overwrites|].
  split; [exact create_client_tls_policy_overwrites|].
  split; [exact create_authz_policy_overwrites|].
  exact create_endpoint_policy_overwrites.
Qed.

Lemma create_guard_health_check_only_witness :
  (exists msg,
     create_health_check None None w_grpc = (Raise (ValueError msg), w_grpc))
  /\ outcome (create_backend_service None None None None None) w_grpc
     = Return tt
  /\ (forall x,
        outcome (TrafficDirectorSecureManager.create_server_tls_policy
                   true false)
          (after (setattr server_tls_policy
                    (Some (GcpResource.Build "old" "global/old")))
             w_grpc) = Return x ->
        obj (after (TrafficDirectorSecureManager.create_server_tls_policy
                      true false)
               (after (setattr server_tls_policy
                         (Some (GcpResource.Build "old" "global/old")))
                  w_grpc))
        = obj (after (TrafficDirectorSecureManager.create_server_tls_policy
                        true false)
                 (after (setattr server_tls_policy None) w_grpc))).
Proof.
  destruct create_guard_health_check_only
    as (Hhc & Hbs & _ & _ & _ & _ & _ & _ & _ & _ & _ & _ & _ & _ & _ & _ & _
        & _ & _ & Htls & _).
  split; [|split].
  - apply (Hhc None None w_grpc). vm_compute. by eexists.
  - destruct (Hbs w_grpc (GcpResource.Build "psm-interop-backend-service-t1"
                "global/psm-interop-backend-service-t1")
                None None None None None) as [_ H]; [by vm_compute|].
    apply H. reflexivity.
  - intros x Hx.
    apply (proj2 (proj2 (Htls true false eq_refl w_grpc
                           (GcpResource.Build "old" "global/old"))) x Hx).
Defined.

(** ** C1: order of teardown, in full *)

(** Finds the position a hypothesis [l !! i = Some a] on a literal list
    speaks of. *)
Ltac pin i H :=
  destruct i as [|i]; cbn in H;
  [ try discriminate H | first [ discriminate H | pin i H ] ].

Lemma schedules_in_reverse_dependency_order dualstack :
  in_reverse_dependency_order (base_schedule dualstack)
  /\ in_reverse_dependency_order (appnet_schedule dualstack)
  /\ in_reverse_dependency_order (secure_schedule dualstack).
Proof.
  repeat split; intros i j a b Hi Hj Hab.
  all: destruct dualstack; destruct a, b; try discriminate Hab.
  all: unfold appnet_schedule, secure_schedule, base_schedule in Hi, Hj.
  all: cbn in Hi, Hj.
  all: pin i Hi; pin j Hj; lia.
Qed.

Lemma base_trace_schedule force s :
  cleanup_before force s ++ target_proxy_deletions force s ++
  cleanup_after force s
  = concat (slot_deletions force s <$> base_schedule (enable_dualstack s)).
Proof.
  unfold cleanup_before, cleanup_after, cleanup_dualstack, firewall_deletions,
    base_schedule, slot_deletions.
  destruct (enable_dualstack s), (_ensure_firewall s); cbn;
    by rewrite <- ?app_assoc, ?app_nil_r.
Qed.

Ltac not_in_schedule H :=
  unfold base_schedule in H; cbn in H;
  repeat (apply elem_of_cons in H as [H|H]; [discriminate H|]);
  by apply elem_of_nil in H.

Ltac in_schedule :=
  unfold base_schedule; cbn;
  repeat first [apply list_elem_of_here | apply list_elem_of_further].

Lemma appnet_extension_first dualstack :
  extension_first (appnet_schedule dualstack).
Proof.
  intros i j a b Hi Hj Ha Hb.
  destruct dualstack; unfold appnet_schedule, base_schedule in Hi, Hj;
    cbn in Hi, Hj.
  all: pin i Hi; injection Hi as <-;
    try (by (exfalso; apply Ha; in_schedule)).
  all: pin j Hj; injection Hj as <-; first [lia | not_in_schedule Hb].
Qed.

Lemma secure_extension_last dualstack :
  ~ extension_first (secure_schedule dualstack).
Proof.
  intros H.
  assert (endpoint_policy ∉ base_schedule true) as Ha
    by (intros Hin; not_in_schedule Hin).
  assert (firewall_rule ∈ base_schedule true) as Hb by in_schedule.
  destruct dualstack.
  - specialize (H 14%nat 0%nat endpoint_policy firewall_rule eq_refl eq_refl
                  Ha Hb). lia.
  - specialize (H 12%nat 0%nat endpoint_policy firewall_rule eq_refl eq_refl
                  Ha Hb). lia.
Qed.

(** C1 (amended). For every variant teardown runs in strict reverse
    dependency order: on a reliable control plane the cleanup returns
    having visited the slots of its schedule one after the other, deleting
    what each holds (under [force]: what it would hold), and in each
    schedule whatever refers to a resource comes before that resource.  The
    mesh extension visits the HTTP route, the gRPC route and the mesh and
    then the base slots: extension first, base last.  The security
    extension visits the base slots first and then the endpoint policy, the
    server TLS policy, the client TLS policy and the authorization policy:
    base first, extension last, the backend service referring to the client
    TLS policy.  Whatever the control plane answers, the calls of a cleanup
    come in these blocks. *)
Theorem cleanup_order (force : bool) (w : World) :
  (exists routes meshes base,
     emitted (TrafficDirectorAppNetManager.cleanup force) w
       = routes ++ meshes ++ base
     /\ all is_route_deletion routes /\ all is_mesh_deletion meshes
     /\ all is_base_call base)
  /\ precedes is_extension_call is_base_call
       (emitted (TrafficDirectorAppNetManager.cleanup force) w)
  /\ (exists base endpoint server client authz,
        emitted (TrafficDirectorSecureManager.cleanup force) w
          = base ++ endpoint ++ server ++ client ++ authz
        /\ all is_base_call base
        /\ all is_endpoint_policy_deletion endpoint
        /\ all is_server_tls_policy_deletion server
        /\ all is_client_tls_policy_deletion client
        /\ all is_authz_policy_deletion authz)
  /\ precedes is_base_call is_extension_call
       (emitted (TrafficDirectorSecureManager.cleanup force) w)
  /\ (reliable (remote w) ->
      let s := obj w in
      let visits schedule :=
        concat (slot_deletions force s <$> schedule (enable_dualstack s)) in
      outcome (cleanup force) w = Return tt
      /\ outcome (TrafficDirectorAppNetManager.cleanup force) w = Return tt
      /\ outcome (TrafficDirectorSecureManager.cleanup force) w = Return tt
      /\ emitted (cleanup force) w = visits base_schedule
      /\ emitted (TrafficDirectorAppNetManager.cleanup force) w
         = visits appnet_schedule
      /\ emitted (TrafficDirectorSecureManager.cleanup force) w
         = visits secure_schedule)
  /\ (forall dualstack,
        in_reverse_dependency_order (base_schedule dualstack)
        /\ in_reverse_dependency_order (appnet_schedule dualstack)
        /\ in_reverse_dependency_order (secure_schedule dualstack))
  /\ (forall dualstack, extension_first (appnet_schedule dualstack))
  /\ (forall dualstack, ~ extension_first (secure_schedule dualstack)).
Proof.
  destruct (cleanup_class_blocks force w) as (H1 & H2 & H3 & H4).
  split; [exact H1|]. split; [exact H2|]. split; [exact H3|].
  split; [exact H4|].
  split; [|split; [exact schedules_in_reverse_dependency_order|
                   split; [exact appnet_extension_first|
                           exact secure_extension_last]]].
  intros Hw s visits. subst visits s.
  destruct (cleanup_deletes force w Hw) as (wb & Hb & _).
  destruct (appnet_cleanup_deletes force w Hw) as (wa & Ha & _).
  destruct (secure_cleanup_deletes force w Hw) as (ws & Hs & _).
  unfold outcome. rewrite Hb, Ha, Hs.
  split; [done|]. split; [done|]. split; [done|].
  rewrite (emitted_deletes _ _ _ _ _ (cleanup_deletes force) Hw).
  rewrite (emitted_deletes _ _ _ _ _ (appnet_cleanup_deletes force) Hw).
  rewrite (emitted_deletes _ _ _ _ _ (secure_cleanup_deletes force) Hw).
  rewrite !base_trace_schedule.
  unfold appnet_schedule, secure_schedule.
  rewrite !fmap_app, !concat_app. cbn.
  split; [done|].
  split; by rewrite ?app_nil_r, <- ?app_assoc.
Qed.

Lemma cleanup_order_witness :
  emitted (TrafficDirectorAppNetManager.cleanup false) w_meshed
  = [ NetSvc (netsvc.delete_grpc_route "psm-interop-grpc-route-t1");
      NetSvc (netsvc.delete_mesh "psm-interop-mesh-t1");
      Compute (compute.delete_forwarding_rule
                 "psm-interop-forwarding-rule-t1");
      Compute (compute.delete_target_grpc_proxy
                 "psm-interop-target-proxy-t1");
      Compute (compute.delete_url_map "psm-interop-url-map-t1");
      Compute (compute.delete_backend_service
                 "psm-interop-backend-service-t1");
      Compute (compute.delete_health_check "psm-interop-health-check-t1") ].
Proof.
  destruct (cleanup_order false w_meshed) as (_ & _ & _ & _ & H & _).
  destruct H as (_ & _ & _ & _ & Happ & _); [by intros h c|].
  rewrite Happ. by vm_compute.
Defined.
